(** * Marketing dashboard: CSV analysis pipeline and schedule calculator

    A shallow embedding of the pure core of the dashboard backend:

    - [backend/dashboard/analyze.ts]: the CSV parser, the column
      classifier, the filter engine, the time-series block of the chart
      builder and the decoding of the generation service's reply;
    - [backend/dashboard/upload.ts]: the CSV validation of the upload path;
    - the scheduler service: [calculateNextRun].

    Conventions of the embedding.

    - A JavaScript string is a [string]; the model is exact on ASCII text
      (white space and letter case outside ASCII are not interpreted).
    - A JavaScript number is a [number]: NaN, the two infinities, or a
      finite value kept as an exact rational, so that a decimal text
      denotes its exact value and sums are exact.  Rounding to binary64
      is not modelled.  The thresholds of the classifier are compared on
      integers, and checked against their binary64 form.
    - [undefined] is [None]; a thrown [Error] is the [Err] branch of
      [result], carrying the message of the source.
    - A [Date] is its time value: [Some ms] since the epoch, or [None] for
      an invalid date. *)

From Stdlib Require Import ZArith QArith Qround Ascii String List Bool Lia.
From Stdlib Require Import Floats Uint63 Sorted.
From stdpp Require Import base strings gmap list pretty.

Import ListNotations.
Local Open Scope string_scope.
Local Open Scope list_scope.

(** ** Thrown errors *)

Inductive result (A : Type) : Type :=
| Ok (a : A)
| Err (message : string).
Arguments Ok {A} a.
Arguments Err {A} message.

Definition is_ok {A} (r : result A) : bool :=
  match r with Ok _ => true | Err _ => false end.

(** ** Strings *)

Module Str.

Definition eqc (a b : ascii) : bool := Ascii.eqb a b.

(** The double quote, line feed and carriage return characters. *)
Definition dquote : ascii := "034".
Definition LF : ascii := "010".
Definition CR : ascii := "013".

(** White space and line terminators of ECMAScript in the ASCII range:
    TAB, LF, VT, FF, CR and SPACE. *)
Definition is_space (c : ascii) : bool :=
  let n := nat_of_ascii c in
  (Nat.leb 9 n && Nat.leb n 13) || Nat.eqb n 32.

Fixpoint trimStart (s : string) : string :=
  match s with
  | String c tl => if is_space c then trimStart tl else s
  | EmptyString => EmptyString
  end.

(** [trimEnd] keeps a character when it is not white space or when
    something remains after it. *)
Fixpoint trimEnd (s : string) : string :=
  match s with
  | String c tl =>
      match trimEnd tl with
      | EmptyString => if is_space c then EmptyString else String c EmptyString
      | tl' => String c tl'
      end
  | EmptyString => EmptyString
  end.

Definition trim (s : string) : string := trimEnd (trimStart s).

Definition is_empty (s : string) : bool :=
  match s with EmptyString => true | _ => false end.

(** [s.toLowerCase()] *)
Definition lower_char (c : ascii) : ascii :=
  let n := nat_of_ascii c in
  if Nat.leb 65 n && Nat.leb n 90 then ascii_of_nat (n + 32) else c.

Fixpoint toLowerCase (s : string) : string :=
  match s with
  | String c tl => String (lower_char c) (toLowerCase tl)
  | EmptyString => EmptyString
  end.

(** [s.includes(k)] *)
Fixpoint includes (k s : string) : bool :=
  String.prefix k s ||
  match s with
  | String _ tl => includes k tl
  | EmptyString => false
  end.

(** [s.split(sep)] for a one-character separator: the pieces between
    the separators, the last one included even when empty. *)
Fixpoint split_go (sep : ascii) (current : string) (s : string) : list string :=
  match s with
  | String c tl =>
      if eqc c sep then current :: split_go sep EmptyString tl
      else split_go sep (current +:+ String c EmptyString) tl
  | EmptyString => [current]
  end.

Definition split (sep : ascii) (s : string) : list string :=
  split_go sep EmptyString s.

(** [s.split(/\r?\n/)]: a line feed, together with a carriage return
    right before it, separates two pieces. *)
Fixpoint splitLines_go (current : string) (s : string) : list string :=
  match s with
  | String c tl =>
      if eqc c LF then current :: splitLines_go EmptyString tl
      else
        match tl with
        | String c' rest =>
            if eqc c CR && eqc c' LF
            then current :: splitLines_go EmptyString rest
            else splitLines_go (current +:+ String c EmptyString) tl
        | EmptyString => [current +:+ String c EmptyString]
        end
  | EmptyString => [current]
  end.

Definition splitLines (s : string) : list string :=
  splitLines_go EmptyString s.

(** [s.replace(/[$,%]/g, '')] *)
Fixpoint stripFormatting (s : string) : string :=
  match s with
  | String c tl =>
      if eqc c "$" || eqc c "," || eqc c "%"
      then stripFormatting tl
      else String c (stripFormatting tl)
  | EmptyString => EmptyString
  end.

(** [parts.join(sep)] *)
Fixpoint join (sep : string) (parts : list string) : string :=
  match parts with
  | [] => EmptyString
  | [p] => p
  | p :: ps => p +:+ sep +:+ join sep ps
  end.

End Str.

(** ** Arrays *)

Module Arr.

(** [xs.indexOf(x)] on an array of strings: the first position of [x],
    or [-1]. *)
Fixpoint indexOf_from (i : Z) (xs : list string) (x : string) : Z :=
  match xs with
  | [] => (-1)%Z
  | y :: ys => if String.eqb y x then i else indexOf_from (i + 1)%Z ys x
  end.

Definition indexOf (xs : list string) (x : string) : Z := indexOf_from 0%Z xs x.

(** [xs[i]]: [undefined] outside the array, in particular at [-1]. *)
Definition at_ {A} (xs : list A) (i : Z) : option A :=
  if (i <? 0)%Z then None else nth_error xs (Z.to_nat i).

(** [xs.includes(x)] on an array of strings. *)
Definition includes (xs : list string) (x : string) : bool :=
  existsb (String.eqb x) xs.

(** [xs.slice(0, n)] *)
Definition slice0 {A} (n : nat) (xs : list A) : list A := firstn n xs.

(** [xs.filter((x, index) => f(x, index))] *)
Fixpoint filteri_from {A} (i : nat) (f : A -> nat -> bool) (xs : list A) : list A :=
  match xs with
  | [] => []
  | x :: tl =>
      if f x i then x :: filteri_from (S i) f tl else filteri_from (S i) f tl
  end.

Definition filteri {A} (f : A -> nat -> bool) (xs : list A) : list A :=
  filteri_from 0 f xs.

End Arr.

(** [!value] for a possibly missing string: [undefined] and the empty
    string are falsy. *)
Definition falsy (v : option string) : bool :=
  match v with
  | None => true
  | Some s => Str.is_empty s
  end.

(** ** The CSV parser (analyze.ts) *)

Record ParseResult := mkParseResult {
  headers : list string;
  rows : list (list string)
}.

(** The [while] loop of [parseCSVLine]: one step per character, two for an
    escaped quote.  [result], [current] and [inQuotes] are the loop's
    variables; the last field is pushed when the line is exhausted. *)
Fixpoint parseCSVLine_loop (result : list string) (current : string)
    (inQuotes : bool) (line : string) : list string :=
  match line with
  | String char tl =>
      if Str.eqc char Str.dquote then
        match tl with
        | String next rest =>
            if inQuotes && Str.eqc next Str.dquote
            then parseCSVLine_loop result (current +:+ String Str.dquote EmptyString) inQuotes rest
            else parseCSVLine_loop result current (negb inQuotes) tl
        | EmptyString => parseCSVLine_loop result current (negb inQuotes) tl
        end
      else if Str.eqc char "," && negb inQuotes then
        parseCSVLine_loop (result ++ [Str.trim current]) EmptyString inQuotes tl
      else
        parseCSVLine_loop result (current +:+ String char EmptyString) inQuotes tl
  | EmptyString => result ++ [Str.trim current]
  end.

Definition parseCSVLine (line : string) : list string :=
  parseCSVLine_loop [] EmptyString false line.

(** The non-blank lines of the text. *)
Definition nonBlankLines (content : string) : list string :=
  List.filter (fun line => negb (Str.is_empty (Str.trim line))) (Str.splitLines content).

(** The headers found again under a different letter case, in order. *)
Fixpoint duplicateHeaders (seen : list string) (hs : list string) : list string :=
  match hs with
  | [] => []
  | header :: tl =>
      let l := Str.toLowerCase header in
      if Arr.includes seen l
      then header :: duplicateHeaders (l :: seen) tl
      else duplicateHeaders (l :: seen) tl
  end.

(** The [for] loop over the data lines; [i] is the zero-based index of the
    line, so the message names row [i + 1].  The error thrown inside the
    [try] is caught and thrown again with a prefix. *)
Fixpoint parseRows (expected : nat) (i : nat) (lines : list string)
    (rows : list (list string)) : result (list (list string)) :=
  match lines with
  | [] => Ok rows
  | line :: tl =>
      let row := parseCSVLine line in
      if negb (Nat.eqb (length row) expected) then
        Err ("Error parsing row " +:+ pretty (i + 1) +:+ ": " +:+
             "Row " +:+ pretty (i + 1) +:+ " has " +:+ pretty (length row) +:+
             " columns but expected " +:+ pretty expected)
      else parseRows expected (S i) tl (rows ++ [row])
  end.

Definition parseCSVContent (csvContent : string) : result ParseResult :=
  if Str.is_empty csvContent || Str.is_empty (Str.trim csvContent) then
    Err "CSV content is empty"
  else
    match nonBlankLines csvContent with
    | [] => Err "No valid lines found in CSV"
    | headerLine :: dataLines =>
        if Str.is_empty headerLine then Err "Header line is missing"
        else
          let headers := parseCSVLine headerLine in
          if Nat.eqb (length headers) 0 then Err "No headers found in first line"
          else
            match duplicateHeaders [] headers with
            | (_ :: _) as duplicates =>
                Err ("Duplicate column headers found: " +:+ Str.join ", " duplicates)
            | [] =>
                match parseRows (length headers) 1 dataLines [] with
                | Ok rows => Ok (mkParseResult headers rows)
                | Err m => Err m
                end
            end
    end.

(** ** Numbers *)

Inductive number : Type :=
| NaN
| Fin (q : Q)
| Inf (negative : bool).

Module Num.

Definition of_Z (z : Z) : number := Fin (inject_Z z).
Definition of_nat (n : nat) : number := of_Z (Z.of_nat n).
Definition zero : number := of_Z 0.

Definition isNaN (x : number) : bool :=
  match x with NaN => true | _ => false end.

(** [x < y]; false as soon as one side is NaN. *)
Definition ltb (x y : number) : bool :=
  match x, y with
  | Fin a, Fin b => negb (Qle_bool b a)
  | Fin _, Inf neg => negb neg
  | Inf neg, Fin _ => neg
  | Inf a, Inf b => a && negb b
  | _, _ => false
  end.

Definition gtb (x y : number) : bool := ltb y x.

(** [x === y] *)
Definition eqb (x y : number) : bool :=
  match x, y with
  | Fin a, Fin b => Qeq_bool a b
  | Inf a, Inf b => Bool.eqb a b
  | _, _ => false
  end.

Definition neg (x : number) : number :=
  match x with
  | NaN => NaN
  | Fin a => Fin (Qred (- a))
  | Inf n => Inf (negb n)
  end.

(** [x + y] *)
Definition add (x y : number) : number :=
  match x, y with
  | Fin a, Fin b => Fin (Qred (a + b))
  | Fin _, Inf n | Inf n, Fin _ => Inf n
  | Inf a, Inf b => if Bool.eqb a b then Inf a else NaN
  | _, _ => NaN
  end.

Definition sub (x y : number) : number := add x (neg y).

(** Truncation towards zero of a finite value. *)
Definition truncQ (a : Q) : Z :=
  if Qle_bool 0 a then Qfloor a else Qceiling a.

(** [x % y]: the remainder has the sign of the dividend. *)
Definition rem (x y : number) : number :=
  match x, y with
  | Fin a, Fin b =>
      if Qeq_bool b 0 then NaN
      else Fin (Qred (a - b * inject_Z (truncQ (a / b))))
  | Fin a, Inf _ => Fin a
  | _, _ => NaN
  end.

(** ToIntegerOrInfinity on a finite number; [None] otherwise. *)
Definition toInteger (x : number) : option Z :=
  match x with
  | Fin a => Some (truncQ a)
  | _ => None
  end.

(** [mant * 10 ^ e] *)
Definition scale10 (mant e : Z) : Q :=
  if (0 <=? e)%Z then Qred (inject_Z (mant * 10 ^ e))
  else Qred (Qmake mant (Z.to_pos (10 ^ (- e)))).

Definition digit (c : ascii) : option Z :=
  let n := nat_of_ascii c in
  if Nat.leb 48 n && Nat.leb n 57 then Some (Z.of_nat (n - 48)) else None.

(** The longest run of decimal digits at the head of [s]: its value on
    top of [acc], the number of digits read, and what follows. *)
Fixpoint digits (acc : Z) (count : nat) (s : string) : Z * nat * string :=
  match s with
  | String c tl =>
      match digit c with
      | Some d => digits (10 * acc + d)%Z (S count) tl
      | None => (acc, count, s)
      end
  | EmptyString => (acc, count, s)
  end.

(** The ExponentPart after the mantissa, when it is complete. *)
Definition exponent (s : string) : Z * string :=
  match s with
  | String c tl =>
      if Str.eqc c "e" || Str.eqc c "E" then
        let '(negative, body) :=
          match tl with
          | String sg tl' =>
              if Str.eqc sg "-" then (true, tl')
              else if Str.eqc sg "+" then (false, tl')
              else (false, tl)
          | EmptyString => (false, tl)
          end in
        let '(e, count, rest) := digits 0 0 body in
        if Nat.eqb count 0 then (0%Z, s)
        else ((if negative then - e else e)%Z, rest)
      else (0%Z, s)
  | EmptyString => (0%Z, s)
  end.

(** The longest StrUnsignedDecimalLiteral at the head of [s], with what
    follows it; [None] when [s] starts with none. *)
Definition unsignedDecimal (s : string) : option (number * string) :=
  if String.prefix "Infinity" s then Some (Inf false, String.substring 8 (String.length s - 8) s)
  else
    let '(ip, ni, r1) := digits 0 0 s in
    let '(mant, nf, r2) :=
      match r1 with
      | String c tl =>
          if Str.eqc c "." then
            let '(m, k, r) := digits ip 0 tl in
            if Nat.eqb ni 0 && Nat.eqb k 0 then (ip, 0, r1) else (m, k, r)
          else (ip, 0, r1)
      | EmptyString => (ip, 0, r1)
      end in
    if Nat.eqb ni 0 && Nat.eqb nf 0 then None
    else
      let '(e, rest) := exponent r2 in
      Some (Fin (scale10 mant (e - Z.of_nat nf)), rest).

Definition signedDecimal (s : string) : option (number * string) :=
  match s with
  | String c tl =>
      if Str.eqc c "+" then unsignedDecimal tl
      else if Str.eqc c "-" then
        match unsignedDecimal tl with
        | Some (v, rest) => Some (neg v, rest)
        | None => None
        end
      else unsignedDecimal s
  | EmptyString => None
  end.

(** [parseFloat(s)]: leading white space is skipped, the longest
    decimal literal is read and the rest of the string is ignored. *)
Definition parseFloat (s : string) : number :=
  match signedDecimal (Str.trimStart s) with
  | Some (v, _) => v
  | None => NaN
  end.

(** Digits of the hexadecimal, octal and binary integer literals. *)
Definition digitIn (base : Z) (c : ascii) : option Z :=
  let n := Z.of_nat (nat_of_ascii c) in
  let v :=
    if (48 <=? n)%Z && (n <=? 57)%Z then Some (n - 48)%Z
    else if (97 <=? n)%Z && (n <=? 102)%Z then Some (n - 87)%Z
    else if (65 <=? n)%Z && (n <=? 70)%Z then Some (n - 55)%Z
    else None in
  match v with
  | Some d => if (d <? base)%Z then Some d else None
  | None => None
  end.

Fixpoint digitsIn (base : Z) (acc : Z) (s : string) : option Z :=
  match s with
  | String c tl =>
      match digitIn base c with
      | Some d => digitsIn base (base * acc + d)%Z tl
      | None => None
      end
  | EmptyString => Some acc
  end.

Definition nonDecimal (s : string) : option number :=
  match s with
  | String z (String b (String c tl)) =>
      if Str.eqc z "0" then
        let body := String c tl in
        let base :=
          if Str.eqc b "x" || Str.eqc b "X" then Some 16%Z
          else if Str.eqc b "o" || Str.eqc b "O" then Some 8%Z
          else if Str.eqc b "b" || Str.eqc b "B" then Some 2%Z
          else None in
        match base with
        | Some k => option_map of_Z (digitsIn k 0 body)
        | None => None
        end
      else None
  | _ => None
  end.

(** [Number(s)]: the whole string, white space apart, must be one
    numeric literal; the empty string is [0]. *)
Definition Number (s : string) : number :=
  let t := Str.trim s in
  if Str.is_empty t then zero
  else
    match nonDecimal t with
    | Some v => v
    | None =>
        match signedDecimal t with
        | Some (v, EmptyString) => v
        | _ => NaN
        end
    end.

(** [xs.reduce((sum, val) => sum + val, 0)] *)
Definition sum (xs : list number) : number := fold_left add xs zero.

End Num.

(** ** The column classifier (analyze.ts) *)

Definition dateKeywords : list string :=
  ["date"; "time"; "day"; "month"; "year"; "created"; "updated"; "timestamp"].

Definition numericKeywords : list string :=
  ["count"; "total"; "sum"; "amount"; "value"; "price"; "cost"; "revenue"; "sales";
   "clicks"; "impressions"; "views"; "sessions"; "users"; "conversion"; "rate";
   "ctr"; "cpc"; "cpm"; "roas"; "roi"; "bounce"; "duration"; "pages"; "goal"].

Definition categoricalKeywords : list string :=
  ["category"; "type"; "source"; "medium"; "campaign"; "channel"; "device";
   "browser"; "country"; "region"; "city"; "gender"; "age"; "segment";
   "status"; "group"; "class"; "tag"; "label"].

(** [keywords.some(keyword => lower.includes(keyword))] *)
Definition hasKeyword (keywords : list string) (header : string) : bool :=
  let lower := Str.toLowerCase header in
  existsb (fun keyword => Str.includes keyword lower) keywords.

Definition findDateColumns (headers : list string) : list string :=
  List.filter (hasKeyword dateKeywords) headers.

(** The callback of the [reduce] in [findNumericColumns]. *)
Definition countNumeric (index : nat) (count : nat) (row : list string) : nat :=
  let value := nth_error row index in
  match value with
  | Some v =>
      if Str.is_empty v then count
      else if negb (Num.isNaN (Num.parseFloat (Str.stripFormatting v)))
      then count + 1 else count
  | None => count
  end.

(** [numericCount > sampleSize * 0.7], on integers. *)
Definition findNumericColumns (headers : list string) (rows : list (list string))
    : list string :=
  Arr.filteri (fun header index =>
    let hasNumericKeyword := hasKeyword numericKeywords header in
    let sampleSize := Nat.min 10 (length rows) in
    let numericCount :=
      fold_left (countNumeric index) (Arr.slice0 sampleSize rows) 0 in
    let isNumericColumn := Nat.ltb (7 * sampleSize) (10 * numericCount) in
    hasNumericKeyword || isNumericColumn) headers.

(** The size of [new Set(values)]; a missing cell is the value
    [undefined]. *)
Definition distinctCount (values : list (option string)) : nat :=
  length (remove_dups values).

(** [uniqueValues.size < sampleSize * 0.8], on integers. *)
Definition findCategoricalColumns (headers : list string) (rows : list (list string))
    : list string :=
  Arr.filteri (fun header index =>
    let hasCategoricalKeyword := hasKeyword categoricalKeywords header in
    let sampleSize := Nat.min 20 (length rows) in
    let uniqueValues :=
      distinctCount (map (fun row => nth_error row index) (Arr.slice0 sampleSize rows)) in
    let isGoodCategorical :=
      Nat.ltb 1 uniqueValues && Nat.ltb (5 * uniqueValues) (4 * sampleSize) in
    hasCategoricalKeyword || isGoodCategorical) headers.

(** [parseNumericValue]: a missing, empty or unparseable cell is [0]. *)
Definition parseNumericValue (value : option string) : number :=
  if falsy value then Num.zero
  else
    match value with
    | Some v =>
        let cleaned := Str.stripFormatting v in
        let num := Num.parseFloat cleaned in
        if Num.isNaN num then Num.zero else num
    | None => Num.zero
    end.

(** ** The filter engine (analyze.ts) *)

Record DateRange := mkDateRange {
  startDate : option string;
  endDate : option string
}.

Record FilterOptions := mkFilterOptions {
  dateRange : option DateRange;
  selectedMetrics : option (list string);
  selectedCategories : option (list string);
  minValue : option number;
  maxValue : option number
}.

(** [filters.dateRange?.startDate], and the truthiness of such a string. *)
Definition startDateOf (filters : FilterOptions) : option string :=
  match dateRange filters with Some r => startDate r | None => None end.

Definition endDateOf (filters : FilterOptions) : option string :=
  match dateRange filters with Some r => endDate r | None => None end.

Definition truthy (v : option string) : bool := negb (falsy v).

(** [filters.selectedCategories && filters.selectedCategories.length > 0] *)
Definition categoriesOf (filters : FilterOptions) : list string :=
  match selectedCategories filters with Some cs => cs | None => [] end.

Section Filters.

(** [new Date(text).getTime()] of the host engine: the time value of
    the text, [None] when the date is invalid.  Outside the ISO format
    the accepted texts depend on the engine, so the parser is a
    parameter. *)
Variable Date_parse : string -> option Z.

(** [filters.dateRange.startDate ? new Date(...) : null]; the inner
    option is the time value of the [Date]. *)
Definition boundDate (bound : option string) : option (option Z) :=
  match bound with
  | Some s => if Str.is_empty s then None else Some (Date_parse s)
  | None => None
  end.

(** [bound && rowDate < bound] and [bound && rowDate > bound]; both are
    false when the bound is an invalid date. *)
Definition beforeBound (rowDate : Z) (bound : option (option Z)) : bool :=
  match bound with
  | Some (Some t) => (rowDate <? t)%Z
  | _ => false
  end.

Definition afterBound (rowDate : Z) (bound : option (option Z)) : bool :=
  match bound with
  | Some (Some t) => (t <? rowDate)%Z
  | _ => false
  end.

(** The callback of the date-range filter. *)
Definition dateKeeps (dateColIndex : Z) (start_ end_ : option (option Z))
    (row : list string) : bool :=
  let dateValue := Arr.at_ row dateColIndex in
  match dateValue with
  | Some v =>
      if Str.is_empty v then true
      else
        match Date_parse v with
        | None => true
        | Some rowDate =>
            if beforeBound rowDate start_ then false
            else if afterBound rowDate end_ then false
            else true
        end
  | None => true
  end.

(** The callback of the category filter. *)
Definition categoryKeeps (categoryColIndex : Z) (selected : list string)
    (row : list string) : bool :=
  let categoryValue := Arr.at_ row categoryColIndex in
  falsy categoryValue ||
  match categoryValue with
  | Some v => Arr.includes selected v
  | None => false
  end.

(** The callback of the value-range filter. *)
Definition rangeKeeps (primaryMetricIndex : Z) (min max : option number)
    (row : list string) : bool :=
  let value := parseNumericValue (Arr.at_ row primaryMetricIndex) in
  if Num.isNaN value then true
  else if match min with Some m => Num.ltb value m | None => false end then false
  else if match max with Some m => Num.gtb value m | None => false end then false
  else true.

(** The three stages of [applyFilters], each a pass over the rows kept
    so far.  The category and value columns are looked up in the rows
    the function was called with, not in the rows kept so far. *)
Definition dateStage (headers : list string) (filters : FilterOptions)
    (filteredRows : list (list string)) : list (list string) :=
  if truthy (startDateOf filters) || truthy (endDateOf filters) then
    match findDateColumns headers with
    | dateCol :: _ =>
        let dateColIndex := Arr.indexOf headers dateCol in
        let start_ := boundDate (startDateOf filters) in
        let end_ := boundDate (endDateOf filters) in
        List.filter (dateKeeps dateColIndex start_ end_) filteredRows
    | [] => filteredRows
    end
  else filteredRows.

Definition categoryStage (headers : list string) (rows : list (list string))
    (filters : FilterOptions) (filteredRows : list (list string))
    : list (list string) :=
  match categoriesOf filters with
  | (_ :: _) as selected =>
      match findCategoricalColumns headers rows with
      | categoryCol :: _ =>
          let categoryColIndex := Arr.indexOf headers categoryCol in
          List.filter (categoryKeeps categoryColIndex selected) filteredRows
      | [] => filteredRows
      end
  | [] => filteredRows
  end.

Definition rangeStage (headers : list string) (rows : list (list string))
    (filters : FilterOptions) (filteredRows : list (list string))
    : list (list string) :=
  match minValue filters, maxValue filters with
  | None, None => filteredRows
  | min, max =>
      match findNumericColumns headers rows with
      | primaryMetric :: _ =>
          let primaryMetricIndex := Arr.indexOf headers primaryMetric in
          List.filter (rangeKeeps primaryMetricIndex min max) filteredRows
      | [] => filteredRows
      end
  end.

(** [applyFilters(headers, rows, filters).rows].  The descriptions
    collected in [appliedFilters] do not influence the rows and are not
    read by [analyze]; they are left out.  The selected-metrics filter
    only adds such a description. *)
Definition applyFilters (headers : list string) (rows : list (list string))
    (filters : option FilterOptions) : list (list string) :=
  match filters with
  | None => rows
  | Some f =>
      rangeStage headers rows f
        (categoryStage headers rows f
           (dateStage headers f rows))
  end.

End Filters.

(** ** The chart builder: time series (analyze.ts) *)

Inductive ChartType := LineChart | BarChart | PieChart | AreaChart.

Record ChartDataPoint := mkPoint {
  label : string;
  value : number;
  date : option string;
  category_ : option string
}.

Record ChartData := mkChart {
  type_ : ChartType;
  title_ : string;
  data : list ChartDataPoint;
  xAxisLabel : option string;
  yAxisLabel : option string;
  colors : option (list string)
}.

(** [xs.sort(compare)], where [gt a b] tells that [compare(a, b)] is
    positive: a stable insertion sort.  An element goes after those it
    is greater than and before the first one it is not greater than, so
    elements that compare equal keep their order. *)
Fixpoint insertSorted {A} (gt : A -> A -> bool) (x : A) (sorted : list A) : list A :=
  match sorted with
  | [] => [x]
  | y :: tl => if gt x y then y :: insertSorted gt x tl else x :: sorted
  end.

Definition sortBy {A} (gt : A -> A -> bool) (xs : list A) : list A :=
  fold_right (insertSorted gt) [] xs.

Section Charts.

Variable Date_parse : string -> option Z.

(** [date.toLocaleDateString()] of the host, for a valid date. *)
Variable toLocaleDateString : Z -> string.

Definition formatDateLabel (dateStr : string) : string :=
  match Date_parse dateStr with
  | None => dateStr
  | Some t => toLocaleDateString t
  end.

(** [new Date(a.date || '').getTime() - new Date(b.date || '').getTime()]
    is positive; a NaN difference counts as zero. *)
Definition laterDate (a b : ChartDataPoint) : bool :=
  let time p := Date_parse (match date p with Some d => d | None => EmptyString end) in
  match time a, time b with
  | Some ta, Some tb => (tb <? ta)%Z
  | _, _ => false
  end.

(** The body of [rows.forEach] collecting the points of one metric. *)
Definition timeSeriesPoints (dateIndex numericIndex : Z) (rows : list (list string))
    : list ChartDataPoint :=
  fold_left (fun timeSeriesData row =>
    let dateValue := Arr.at_ row dateIndex in
    let numericValue := parseNumericValue (Arr.at_ row numericIndex) in
    match dateValue with
    | Some d =>
        if truthy dateValue && negb (Num.isNaN numericValue)
        then timeSeriesData ++ [mkPoint (formatDateLabel d) numericValue (Some d) None]
        else timeSeriesData
    | None => timeSeriesData
    end) rows [].

(** The first block of [generateChartData]: the line charts pushed to
    [charts].  The later blocks only push bar and pie charts after
    these. *)
Definition timeSeriesCharts (headers : list string) (rows : list (list string))
    : list ChartData :=
  let dateColumns := findDateColumns headers in
  let numericColumns := findNumericColumns headers rows in
  match dateColumns, numericColumns with
  | dateCol :: _, _ :: _ =>
      let dateIndex := Arr.indexOf headers dateCol in
      fold_left (fun charts numericCol =>
        let numericIndex := Arr.indexOf headers numericCol in
        let timeSeriesData := timeSeriesPoints dateIndex numericIndex rows in
        if Nat.ltb 1 (length timeSeriesData) then
          charts ++ [mkChart LineChart (numericCol +:+ " Over Time")
                       (sortBy laterDate timeSeriesData)
                       (Some "Date") (Some numericCol) (Some ["#3b82f6"])]
        else charts) (Arr.slice0 3 numericColumns) []
  | _, _ => []
  end.

End Charts.

(** ** Decoding the generation service's reply (analyze.ts) *)

(** A value produced by [JSON.parse]. *)
#[local] Unset Elimination Schemes.
Inductive json : Type :=
| JNull
| JBool (b : bool)
| JNum (n : number)
| JStr (s : string)
| JArr (items : list json)
| JObj (fields : list (string * json)).
#[local] Set Elimination Schemes.

Record Insight := mkInsight {
  category : string;
  title : string;
  description : string;
  impact : string;
  metrics : option json
}.

Record Recommendation := mkRecommendation {
  rtitle : string;
  rdescription : string;
  priority : string;
  effort : string;
  expectedImpact : string
}.

Record AnalysisResult := mkAnalysisResult {
  insights : list Insight;
  recommendations : list Recommendation;
  summary : string;
  keyMetrics : gmap string number
}.

Module JS.

(** [obj[key] = v] on a plain object: writing a number to [__proto__]
    creates no property. *)
Definition set (obj : gmap string number) (key : string) (v : number)
    : gmap string number :=
  if String.eqb key "__proto__" then obj else <[key := v]> obj.

Fixpoint assoc (key : string) (fields : list (string * json)) : option json :=
  match fields with
  | [] => None
  | (k, v) :: tl => if String.eqb k key then Some v else assoc key tl
  end.

(** [v.key] for the property names read by the decoder, none of which
    an array has. *)
Definition get (v : json) (key : string) : option json :=
  match v with
  | JObj fields => assoc key fields
  | _ => None
  end.

(** [!v] is false and [typeof v === 'object']. *)
Definition isObject (v : json) : bool :=
  match v with
  | JArr _ | JObj _ => true
  | _ => false
  end.

Definition isNonNullObject (v : option json) : bool :=
  match v with Some j => isObject j | None => false end.

(** [typeof v === 'string' ? v : fallback] *)
Definition stringOr (v : option json) (fallback : string) : string :=
  match v with
  | Some (JStr s) => s
  | _ => fallback
  end.

(** [valid.includes(v) ? v : 'medium'] *)
Definition levelOr (valid : list string) (v : option json) : string :=
  match v with
  | Some (JStr s) => if Arr.includes valid s then s else "medium"
  | _ => "medium"
  end.

Definition truthyJson (v : json) : bool :=
  match v with
  | JNull => false
  | JBool b => b
  | JNum n => negb (Num.isNaN n || Num.eqb n Num.zero)
  | JStr s => negb (Str.is_empty s)
  | JArr _ | JObj _ => true
  end.

Fixpoint indexed {A} (i : nat) (xs : list A) : list (string * A) :=
  match xs with
  | [] => []
  | x :: tl => (pretty i, x) :: indexed (S i) tl
  end.

Fixpoint chars (s : string) : list json :=
  match s with
  | String c tl => JStr (String c EmptyString) :: chars tl
  | EmptyString => []
  end.

(** [Object.entries(v || {})] *)
Definition entriesOrEmpty (v : option json) : list (string * json) :=
  match v with
  | Some j =>
      if truthyJson j then
        match j with
        | JObj fields => fields
        | JArr items => indexed 0 items
        | JStr s => indexed 0 (chars s)
        | _ => []
        end
      else []
  | None => []
  end.

(** The text matched by [/\{[\s\S]*\}/]: from the first opening brace
    to the last closing brace after it. *)
Fixpoint fromFirstBrace (s : string) : option string :=
  match s with
  | String c tl => if Str.eqc c "{" then Some s else fromFirstBrace tl
  | EmptyString => None
  end.

Fixpoint toLastBrace (s : string) : option string :=
  match s with
  | String c tl =>
      match toLastBrace tl with
      | Some r => Some (String c r)
      | None => if Str.eqc c "}" then Some (String c EmptyString) else None
      end
  | EmptyString => None
  end.

Definition jsonMatch (s : string) : option string :=
  match fromFirstBrace s with
  | Some t => toLastBrace t
  | None => None
  end.

End JS.

Definition validateInsight (insight : json) : option Insight :=
  if negb (JS.isObject insight) then None
  else
    let validImpacts := ["high"; "medium"; "low"] in
    Some {|
      category := JS.stringOr (JS.get insight "category") "General";
      title := JS.stringOr (JS.get insight "title") "Insight";
      description := JS.stringOr (JS.get insight "description") "No description available";
      impact := JS.levelOr validImpacts (JS.get insight "impact");
      metrics := if JS.isNonNullObject (JS.get insight "metrics")
                 then JS.get insight "metrics" else None
    |}.

Definition validateRecommendation (recommendation : json) : option Recommendation :=
  if negb (JS.isObject recommendation) then None
  else
    let validPriorities := ["high"; "medium"; "low"] in
    let validEfforts := ["low"; "medium"; "high"] in
    Some {|
      rtitle := JS.stringOr (JS.get recommendation "title") "Recommendation";
      rdescription := JS.stringOr (JS.get recommendation "description") "No description available";
      priority := JS.levelOr validPriorities (JS.get recommendation "priority");
      effort := JS.levelOr validEfforts (JS.get recommendation "effort");
      expectedImpact := JS.stringOr (JS.get recommendation "expectedImpact") "Positive impact expected"
    |}.

(** [items.map(validate).filter(Boolean)] *)
Definition mapValid {A} (validate : json -> option A) (items : list json) : list A :=
  omap validate items.

Definition metricWords : list string :=
  ["session"; "user"; "revenue"; "conversion"; "click"; "impression"; "view";
   "cost"; "ctr"; "rate"].

(** The numbers of a column: every cell through the inlined copy of
    [parseNumericValue]. *)
Definition columnValues (colIndex : Z) (rows : list (list string)) : list number :=
  map (fun row => parseNumericValue (Arr.at_ row colIndex)) rows.

(** [parseAIResponse] after [JSON.parse] has succeeded. *)
Definition decodeParsed (parsed : json) (headers : list string)
    (rows : list (list string)) : result AnalysisResult :=
  if negb (JS.isObject parsed) then Err "AI response is not a valid object"
  else
    let metricColumns := List.filter (hasKeyword metricWords) headers in
    let keyMetrics :=
      fold_left (fun (keyMetrics : gmap string number) col =>
        let colIndex := Arr.indexOf headers col in
        if negb (colIndex =? -1)%Z then
          let values :=
            List.filter (fun v => negb (Num.isNaN v) && negb (Num.eqb v Num.zero))
              (columnValues colIndex rows) in
          if Nat.ltb 0 (length values)
          then JS.set keyMetrics col (Num.sum values)
          else keyMetrics
        else keyMetrics) metricColumns (∅ : gmap string number) in
    let aiMetrics := JS.entriesOrEmpty (JS.get parsed "keyMetrics") in
    let finalMetrics :=
      fold_left (fun (finalMetrics : gmap string number) entry =>
        match entry with
        | (key, JNum value) =>
            if negb (Num.isNaN value) then JS.set finalMetrics key value
            else finalMetrics
        | _ => finalMetrics
        end) aiMetrics keyMetrics in
    Ok {|
      insights :=
        match JS.get parsed "insights" with
        | Some (JArr items) => mapValid validateInsight items
        | _ => []
        end;
      recommendations :=
        match JS.get parsed "recommendations" with
        | Some (JArr items) => mapValid validateRecommendation items
        | _ => []
        end;
      summary := JS.stringOr (JS.get parsed "summary") "Analysis completed successfully.";
      keyMetrics := finalMetrics
    |}.

Definition createFallbackAnalysis (headers : list string) (rows : list (list string))
    (reportType : string) : AnalysisResult :=
  let insights := [
    {| category := "Data Overview";
       title := "Data Successfully Processed";
       description :=
         "Your " +:+ reportType +:+ " report contains " +:+ pretty (length rows) +:+
         " rows of data with " +:+ pretty (length headers) +:+
         " columns. The data includes metrics such as: " +:+
         Str.join ", " (Arr.slice0 5 headers) +:+
         (if Nat.ltb 5 (length headers) then ", and more" else EmptyString) +:+ ".";
       impact := "medium";
       metrics := Some (JObj [("total_rows", JNum (Num.of_nat (length rows)));
                              ("total_columns", JNum (Num.of_nat (length headers)))]) |}
  ] in
  let recommendations := [
    {| rtitle := "Review Data Quality";
       rdescription := "Ensure all important metrics are being tracked consistently across your reporting periods. Look for any missing data points or anomalies.";
       priority := "medium";
       effort := "low";
       expectedImpact := "Improved data reliability and more accurate insights" |};
    {| rtitle := "Set Up Regular Analysis";
       rdescription := "Consider setting up automated reporting to track these metrics on a regular basis for better trend analysis.";
       priority := "low";
       effort := "medium";
       expectedImpact := "Better understanding of performance trends over time" |}
  ] in
  let keyMetrics0 : gmap string number :=
    <["total_columns" := Num.of_nat (length headers)]>
      (<["total_rows" := Num.of_nat (length rows)]> ∅) in
  let keyMetrics :=
    fold_left (fun (keyMetrics : gmap string number) (entry : nat * string) =>
      let '(index, header) := entry in
      let values :=
        List.filter (fun v => negb (Num.eqb v Num.zero))
          (columnValues (Z.of_nat index) rows) in
      if Nat.ltb 0 (length values) && Nat.ltb (length rows) (2 * length values)
      then JS.set keyMetrics header (Num.sum values)
      else keyMetrics) (imap (fun index header => (index, header)) headers) keyMetrics0 in
  {| insights := insights;
     recommendations := recommendations;
     summary :=
       "Analysis completed for your " +:+ reportType +:+ " report. The dataset contains " +:+
       pretty (length rows) +:+ " rows and " +:+ pretty (length headers) +:+
       " columns of data. While AI analysis was not available, the data has been successfully processed and basic metrics have been calculated.";
     keyMetrics := keyMetrics |}.

Section Decoder.

(** [JSON.parse] of the host engine; [None] when it throws. *)
Variable JSON_parse : string -> option json.

Definition parseAIResponse (aiResponse : string) (headers : list string)
    (rows : list (list string)) : result AnalysisResult :=
  if Str.is_empty aiResponse || Str.is_empty (Str.trim aiResponse) then
    Err "Empty AI response"
  else
    match JS.jsonMatch aiResponse with
    | None => Err "No valid JSON found in AI response"
    | Some text =>
        match JSON_parse text with
        | None => Err "Invalid JSON in AI response"
        | Some parsed => decodeParsed parsed headers rows
        end
    end.

(** The response-validation step of [analyze]: the [try] around
    [parseAIResponse] and its [catch]. *)
Definition analysisResultOf (aiResponse : string) (headers : list string)
    (filteredRows : list (list string)) (reportType : string) : AnalysisResult :=
  match parseAIResponse aiResponse headers filteredRows with
  | Ok analysisResult => analysisResult
  | Err _ => createFallbackAnalysis headers filteredRows reportType
  end.

End Decoder.

(** ** Validation of the table by the two endpoints *)

(** [analyze]: parsing, then the checks on the parsed table; an error is
    the code of the [APIError]. *)
Definition analyzeValidation (csvContent : string) : result ParseResult :=
  match parseCSVContent csvContent with
  | Err _ => Err "CSV_PARSE_ERROR"
  | Ok parseResult =>
      if Nat.eqb (length (headers parseResult)) 0 then Err "NO_COLUMNS"
      else if Nat.eqb (length (rows parseResult)) 0 then Err "NO_DATA_ROWS"
      else if Nat.ltb (length (rows parseResult)) 2 then Err "INSUFFICIENT_DATA"
      else Ok parseResult
  end.

(** U+FFFD, as the bytes of its UTF-8 encoding. *)
Definition replacementCharacter : string :=
  String "239" (String "191" (String "189" EmptyString)).

(** The first data line, among those checked, whose number of
    comma-separated pieces differs from the header's; [i] counts from 0. *)
Fixpoint firstInconsistent (expected : nat) (i : nat) (dataLines : list string)
    : option (nat * nat) :=
  match dataLines with
  | [] => None
  | line :: tl =>
      let columns := Str.split "," line in
      if negb (Nat.eqb (length columns) expected) then Some (i, length columns)
      else firstInconsistent expected (S i) tl
  end.

(** [validateCSVContent] of upload.ts, on the decoded text. *)
Definition validateCSVContent (content : string) : result unit :=
  if Str.includes replacementCharacter content then
    Err "File contains invalid characters. Please ensure the file is saved in UTF-8 encoding"
  else
    let lines := nonBlankLines content in
    match lines with
    | [] => Err "CSV file appears to be empty"
    | [_] => Err "CSV file contains only headers. Please include data rows"
    | headerLine :: _ =>
        if Str.is_empty headerLine || Str.is_empty (Str.trim headerLine) then
          Err "CSV file is missing a header row"
        else
          let headers := map Str.trim (Str.split "," headerLine) in
          if Nat.ltb (length headers) 2 then
            Err "CSV file must contain at least 2 columns"
          else if Nat.ltb 0 (length (List.filter Str.is_empty headers)) then
            Err "CSV file contains empty column headers"
          else
            let dataLines := firstn (Nat.min 6 (length lines) - 1) (skipn 1 lines) in
            match firstInconsistent (length headers) 0 dataLines with
            | Some (i, n) =>
                Err ("Row " +:+ pretty (i + 2) +:+ " has " +:+ pretty n +:+
                     " columns but header has " +:+ pretty (length headers) +:+
                     " columns. Please ensure all rows have the same number of columns")
            | None =>
                if Nat.ltb (length lines) 3 then
                  Err "CSV file should contain at least 2 data rows for meaningful analysis"
                else if Nat.ltb (String.length content) 50 then
                  Err "CSV file appears to be too small to contain meaningful data"
                else Ok tt
            end
    end.

(** ** Dates: the time-value arithmetic of ECMAScript *)

Module DateTime.

Local Open Scope Z_scope.

Definition msPerDay : Z := 86400000.
Definition msPerHour : Z := 3600000.
Definition msPerMinute : Z := 60000.
Definition msPerSecond : Z := 1000.

Definition Day (t : Z) : Z := t / msPerDay.
Definition TimeWithinDay (t : Z) : Z := t mod msPerDay.

Definition InLeapYear (y : Z) : bool :=
  (y mod 4 =? 0) && (negb (y mod 100 =? 0) || (y mod 400 =? 0)).

Definition DayFromYear (y : Z) : Z :=
  365 * (y - 1970) + (y - 1969) / 4 - (y - 1901) / 100 + (y - 1601) / 400.

(** The year of day number [d]: the largest [y] with
    [DayFromYear y <= d], found from the mean length of a year and
    corrected by at most one. *)
Definition YearFromDay (d : Z) : Z :=
  let y := 1970 + (400 * d) / 146097 in
  if d <? DayFromYear y then y - 1
  else if DayFromYear (y + 1) <=? d then y + 1
  else y.

Definition YearFromTime (t : Z) : Z := YearFromDay (Day t).

Definition DayWithinYear (t : Z) : Z := Day t - DayFromYear (YearFromTime t).

(** The day within the year on which month [m] (0 to 11) starts. *)
Definition monthStart (m : Z) (leap : bool) : Z :=
  let l := if leap then 1 else 0 in
  if m <=? 0 then 0
  else if m =? 1 then 31
  else if m =? 2 then 59 + l
  else if m =? 3 then 90 + l
  else if m =? 4 then 120 + l
  else if m =? 5 then 151 + l
  else if m =? 6 then 181 + l
  else if m =? 7 then 212 + l
  else if m =? 8 then 243 + l
  else if m =? 9 then 273 + l
  else if m =? 10 then 304 + l
  else 334 + l.

Definition MonthFromTime (t : Z) : Z :=
  let d := DayWithinYear t in
  let leap := InLeapYear (YearFromTime t) in
  if d <? monthStart 1 leap then 0
  else if d <? monthStart 2 leap then 1
  else if d <? monthStart 3 leap then 2
  else if d <? monthStart 4 leap then 3
  else if d <? monthStart 5 leap then 4
  else if d <? monthStart 6 leap then 5
  else if d <? monthStart 7 leap then 6
  else if d <? monthStart 8 leap then 7
  else if d <? monthStart 9 leap then 8
  else if d <? monthStart 10 leap then 9
  else if d <? monthStart 11 leap then 10
  else 11.

Definition DateFromTime (t : Z) : Z :=
  DayWithinYear t
  - monthStart (MonthFromTime t) (InLeapYear (YearFromTime t)) + 1.

Definition WeekDay (t : Z) : Z := (Day t + 4) mod 7.

(** [MakeTime], [MakeDay], [MakeDate] and [TimeClip]; [None] is NaN. *)
Definition MakeTime (hour min sec ms : number) : option Z :=
  match Num.toInteger hour, Num.toInteger min, Num.toInteger sec, Num.toInteger ms with
  | Some h, Some m, Some s, Some milli =>
      Some (h * msPerHour + m * msPerMinute + s * msPerSecond + milli)
  | _, _, _, _ => None
  end.

Definition MakeDay (year month date : number) : option Z :=
  match Num.toInteger year, Num.toInteger month, Num.toInteger date with
  | Some y, Some m, Some dt =>
      let ym := y + m / 12 in
      let mn := m mod 12 in
      Some (DayFromYear ym + monthStart mn (InLeapYear ym) + dt - 1)
  | _, _, _ => None
  end.

Definition MakeDate (day time : Z) : Z := day * msPerDay + time.

Definition TimeClip (t : Z) : option Z :=
  if 8640000000000000 <? Z.abs t then None else Some t.

(** [Date.UTC(year, month - 1, day, hour, minute)], for writing
    instants down. *)
Definition utc (year month day hour minute : Z) : Z :=
  MakeDate (DayFromYear year + monthStart (month - 1) (InLeapYear year) + day - 1)
           (hour * msPerHour + minute * msPerMinute).

End DateTime.

(** ** The schedule calculator (scheduler service) *)

Section Scheduler.

Import DateTime.

(** The offset of the host's local time zone from UTC, in
    milliseconds.  The methods of [Date] used by the calculator work in
    local time; a zone with a fixed offset is modelled, without
    daylight saving. *)
Variable LocalTZA : Z.

Definition LocalTime (t : Z) : Z := (t + LocalTZA)%Z.
Definition UTC (t : Z) : Z := (t - LocalTZA)%Z.

(** A [Date] object is its time value. *)
Definition Date := option Z.

(** [d.setHours(hour, min, sec, ms)] *)
Definition setHours (d : Date) (hour min sec ms : number) : Date :=
  match d with
  | None => None
  | Some t =>
      match MakeTime hour min sec ms with
      | Some time => TimeClip (UTC (MakeDate (Day (LocalTime t)) time))
      | None => None
      end
  end.

(** [d.getDate()], [d.getDay()] and [d.getMonth()] *)
Definition getDate (d : Date) : number :=
  match d with
  | Some t => Num.of_Z (DateFromTime (LocalTime t))
  | None => NaN
  end.

Definition getDay (d : Date) : number :=
  match d with
  | Some t => Num.of_Z (WeekDay (LocalTime t))
  | None => NaN
  end.

Definition getMonth (d : Date) : number :=
  match d with
  | Some t => Num.of_Z (MonthFromTime (LocalTime t))
  | None => NaN
  end.

(** [d.setDate(date)] *)
Definition setDate (d : Date) (date : number) : Date :=
  match d with
  | None => None
  | Some t =>
      let t' := LocalTime t in
      match MakeDay (Num.of_Z (YearFromTime t')) (Num.of_Z (MonthFromTime t')) date with
      | Some day => TimeClip (UTC (MakeDate day (TimeWithinDay t')))
      | None => None
      end
  end.

(** [d.setMonth(month)] *)
Definition setMonth (d : Date) (month : number) : Date :=
  match d with
  | None => None
  | Some t =>
      let t' := LocalTime t in
      match MakeDay (Num.of_Z (YearFromTime t')) month (Num.of_Z (DateFromTime t')) with
      | Some day => TimeClip (UTC (MakeDate day (TimeWithinDay t')))
      | None => None
      end
  end.

(** [a <= b] on dates: false when one of them is invalid. *)
Definition dateLe (a b : Date) : bool :=
  match a, b with
  | Some x, Some y => (x <=? y)%Z
  | _, _ => false
  end.

(** [timeOfDay.split(':').map(Number)], destructured into hours and
    minutes; a missing second piece is [undefined], which [setHours]
    reads as NaN. *)
Definition hoursMinutes (timeOfDay : string) : number * number :=
  let parts := map Num.Number (Str.split ":" timeOfDay) in
  (nth 0 parts NaN, nth 1 parts NaN).

(** [calculateNextRun]; [now] is the value of [new Date()] read at the
    start.  The [timezone] argument, with its default, is bound and
    never read. *)
Definition calculateNextRun (now : Z) (frequency : string) (timeOfDay : string)
    (dayOfWeek dayOfMonth : option number) (timezone : option string) : Date :=
  let timezone := default "UTC" timezone in
  let '(hours, minutes) := hoursMinutes timeOfDay in
  let nextRun := setHours (Some now) hours minutes Num.zero Num.zero in
  if String.eqb frequency "daily" then
    if dateLe nextRun (Some now)
    then setDate nextRun (Num.add (getDate nextRun) (Num.of_Z 1))
    else nextRun
  else if String.eqb frequency "weekly" then
    match dayOfWeek with
    | Some dayOfWeek =>
        let currentDay := getDay nextRun in
        let daysUntilTarget :=
          Num.rem (Num.add (Num.sub dayOfWeek currentDay) (Num.of_Z 7)) (Num.of_Z 7) in
        if Num.eqb daysUntilTarget Num.zero && dateLe nextRun (Some now)
        then setDate nextRun (Num.add (getDate nextRun) (Num.of_Z 7))
        else setDate nextRun (Num.add (getDate nextRun) daysUntilTarget)
    | None => nextRun
    end
  else if String.eqb frequency "monthly" then
    match dayOfMonth with
    | Some dayOfMonth =>
        let nextRun := setDate nextRun dayOfMonth in
        if dateLe nextRun (Some now)
        then setDate (setMonth nextRun (Num.add (getMonth nextRun) (Num.of_Z 1))) dayOfMonth
        else nextRun
    | None => nextRun
    end
  else nextRun.

End Scheduler.

(** ** The thresholds of the classifier in binary64 *)

(** The source compares a count with [sampleSize * 0.7], [sampleSize *
    0.8] and [rows.length * 0.5] in binary64 arithmetic; the embedding
    compares integers.  These are the comparisons of the source on
    floats, to be checked against the integer ones. *)
Definition floatOfNat (n : nat) : float :=
  PrimFloat.of_uint63 (Uint63.of_Z (Z.of_nat n)).

(** The doubles nearest to 0.7 and 0.8. *)
Definition float_0_7 : float := 0x1.6666666666666p-1%float.
Definition float_0_8 : float := 0x1.999999999999ap-1%float.

Definition isNumericColumn64 (numericCount sampleSize : nat) : bool :=
  PrimFloat.ltb (PrimFloat.mul (floatOfNat sampleSize) float_0_7) (floatOfNat numericCount).

Definition isGoodCategorical64 (size sampleSize : nat) : bool :=
  Nat.ltb 1 size &&
  PrimFloat.ltb (floatOfNat size) (PrimFloat.mul (floatOfNat sampleSize) float_0_8).

(** ** Vocabulary of the filter properties *)

(** The column each data-dependent stage filters on: the first
    categorical and the first numeric column of the rows at hand. *)
Definition categoryColumn (headers : list string) (rows : list (list string))
    : option string :=
  head (findCategoricalColumns headers rows).

Definition numericColumn (headers : list string) (rows : list (list string))
    : option string :=
  head (findNumericColumns headers rows).

Section Conjunction.

Variable Date_parse : string -> option Z.

(** The row predicates of the three stages, for a given choice of the
    category and value columns. *)
Definition datePred (headers : list string) (filters : FilterOptions)
    (row : list string) : bool :=
  if truthy (startDateOf filters) || truthy (endDateOf filters) then
    match findDateColumns headers with
    | dateCol :: _ =>
        dateKeeps Date_parse (Arr.indexOf headers dateCol)
          (boundDate Date_parse (startDateOf filters))
          (boundDate Date_parse (endDateOf filters)) row
    | [] => true
    end
  else true.

Definition categoryPred (headers : list string) (column : option string)
    (filters : FilterOptions) (row : list string) : bool :=
  match categoriesOf filters, column with
  | (_ :: _) as selected, Some categoryCol =>
      categoryKeeps (Arr.indexOf headers categoryCol) selected row
  | _, _ => true
  end.

Definition rangePred (headers : list string) (column : option string)
    (filters : FilterOptions) (row : list string) : bool :=
  match minValue filters, maxValue filters with
  | None, None => true
  | min, max =>
      match column with
      | Some primaryMetric =>
          rangeKeeps (Arr.indexOf headers primaryMetric) min max row
      | None => true
      end
  end.

(** The conjunction of two filter specifications.  The engine has no
    such operation: a specification is a record of optional constraints,
    and the conjunction carries the constraints of both.  Where both
    constrain the same field the tighter one is kept: the later start,
    the earlier end, the categories selected by both, the larger
    minimum, the smaller maximum.  An empty selection means no
    constraint, so two selections without a common category have no
    conjunction. *)
Definition laterStart (a b : option string) : option string :=
  if falsy a then b
  else if falsy b then a
  else
    match a, b with
    | Some sa, Some sb =>
        match Date_parse sa, Date_parse sb with
        | Some ta, Some tb => if (ta <? tb)%Z then b else a
        | None, _ => b
        | _, None => a
        end
    | _, _ => a
    end.

Definition earlierEnd (a b : option string) : option string :=
  if falsy a then b
  else if falsy b then a
  else
    match a, b with
    | Some sa, Some sb =>
        match Date_parse sa, Date_parse sb with
        | Some ta, Some tb => if (tb <? ta)%Z then b else a
        | None, _ => b
        | _, None => a
        end
    | _, _ => a
    end.

Definition commonCategories (a b : list string) : option (list string) :=
  match a, b with
  | [], _ => Some b
  | _, [] => Some a
  | _, _ =>
      match List.filter (Arr.includes b) a with
      | [] => None
      | common => Some common
      end
  end.

Definition largerMin (a b : option number) : option number :=
  match a, b with
  | Some x, Some y => if Num.ltb x y then Some y else Some x
  | Some x, None => Some x
  | None, _ => b
  end.

Definition smallerMax (a b : option number) : option number :=
  match a, b with
  | Some x, Some y => if Num.ltb y x then Some y else Some x
  | Some x, None => Some x
  | None, _ => b
  end.

Definition conjunction (A B : FilterOptions) : option FilterOptions :=
  match commonCategories (categoriesOf A) (categoriesOf B) with
  | None => None
  | Some categories =>
      Some {|
        dateRange := Some {|
          startDate := laterStart (startDateOf A) (startDateOf B);
          endDate := earlierEnd (endDateOf A) (endDateOf B) |};
        selectedMetrics :=
          Some (default [] (selectedMetrics A) ++ default [] (selectedMetrics B));
        selectedCategories := Some categories;
        minValue := largerMin (minValue A) (minValue B);
        maxValue := smallerMax (maxValue A) (maxValue B)
      |}
  end.

End Conjunction.

(** ** Helpers for writing inputs down *)

(** A quoted text and two lines of text. *)
Definition q (s : string) : string :=
  String Str.dquote s +:+ String Str.dquote EmptyString.

Definition nl (a b : string) : string := a +:+ String Str.LF b.

(** One date parser, for evaluating the engine on concrete tables: it
    reads the date-only form [YYYY-MM-DD] of the ECMAScript date-time
    format, for a day that exists, as midnight UTC, and no other text.
    The properties below are stated for every parser. *)
Definition isoDate (s : string) : option Z :=
  match s with
  | String y1 (String y2 (String y3 (String y4 (String s1
      (String m1 (String m2 (String s2 (String d1 (String d2 EmptyString))))))))) =>
      match Num.digit y1, Num.digit y2, Num.digit y3, Num.digit y4,
            Num.digit m1, Num.digit m2, Num.digit d1, Num.digit d2 with
      | Some a, Some b, Some c, Some d, Some e, Some f, Some g, Some h =>
          let year := (1000 * a + 100 * b + 10 * c + d)%Z in
          let month := (10 * e + f)%Z in
          let day := (10 * g + h)%Z in
          let leap := DateTime.InLeapYear year in
          let daysInMonth :=
            if (month =? 12)%Z then 31%Z
            else (DateTime.monthStart month leap - DateTime.monthStart (month - 1) leap)%Z in
          if Str.eqc s1 "-" && Str.eqc s2 "-" &&
             (1 <=? month)%Z && (month <=? 12)%Z &&
             (1 <=? day)%Z && (day <=? daysInMonth)%Z
          then Some (DateTime.utc year month day 0 0)
          else None
      | _, _, _, _, _, _, _, _ => None
      end
  | _ => None
  end.

(** A specification with a single kind of constraint. *)
Definition onlyCategories (selected : list string) : FilterOptions :=
  mkFilterOptions None None (Some selected) None None.

Definition onlyRange (min max : option number) : FilterOptions :=
  mkFilterOptions None None None min max.

Definition onlyDates (start_ end_ : option string) : FilterOptions :=
  mkFilterOptions (Some (mkDateRange start_ end_)) None None None None.

(** ** Vocabulary of the schedule properties *)

(** The text [HH:MM] of an hour and a minute, zero-padded. *)
Definition twoDigits (n : nat) : string :=
  String (ascii_of_nat (48 + n / 10)) (String (ascii_of_nat (48 + n mod 10)) EmptyString).

Definition timeText (hour minute : nat) : string :=
  twoDigits hour +:+ ":" +:+ twoDigits minute.

(** The instant at which the clock of the host shows [hour]:[minute] on
    the local day of [now]. *)
Definition sameDayAt (LocalTZA now : Z) (hour minute : nat) : Z :=
  UTC LocalTZA
    (DateTime.MakeDate (DateTime.Day (LocalTime LocalTZA now))
       (Z.of_nat hour * DateTime.msPerHour + Z.of_nat minute * DateTime.msPerMinute)).

(** Structural equality of numbers, for checking tables of values. *)
Definition sameNumber (x y : number) : bool :=
  match x, y with
  | NaN, NaN => true
  | Fin a, Fin b => (Qnum a =? Qnum b)%Z && (Qden a =? Qden b)%positive
  | Inf a, Inf b => Bool.eqb a b
  | _, _ => false
  end.

Definition hoursMinutesOk (hour minute : nat) : bool :=
  let '(h, m) := hoursMinutes (timeText hour minute) in
  sameNumber h (Num.of_nat hour) && sameNumber m (Num.of_nat minute).

(** * Further code: the CSV writer of the integration manager
      (integration-manager.ts) *)

(** The global [replace] of [convertToCSV]: every double quote of the
    cell is doubled. *)
Fixpoint escapeQuotes (cell : string) : string :=
  match cell with
  | String c tl =>
      if Str.eqc c Str.dquote
      then String Str.dquote (String Str.dquote (escapeQuotes tl))
      else String c (escapeQuotes tl)
  | EmptyString => EmptyString
  end.

(** The template that puts a text between two double quotes. *)
Definition quoteText (s : string) : string :=
  String Str.dquote (s +:+ String Str.dquote EmptyString).

(** [convertToCSV]: the header line, its cells quoted but not escaped,
    then one line per row, every cell escaped and quoted; the lines are
    pushed to [csvRows] and joined by line feeds. *)
Definition convertToCSV (headers : list string) (rows : list (list string)) : string :=
  let csvRows := [Str.join "," (map (fun header => quoteText header) headers)] in
  let csvRows :=
    fold_left (fun csvRows row =>
      let csvRow := Str.join "," (map (fun cell => quoteText (escapeQuotes cell)) row) in
      csvRows ++ [csvRow]) rows csvRows in
  Str.join (String Str.LF EmptyString) csvRows.

(** ** Vocabulary of the further properties *)

(** [s.includes(c)] for one character. *)
Fixpoint hasChar (c : ascii) (s : string) : bool :=
  match s with
  | String c' tl => Str.eqc c' c || hasChar c tl
  | EmptyString => false
  end.

(** A cell that the parser reads back as it is: nothing to trim and no
    line feed. *)
Definition plainCell (cell : string) : Prop :=
  Str.trim cell = cell /\ hasChar Str.LF cell = false.

(** A line written by [convertToCSV]: it starts and ends with a double
    quote and holds no line feed. *)
Definition writtenLine (l : string) : Prop :=
  exists body, l = String Str.dquote body +:+ String Str.dquote EmptyString /\
               hasChar Str.LF body = false.


(** A filter specification without an active constraint: no bound of
    the date range is a non-empty text, no category is selected and no
    value bound is set.  The selected metrics are free. *)
Definition inactive (filters : FilterOptions) : Prop :=
  truthy (startDateOf filters) = false /\
  truthy (endDateOf filters) = false /\
  categoriesOf filters = [] /\
  minValue filters = None /\
  maxValue filters = None.

(** A cell that a fail-open filter lets through: missing, empty, or not
    accepted by the reader of its kind. *)
Definition unreadable {A} (read : string -> option A) (cell : option string) : Prop :=
  match cell with
  | None => True
  | Some v => v = EmptyString \/ read v = None
  end.


(** The time of a chart point, for stating the order of a series: the
    time value of its date, and 0 when it has none. *)
Definition timeOf (Date_parse : string -> option Z) (p : ChartDataPoint) : Z :=
  match date p with
  | Some d => match Date_parse d with Some t => t | None => 0%Z end
  | None => 0%Z
  end.

(** The metrics that [parseAIResponse] computes from the table before
    it merges those of the reply: the loop over [metricColumns], as in
    [decodeParsed]. *)
Definition computedMetrics (headers : list string) (rows : list (list string))
    : gmap string number :=
  fold_left (fun (keyMetrics : gmap string number) col =>
    let colIndex := Arr.indexOf headers col in
    if negb (colIndex =? -1)%Z then
      let values :=
        List.filter (fun v => negb (Num.isNaN v) && negb (Num.eqb v Num.zero))
          (columnValues colIndex rows) in
      if Nat.ltb 0 (length values)
      then JS.set keyMetrics col (Num.sum values)
      else keyMetrics
    else keyMetrics) (List.filter (hasKeyword metricWords) headers) (∅ : gmap string number).

(** The shape of a chart pushed by the loop over the numeric columns of
    [generateChartData]. *)
Definition lineChartOf (Date_parse : string -> option Z) (toLocaleDateString : Z -> string)
    (headers : list string) (rows : list (list string))
    (dateIndex : Z) (columns : list string) (chart : ChartData) : Prop :=
  exists numericCol,
    In numericCol columns /\
    chart = mkChart LineChart (numericCol +:+ " Over Time")
              (sortBy (laterDate Date_parse)
                 (timeSeriesPoints Date_parse toLocaleDateString dateIndex
                    (Arr.indexOf headers numericCol) rows))
              (Some "Date") (Some numericCol) (Some ["#3b82f6"]) /\
    2 <= length (data chart).

(** The number of days of month [m] (0 to 11). *)
Definition daysInMonth (m : Z) (leap : bool) : Z :=
  if (m =? 1)%Z then (if leap then 29 else 28)%Z
  else if (m =? 3)%Z || (m =? 5)%Z || (m =? 8)%Z || (m =? 10)%Z then 30%Z
  else 31%Z.

(** * Further code: the comparison of two analyses (scheduler service) *)

(** A value of a metrics record as far as [typeof v === 'number'] tells
    it apart: a binary64 number, or anything else. *)
Inductive MetricValue : Type :=
| MNumber (f : float)
| MOther.

Inductive Trend : Type := TrendUp | TrendDown | TrendStable.
Inductive Significance : Type := SignificanceHigh | SignificanceMedium | SignificanceLow.

Record ComparisonInsight := mkComparisonInsight {
  metric : string;
  currentValue : float;
  previousValue : float;
  change : float;
  changePercent : float;
  trend : Trend;
  significance : Significance
}.

(** A stored analysis: [key_metrics] is a plain object, given by its own
    properties in order, or is missing. *)
Record StoredAnalysis := mkStoredAnalysis {
  key_metrics : option (list (string * MetricValue));
  date_range_start : option string;
  date_range_end : option string
}.

Record Period := mkPeriod {
  start_ : option string;
  end_ : option string
}.

Record ComparisonData := mkComparisonData {
  comparisonInsights : list ComparisonInsight;
  significantChanges : nat;
  improvementAreas : nat;
  declineAreas : nat;
  currentPeriod : Period;
  previousPeriod : Period
}.

(** [obj[key]] on a plain object of metrics: its own property, and
    otherwise a value that is no number. *)
Fixpoint member (key : string) (obj : list (string * MetricValue)) : MetricValue :=
  match obj with
  | [] => MOther
  | (k, v) :: tl => if String.eqb k key then v else member key tl
  end.

(** The loop variables of [generateComparisonData]. *)
Record Tally := mkTally {
  tallyInsights : list ComparisonInsight;
  tallySignificant : nat;
  tallyImprovement : nat;
  tallyDecline : nat
}.

(** One turn of the loop over the entries of the current metrics. *)
Definition compareMetric (previousMetrics : list (string * MetricValue))
    (tally : Tally) (entry : string * MetricValue) : Tally :=
  let '(metric, currentValue) := entry in
  let previousValue := member metric previousMetrics in
  match currentValue, previousValue with
  | MNumber currentValue, MNumber previousValue =>
      if negb (PrimFloat.eqb previousValue 0%float) then
        let change := PrimFloat.sub currentValue previousValue in
        let changePercent := PrimFloat.mul (PrimFloat.div change previousValue) 100%float in
        let '(significance, significantChanges) :=
          if PrimFloat.ltb 20%float (PrimFloat.abs changePercent)
          then (SignificanceHigh, S (tallySignificant tally))
          else if PrimFloat.ltb 10%float (PrimFloat.abs changePercent)
          then (SignificanceMedium, tallySignificant tally)
          else (SignificanceLow, tallySignificant tally) in
        let '(trend, improvementAreas, declineAreas) :=
          if PrimFloat.ltb 5%float changePercent
          then (TrendUp, S (tallyImprovement tally), tallyDecline tally)
          else if PrimFloat.ltb changePercent (-5)%float
          then (TrendDown, tallyImprovement tally, S (tallyDecline tally))
          else (TrendStable, tallyImprovement tally, tallyDecline tally) in
        mkTally
          (tallyInsights tally ++
             [mkComparisonInsight metric currentValue previousValue change changePercent
                trend significance])
          significantChanges improvementAreas declineAreas
      else tally
  | _, _ => tally
  end.

Definition generateComparisonData (currentAnalysis previousAnalysis : StoredAnalysis)
    : ComparisonData :=
  let currentMetrics := default [] (key_metrics currentAnalysis) in
  let previousMetrics := default [] (key_metrics previousAnalysis) in
  let tally := fold_left (compareMetric previousMetrics) currentMetrics (mkTally [] 0 0 0) in
  mkComparisonData (tallyInsights tally) (tallySignificant tally)
    (tallyImprovement tally) (tallyDecline tally)
    (mkPeriod (date_range_start currentAnalysis) (date_range_end currentAnalysis))
    (mkPeriod (date_range_start previousAnalysis) (date_range_end previousAnalysis)).

Definition isHigh (insight : ComparisonInsight) : bool :=
  match significance insight with SignificanceHigh => true | _ => false end.

Definition isUp (insight : ComparisonInsight) : bool :=
  match trend insight with TrendUp => true | _ => false end.

Definition isDown (insight : ComparisonInsight) : bool :=
  match trend insight with TrendDown => true | _ => false end.

(** What the loop of [generateComparisonData] keeps true of its
    variables: the counters count the insights by their tags, and every
    insight compares a number of the current record with a number other
    than zero of the previous one. *)
Definition tallied (current previous : list (string * MetricValue)) (tally : Tally) : Prop :=
  tallySignificant tally = length (List.filter isHigh (tallyInsights tally)) /\
  tallyImprovement tally = length (List.filter isUp (tallyInsights tally)) /\
  tallyDecline tally = length (List.filter isDown (tallyInsights tally)) /\
  Forall (fun insight =>
    In (metric insight, MNumber (currentValue insight)) current /\
    member (metric insight) previous = MNumber (previousValue insight) /\
    PrimFloat.eqb (previousValue insight) 0%float = false)
    (tallyInsights tally).

(** * Further code: the file name check of the upload endpoint
      (upload.ts) *)

Definition SUPPORTED_EXTENSIONS : list string := [".csv"; ".xls"; ".xlsx"].

(** [s.lastIndexOf(c)] for a character: its last position, or [-1]. *)
Fixpoint lastIndexOf (c : ascii) (s : string) : Z :=
  match s with
  | String d tl =>
      let later := lastIndexOf c tl in
      if (0 <=? later)%Z then (later + 1)%Z
      else if Str.eqc d c then 0%Z else (-1)%Z
  | EmptyString => (-1)%Z
  end.

Fixpoint dropChars (n : nat) (s : string) : string :=
  match n, s with
  | S n', String _ tl => dropChars n' tl
  | _, _ => s
  end.

(** [s.substring(start)]: a negative start counts as 0, one beyond the
    end as the length. *)
Definition substring (s : string) (start : Z) : string :=
  dropChars (Z.to_nat start) s.

(** [fileName.toLowerCase().substring(fileName.lastIndexOf('.'))], for
    a name of ASCII characters: there lower-casing keeps the place of
    every character, the dot included. *)
Definition fileExtensionOf (fileName : string) : string :=
  substring (Str.toLowerCase fileName) (lastIndexOf "." fileName).

(** A text of ASCII characters only.  On such a text trimming and
    lower-casing are those of the engine, character for character. *)
Fixpoint asciiText (s : string) : bool :=
  match s with
  | String c tl => Nat.ltb (nat_of_ascii c) 128 && asciiText tl
  | EmptyString => true
  end.

(** The extension check of [upload], on the trimmed file name. *)
Definition supportedFormat (fileName : string) : bool :=
  Arr.includes SUPPORTED_EXTENSIONS (fileExtensionOf fileName).

Definition MAX_FILE_SIZE : Z := (10 * 1024 * 1024)%Z.

Definition SUPPORTED_MIME_TYPES : list string :=
  ["text/csv"; "application/vnd.ms-excel";
   "application/vnd.openxmlformats-officedocument.spreadsheetml.sheet"; "text/plain"].

Section Upload.

(** [Buffer.from(data, 'base64')], as the bytes decoded, and
    [buffer.toString('utf-8')] of the host. *)
Variable fromBase64 : string -> string.
Variable toUtf8 : string -> string.

(** The validations of [upload], up to the write to the bucket: the
    code of the [APIError] thrown, or the file name under which the file
    is stored. *)
Definition uploadValidation (fileName fileData fileType : string) : result string :=
  if Str.is_empty fileName || Str.is_empty fileData || Str.is_empty fileType then
    Err "MISSING_FIELDS"
  else
    let fileName := Str.trim fileName in
    if Nat.eqb (String.length fileName) 0 then Err "INVALID_FILENAME"
    else
      let fileExtension := fileExtensionOf fileName in
      if negb (Arr.includes SUPPORTED_EXTENSIONS fileExtension) then
        Err "UNSUPPORTED_FORMAT"
      else if negb (Arr.includes SUPPORTED_MIME_TYPES fileType) &&
              negb (String.eqb fileType "application/octet-stream") then
        Err "UNSUPPORTED_MIME_TYPE"
      else
        let fileBuffer := fromBase64 fileData in
        if Nat.eqb (String.length fileBuffer) 0 then Err "EMPTY_FILE"
        else if (MAX_FILE_SIZE <? Z.of_nat (String.length fileBuffer))%Z then
          Err "FILE_TOO_LARGE"
        else if String.eqb fileExtension ".csv" || String.eqb fileType "text/csv" then
          match validateCSVContent (toUtf8 fileBuffer) with
          | Err _ => Err "INVALID_CSV"
          | Ok _ => Ok fileName
          end
        else Ok fileName.

End Upload.

(** * Further code: the date range of a scheduled run (scheduler
      service) *)

(** [n] in decimal, on [width] digits: [padStart(width, '0')] of a
    number below [10 ^ width]. *)
Fixpoint digitsText (width : nat) (n : Z) : string :=
  match width with
  | O => EmptyString
  | S width' =>
      digitsText width' (n / 10) +:+
      String (ascii_of_nat (48 + Z.to_nat (n mod 10))) EmptyString
  end.

Definition HourFromTime (t : Z) : Z := ((t / DateTime.msPerHour) mod 24)%Z.
Definition MinFromTime (t : Z) : Z := ((t / DateTime.msPerMinute) mod 60)%Z.
Definition SecFromTime (t : Z) : Z := ((t / DateTime.msPerSecond) mod 60)%Z.
Definition msFromTime (t : Z) : Z := (t mod DateTime.msPerSecond)%Z.

(** The year of the date-time string format: four digits from 0 to
    9999, and otherwise a sign and six digits. *)
Definition yearText (y : Z) : string :=
  if (0 <=? y)%Z && (y <=? 9999)%Z then digitsText 4 y
  else (if (y <? 0)%Z then "-" else "+") +:+ digitsText 6 (Z.abs y).

(** The calendar date of the instant [t] in UTC, as the date-time string
    format writes it. *)
Definition utcDateText (t : Z) : string :=
  yearText (DateTime.YearFromTime t) +:+ "-" +:+
  digitsText 2 (DateTime.MonthFromTime t + 1) +:+ "-" +:+
  digitsText 2 (DateTime.DateFromTime t).

(** [d.toISOString()]: a [RangeError] on an invalid date. *)
Definition toISOString (d : option Z) : result string :=
  match d with
  | None => Err "RangeError"
  | Some t =>
      Ok (utcDateText t +:+ "T" +:+
          digitsText 2 (HourFromTime t) +:+ ":" +:+
          digitsText 2 (MinFromTime t) +:+ ":" +:+
          digitsText 2 (SecFromTime t) +:+ "." +:+
          digitsText 3 (msFromTime t) +:+ "Z")
  end.

(** [d.toISOString().split('T')[0]] *)
Definition isoDay (d : option Z) : result string :=
  match toISOString d with
  | Ok text => Ok (nth 0 (Str.split "T" text) EmptyString)
  | Err e => Err e
  end.

Record RunDateRange := mkRunDateRange {
  runStartDate : string;
  runEndDate : string
}.

(** [calculateDateRange]; [endNow] and [startNow] are the values of the
    two [new Date()] read at the start, in that order. *)
Definition calculateDateRange (LocalTZA : Z) (endNow startNow : Z) (frequency : string)
    : result RunDateRange :=
  let endDate : Date := Some endNow in
  let startDate : Date := Some startNow in
  let startDate :=
    if String.eqb frequency "daily" then
      setDate LocalTZA startDate (Num.sub (getDate LocalTZA startDate) (Num.of_Z 1))
    else if String.eqb frequency "weekly" then
      setDate LocalTZA startDate (Num.sub (getDate LocalTZA startDate) (Num.of_Z 7))
    else if String.eqb frequency "monthly" then
      setMonth LocalTZA startDate (Num.sub (getMonth LocalTZA startDate) (Num.of_Z 1))
    else startDate in
  match isoDay startDate with
  | Err e => Err e
  | Ok startText =>
      match isoDay endDate with
      | Err e => Err e
      | Ok endText => Ok (mkRunDateRange startText endText)
      end
  end.

(** * Further code: the creation of a scheduled job (scheduler
      service) *)

(** The fields of the request that the handler reads before it writes
    to the database. *)
Record CreateScheduledJobRequest := mkCreateScheduledJobRequest {
  name : string;
  platform : string;
  accountId : string;
  accessToken : string;
  frequency : string;
  timeOfDay : string;
  dayOfWeek : option number;
  dayOfMonth : option number;
  timezone : string
}.

(** [createScheduledJob] up to the [INSERT]: the code of the [APIError]
    thrown, or the text of [nextRun.toISOString()] that the statement
    binds.  The [RangeError] of [toISOString] on an invalid date is
    caught and thrown again as an internal error. *)
Definition createScheduledJob (LocalTZA now : Z) (req : CreateScheduledJobRequest)
    : result string :=
  if Str.is_empty (name req) || Str.is_empty (platform req) || Str.is_empty (accountId req) ||
     Str.is_empty (accessToken req) || Str.is_empty (frequency req) then
    Err "MISSING_FIELDS"
  else if String.eqb (frequency req) "weekly" &&
          match dayOfWeek req with
          | None => true
          | Some day => Num.ltb day (Num.of_Z 0) || Num.gtb day (Num.of_Z 6)
          end then
    Err "INVALID_DAY_OF_WEEK"
  else if String.eqb (frequency req) "monthly" &&
          match dayOfMonth req with
          | None => true
          | Some day => Num.ltb day (Num.of_Z 1) || Num.gtb day (Num.of_Z 31)
          end then
    Err "INVALID_DAY_OF_MONTH"
  else
    let nextRun :=
      calculateNextRun LocalTZA now (frequency req) (timeOfDay req)
        (dayOfWeek req) (dayOfMonth req) (Some (timezone req)) in
    match toISOString nextRun with
    | Ok text => Ok text
    | Err _ => Err "CREATE_JOB_ERROR"
    end.

(** * Further code: the summary of the table (analyze.ts) *)

Record SummaryDateRange := mkSummaryDateRange {
  earliest : option string;
  latest : option string
}.

Record DataSummary := mkDataSummary {
  totalRows : nat;
  filteredRows : nat;
  summaryDateRange : SummaryDateRange;
  availableMetrics : list string;
  availableCategories : list string
}.

(** [Array.from(new Set(xs))]: the elements in the order of their first
    occurrence; [seen] holds those already in the set. *)
Fixpoint setOf (seen : list string) (xs : list string) : list string :=
  match xs with
  | [] => []
  | x :: tl =>
      if Arr.includes seen x then setOf seen tl else x :: setOf (x :: seen) tl
  end.

(** The default comparison of [sort()] on strings is positive: the
    first text comes after the second in the order of the character
    codes. *)
Definition textAfter (a b : string) : bool := String.ltb b a.

(** [a.getTime() - b.getTime()] is positive; a NaN difference is not. *)
Definition laterTime (a b : Date) : bool :=
  match a, b with
  | Some ta, Some tb => (tb <? ta)%Z
  | _, _ => false
  end.

(** The time values of the cells of a column that are not empty and
    hold a valid date, in the order of the rows. *)
Definition validTimes (Date_parse : string -> option Z) (index : Z)
    (rows : list (list string)) : list Z :=
  omap (fun row =>
    match Arr.at_ row index with
    | Some cell => if Str.is_empty cell then None else Date_parse cell
    | None => None
    end) rows.

(** The cells of a column that are not empty. *)
Definition filledCells (index : Z) (rows : list (list string)) : list string :=
  omap (fun row =>
    match Arr.at_ row index with
    | Some cell => if Str.is_empty cell then None else Some cell
    | None => None
    end) rows.

Section Summary.

Variable Date_parse : string -> option Z.

(** [createDataSummary]; the [filters] argument is never read.  An
    error is the [RangeError] of [toISOString]. *)
Definition createDataSummary (headers : list string)
    (originalRows filteredRows : list (list string)) (filters : option FilterOptions)
    : result DataSummary :=
  let dateColumns := findDateColumns headers in
  let numericColumns := findNumericColumns headers originalRows in
  let categoricalColumns := findCategoricalColumns headers originalRows in
  let dateRange : result SummaryDateRange :=
    match dateColumns with
    | dateCol :: _ =>
        let dateColIndex := Arr.indexOf headers dateCol in
        let dates : list Date :=
          sortBy laterTime
            (map (fun date => Date_parse (default EmptyString date))
               (List.filter
                  (fun date =>
                     truthy date &&
                     negb (match Date_parse (default EmptyString date) with
                           | None => true
                           | Some _ => false
                           end))
                  (map (fun row => Arr.at_ row dateColIndex) filteredRows))) in
        match dates with
        | first :: _ =>
            match isoDay first with
            | Err e => Err e
            | Ok earliest =>
                match isoDay (List.last dates first) with
                | Err e => Err e
                | Ok latest => Ok (mkSummaryDateRange (Some earliest) (Some latest))
                end
            end
        | [] => Ok (mkSummaryDateRange None None)
        end
    | [] => Ok (mkSummaryDateRange None None)
    end in
  let availableCategories :=
    match categoricalColumns with
    | categoryCol :: _ =>
        let categoryColIndex := Arr.indexOf headers categoryCol in
        let categories :=
          setOf []
            (omap id
               (List.filter truthy
                  (map (fun row => Arr.at_ row categoryColIndex) originalRows))) in
        sortBy textAfter categories
    | [] => []
    end in
  match dateRange with
  | Err e => Err e
  | Ok dateRange =>
      Ok (mkDataSummary (length originalRows) (length filteredRows) dateRange
            numericColumns availableCategories)
  end.

End Summary.

(** * Properties *)

(** ** The integer thresholds are those of the source *)

(** On every sample size the classifier can see (at most 10 rows for
    numeric columns, at most 20 for categorical ones) the comparison on
    integers agrees with the comparison of the source in binary64. *)
Lemma isNumericColumn_binary64 :
  forallb (fun sampleSize =>
    forallb (fun numericCount =>
      Bool.eqb (isNumericColumn64 numericCount sampleSize)
               (Nat.ltb (7 * sampleSize) (10 * numericCount)))
      (seq 0 11)) (seq 0 11) = true.
Proof. vm_compute. reflexivity. Qed.

Lemma isGoodCategorical_binary64 :
  forallb (fun sampleSize =>
    forallb (fun size =>
      Bool.eqb (isGoodCategorical64 size sampleSize)
               (Nat.ltb 1 size && Nat.ltb (5 * size) (4 * sampleSize)))
      (seq 0 21)) (seq 0 21) = true.
Proof. vm_compute. reflexivity. Qed.

(** ** Sanity checks of the embedding on concrete inputs *)

Example parseCSVLine_quoted :
  parseCSVLine ("a, " +:+ q "b,c" +:+ " ," +:+ q ("say " +:+ q (q "hi")))
  = ["a"; "b,c"; "say " +:+ q "hi"].
Proof. reflexivity. Qed.

Example parseCSVContent_ok :
  parseCSVContent
    ("Date,Revenue" +:+ String Str.CR (String Str.LF "2024-01-01,10") +:+
     String Str.LF EmptyString +:+ String Str.LF "2024-01-02,20")
  = Ok (mkParseResult ["Date"; "Revenue"] [["2024-01-01"; "10"]; ["2024-01-02"; "20"]]).
Proof. reflexivity. Qed.

Example parseCSVContent_bad_row :
  parseCSVContent (nl "a,b" "1,2,3")
  = Err "Error parsing row 2: Row 2 has 3 columns but expected 2".
Proof. vm_compute. reflexivity. Qed.

Example parseCSVContent_duplicate :
  parseCSVContent (nl "Channel,clicks,channel" "a,1,b")
  = Err "Duplicate column headers found: channel".
Proof. reflexivity. Qed.

Example parseFloat_samples :
  map Num.parseFloat ["12.50"; "1e3"; ".5"; "abc"; "-7px"; "Infinity"]
  = [Fin (25 # 2); Fin 1000; Fin (1 # 2); NaN; Fin (-7); Inf false].
Proof. reflexivity. Qed.

Example Number_samples :
  map Num.Number ["09"; EmptyString; "0x1F"; "12px"] = [Fin 9; Fin 0; Fin 31; NaN].
Proof. reflexivity. Qed.

Example parseNumericValue_formatted :
  parseNumericValue (Some "$1,234.50") = Fin (2469 # 2) /\
  parseNumericValue (Some "n/a") = Num.zero /\
  parseNumericValue None = Num.zero.
Proof. repeat split. Qed.

Example classifier_sample :
  let headers := ["revenue"; "channel"; "date"] in
  let rows := [["40"; "email"; "2024-01-01"]; ["75"; "search"; "2024-01-02"];
               ["20"; "email"; "2024-01-03"]; ["90"; "social"; "2024-01-04"]] in
  findDateColumns headers = ["date"] /\
  findNumericColumns headers rows = ["revenue"; "date"] /\
  findCategoricalColumns headers rows = ["channel"].
Proof. repeat split. Qed.

Example applyFilters_sample :
  let headers := ["revenue"; "channel"; "date"] in
  let rows := [["40"; "email"; "2024-01-01"]; ["75"; "search"; "2024-01-02"];
               ["20"; "email"; "2024-01-03"]; ["90"; "social"; "2024-01-04"]] in
  applyFilters isoDate headers rows (Some (onlyDates (Some "2024-01-02") None))
  = [["75"; "search"; "2024-01-02"]; ["20"; "email"; "2024-01-03"];
     ["90"; "social"; "2024-01-04"]] /\
  applyFilters isoDate headers rows (Some (onlyCategories ["email"]))
  = [["40"; "email"; "2024-01-01"]; ["20"; "email"; "2024-01-03"]] /\
  applyFilters isoDate headers rows (Some (onlyRange (Some (Num.of_Z 30)) (Some (Num.of_Z 80))))
  = [["40"; "email"; "2024-01-01"]; ["75"; "search"; "2024-01-02"]] /\
  applyFilters isoDate headers rows None = rows.
Proof. repeat split. Qed.

Example jsonMatch_samples :
  JS.jsonMatch "Here you go: {x} and {y} done" = Some "{x} and {y}" /\
  JS.jsonMatch "} nothing {" = None.
Proof. split; reflexivity. Qed.

Example createFallbackAnalysis_sample :
  let fallback :=
    createFallbackAnalysis ["channel"; "clicks"] [["email"; "10"]; ["search"; "25"]] "ads" in
  keyMetrics fallback !! "clicks" = Some (Fin 35) /\
  keyMetrics fallback !! "total_rows" = Some (Fin 2) /\
  keyMetrics fallback !! "channel" = None /\
  summary fallback =
    "Analysis completed for your ads report. The dataset contains 2 rows and 2 columns of data. While AI analysis was not available, the data has been successfully processed and basic metrics have been calculated.".
Proof. vm_compute. repeat split. Qed.

Example decodeParsed_sample :
  let parsed :=
    JObj [("summary", JStr "Search leads.");
          ("keyMetrics", JObj [("clicks", JNum (Num.of_Z 7)); ("note", JStr "high")]);
          ("insights", JArr [JObj [("title", JStr "Search leads"); ("impact", JStr "huge")]])] in
  exists analysisResult,
    decodeParsed parsed ["channel"; "clicks"] [["email"; "10"]; ["search"; "25"]]
      = Ok analysisResult /\
    summary analysisResult = "Search leads." /\
    keyMetrics analysisResult !! "clicks" = Some (Fin 7) /\
    keyMetrics analysisResult !! "note" = None /\
    insights analysisResult =
      [mkInsight "General" "Search leads" "No description available" "medium" None].
Proof. eexists. split; [reflexivity|]. vm_compute. repeat split. Qed.

Example validateCSVContent_samples :
  validateCSVContent
    (nl "channel,sessions,revenue" (nl "email,120,1800.50" "search,340,9200.00")) = Ok tt /\
  validateCSVContent
    (nl "channel,sessions,revenue" (nl "email,120,1800.50" "search,340"))
  = Err "Row 3 has 2 columns but header has 3 columns. Please ensure all rows have the same number of columns".
Proof. vm_compute. split; reflexivity. Qed.

(** The weekly wrap and the monthly overflow of the calculator, with
    the host on UTC: a Monday schedule computed on Monday 2024-01-01 at
    10:00 runs a week later, and day 31 computed on January 31st after
    the time of day skips February. *)
Example calculateNextRun_weekly :
  calculateNextRun 0 (DateTime.utc 2024 1 1 10 0) "weekly" "09:00"
    (Some (Num.of_Z 1)) None None = Some (DateTime.utc 2024 1 8 9 0) /\
  calculateNextRun 0 (DateTime.utc 2024 1 1 10 0) "weekly" "09:00"
    (Some (Num.of_Z 3)) None None = Some (DateTime.utc 2024 1 3 9 0).
Proof. split; reflexivity. Qed.

Example calculateNextRun_monthly :
  calculateNextRun 0 (DateTime.utc 2024 1 31 10 0) "monthly" "09:00"
    None (Some (Num.of_Z 31)) None = Some (DateTime.utc 2024 3 31 9 0).
Proof. reflexivity. Qed.

Example calculateNextRun_malformed :
  calculateNextRun 0 (DateTime.utc 2024 1 1 10 0) "daily" "9" None None None = None.
Proof. reflexivity. Qed.

Example calendar_samples :
  DateTime.utc 2024 1 1 10 0 = 1704103200000%Z /\
  DateTime.YearFromTime 1704103200000 = 2024%Z /\
  DateTime.MonthFromTime 1704103200000 = 0%Z /\
  DateTime.DateFromTime 1704103200000 = 1%Z /\
  DateTime.WeekDay 1704103200000 = 1%Z /\
  DateTime.DateFromTime (DateTime.utc 2024 2 29 0 0) = 29%Z /\
  DateTime.MonthFromTime (DateTime.utc 2100 3 1 0 0) = 2%Z /\
  DateTime.YearFromTime (-1) = 1969%Z.
Proof. repeat split. Qed.

(** ** The CSV parser keeps the width of the header *)

Section ParserWidth.

(** The loop over the data lines succeeds exactly when every line
    parses to [expected] fields, and then returns the parsed lines
    after the rows it started with. *)
Lemma parseRows_ok expected : forall lines i acc rows,
  parseRows expected i lines acc = Ok rows ->
  rows = acc ++ map parseCSVLine lines /\
  Forall (fun line => length (parseCSVLine line) = expected) lines.
Proof.
  induction lines as [|line tl IH]; intros i acc rows H; simpl in H.
  - inversion H; subst. rewrite app_nil_r. split; [reflexivity | constructor].
  - destruct (Nat.eqb (length (parseCSVLine line)) expected) eqn:E; simpl in H.
    + apply Nat.eqb_eq in E.
      apply IH in H as [-> Hall].
      split; [ now rewrite <- app_assoc | now constructor ].
    + discriminate.
Qed.

(** What a successful parse returns: the parsed first line and the
    parsed remaining lines. *)
Lemma parseCSVContent_ok_inv csvContent parsed :
  parseCSVContent csvContent = Ok parsed ->
  exists headerLine dataLines,
    nonBlankLines csvContent = headerLine :: dataLines /\
    headers parsed = parseCSVLine headerLine /\
    rows parsed = map parseCSVLine dataLines /\
    Forall (fun line => length (parseCSVLine line) = length (headers parsed)) dataLines.
Proof.
  unfold parseCSVContent. intros H.
  destruct (Str.is_empty csvContent || Str.is_empty (Str.trim csvContent)); [discriminate|].
  destruct (nonBlankLines csvContent) as [|headerLine dataLines]; [discriminate|].
  destruct (Str.is_empty headerLine); [discriminate|].
  destruct (Nat.eqb (length (parseCSVLine headerLine)) 0); [discriminate|].
  destruct (duplicateHeaders [] (parseCSVLine headerLine)); [|discriminate].
  destruct (parseRows _ 1 dataLines []) as [rs|] eqn:E; [|discriminate].
  inversion H; subst; clear H. simpl.
  apply parseRows_ok in E as [-> Hall].
  exists headerLine, dataLines. auto.
Qed.

End ParserWidth.

(** C3. Whenever [parseCSVContent] succeeds, every row of the table has
    as many cells as there are headers.  The rows are the parsed data
    lines themselves, neither padded nor truncated, and every data line
    did parse to the header's number of fields: a line with another
    number of fields makes the parse fail. *)
Theorem parseCSVContent_row_width csvContent parsed :
  parseCSVContent csvContent = Ok parsed ->
  Forall (fun row => length row = length (headers parsed)) (rows parsed) /\
  rows parsed = map parseCSVLine (tail (nonBlankLines csvContent)) /\
  (forall line, In line (tail (nonBlankLines csvContent)) ->
                length (parseCSVLine line) = length (headers parsed)).
Proof.
  intros H.
  destruct (parseCSVContent_ok_inv _ _ H) as (headerLine & dataLines & Hl & Hh & Hr & Hall).
  rewrite Hl; simpl. repeat split.
  - rewrite Hr. apply Forall_map. exact Hall.
  - exact Hr.
  - intros line Hin. rewrite Forall_forall in Hall.
    apply Hall. apply list_elem_of_In. exact Hin.
Qed.

Lemma parseCSVContent_row_width_witness :
  let csvContent := nl "channel,clicks" (nl "email,10" "search,25") in
  let parsed := mkParseResult ["channel"; "clicks"] [["email"; "10"]; ["search"; "25"]] in
  Forall (fun row => length row = length (headers parsed)) (rows parsed) /\
  rows parsed = map parseCSVLine (tail (nonBlankLines csvContent)) /\
  (forall line, In line (tail (nonBlankLines csvContent)) ->
                length (parseCSVLine line) = length (headers parsed)).
Proof.
  intros csvContent parsed.
  apply (parseCSVContent_row_width csvContent parsed).
  reflexivity.
Defined.

(** A data line of another width is an error, stated on the input. *)
Lemma parseCSVContent_rejects_mismatch csvContent headerLine dataLines line :
  nonBlankLines csvContent = headerLine :: dataLines ->
  In line dataLines ->
  length (parseCSVLine line) <> length (parseCSVLine headerLine) ->
  is_ok (parseCSVContent csvContent) = false.
Proof.
  intros Hl Hin Hne.
  destruct (parseCSVContent csvContent) as [parsed|] eqn:E; [|reflexivity].
  exfalso. apply Hne.
  destruct (parseCSVContent_ok_inv _ _ E) as (h & d & Hl' & Hh & _ & Hall).
  rewrite Hl in Hl'. inversion Hl'; subst h d.
  rewrite <- Hh. rewrite Forall_forall in Hall.
  apply Hall. apply list_elem_of_In. exact Hin.
Qed.

(** ** The fallback analysis *)

Section Fallback.

(** Writing a property never removes another one. *)
Lemma set_keeps (obj : gmap string number) key v k :
  is_Some (obj !! k) -> is_Some (JS.set obj key v !! k).
Proof.
  intros H. unfold JS.set.
  destruct (String.eqb key "__proto__"); [exact H|].
  destruct (decide (key = k)) as [->|Hne].
  - rewrite lookup_insert_eq. eauto.
  - rewrite lookup_insert_ne; auto.
Qed.

(** The loop over the headers in [createFallbackAnalysis] only writes
    properties. *)
Lemma fallback_loop_keeps (rows : list (list string)) k :
  forall (entries : list (nat * string)) (obj : gmap string number),
  is_Some (obj !! k) ->
  is_Some (fold_left (fun (keyMetrics : gmap string number) (entry : nat * string) =>
    let '(index, header) := entry in
    let values :=
      List.filter (fun v => negb (Num.eqb v Num.zero))
        (columnValues (Z.of_nat index) rows) in
    if Nat.ltb 0 (length values) && Nat.ltb (length rows) (2 * length values)
    then JS.set keyMetrics header (Num.sum values)
    else keyMetrics) entries obj !! k).
Proof.
  induction entries as [|[index header] tl IH]; intros obj H; simpl; [exact H|].
  apply IH.
  destruct (_ && _); [ now apply set_keeps | exact H ].
Qed.

Lemma fallback_keys headers rows reportType k :
  k = "total_rows" \/ k = "total_columns" ->
  is_Some (keyMetrics (createFallbackAnalysis headers rows reportType) !! k).
Proof.
  intros Hk. unfold createFallbackAnalysis; simpl.
  apply fallback_loop_keeps.
  destruct Hk as [-> | ->].
  - rewrite lookup_insert_ne by discriminate. rewrite lookup_insert_eq. eauto.
  - rewrite lookup_insert_eq. eauto.
Qed.

Lemma fallback_summary headers rows reportType :
  summary (createFallbackAnalysis headers rows reportType) <> EmptyString.
Proof. unfold createFallbackAnalysis; simpl. discriminate. Qed.

(** When no JSON text is found, or [JSON.parse] throws on it,
    [parseAIResponse] throws. *)
Lemma parseAIResponse_throws JSON_parse aiResponse headers rows :
  (JS.jsonMatch aiResponse = None \/
   exists text, JS.jsonMatch aiResponse = Some text /\ JSON_parse text = None) ->
  is_ok (parseAIResponse JSON_parse aiResponse headers rows) = false.
Proof.
  intros H. unfold parseAIResponse.
  destruct (_ || _); [reflexivity|].
  destruct H as [-> | (text & -> & ->)]; reflexivity.
Qed.

End Fallback.

(** C2. When no JSON object can be extracted from the reply of the
    generation service, or the extracted text does not parse, the
    response-validation step of [analyze] does not fail: it returns the
    fallback analysis, whose summary is not empty and whose [keyMetrics]
    has the keys [total_rows] and [total_columns]. *)
Theorem analyze_fallback_guarantee
    (JSON_parse : string -> option json) aiResponse headers filteredRows reportType :
  (JS.jsonMatch aiResponse = None \/
   exists text, JS.jsonMatch aiResponse = Some text /\ JSON_parse text = None) ->
  let analysisResult :=
    analysisResultOf JSON_parse aiResponse headers filteredRows reportType in
  analysisResult = createFallbackAnalysis headers filteredRows reportType /\
  summary analysisResult <> EmptyString /\
  is_Some (keyMetrics analysisResult !! "total_rows") /\
  is_Some (keyMetrics analysisResult !! "total_columns").
Proof.
  intros H analysisResult.
  assert (E : analysisResult = createFallbackAnalysis headers filteredRows reportType).
  { subst analysisResult. unfold analysisResultOf.
    pose proof (parseAIResponse_throws JSON_parse aiResponse headers filteredRows H) as T.
    destruct (parseAIResponse _ _ _ _); [discriminate | reflexivity]. }
  rewrite E. repeat split.
  - apply fallback_summary.
  - apply fallback_keys; auto.
  - apply fallback_keys; auto.
Qed.

Lemma analyze_fallback_guarantee_witness :
  let analysisResult :=
    analysisResultOf (fun _ => None) "Sorry, I cannot analyse {this"
      ["channel"; "clicks"] [["email"; "10"]; ["search"; "25"]] "general" in
  analysisResult =
    createFallbackAnalysis ["channel"; "clicks"] [["email"; "10"]; ["search"; "25"]] "general" /\
  summary analysisResult <> EmptyString /\
  is_Some (keyMetrics analysisResult !! "total_rows") /\
  is_Some (keyMetrics analysisResult !! "total_columns").
Proof.
  apply (analyze_fallback_guarantee (fun _ => None) "Sorry, I cannot analyse {this").
  left. reflexivity.
Defined.

(** ** Validation of insights and recommendations *)

Section Validation.










End Validation.




(** ** The filter engine *)

Section NumberOrder.

Lemma ltb_Fin a b : Num.ltb (Fin a) (Fin b) = true <-> (a < b)%Q.
Proof.
  simpl. rewrite negb_true_iff. split; intros H.
  - apply Qnot_le_lt. intros Hle. apply Qle_bool_iff in Hle. congruence.
  - destruct (Qle_bool b a) eqn:E; [|reflexivity].
    apply Qle_bool_iff in E. exfalso. exact (Qlt_not_le _ _ H E).
Qed.

Lemma ltb_trans x y z :
  Num.ltb x y = true -> Num.ltb y z = true -> Num.ltb x z = true.
Proof.
  destruct x as [|a|[|]], y as [|b|[|]], z as [|c|[|]];
    try discriminate; try reflexivity.
  rewrite !ltb_Fin. apply Qlt_trans.
Qed.

End NumberOrder.

Section FilterStages.

Variable Date_parse : string -> option Z.

Lemma filter_true {A} (l : list A) : List.filter (fun _ => true) l = l.
Proof. induction l; simpl; congruence. Qed.

(** Each stage is a pass with a row predicate; the data-dependent
    stages read the rows only through the column they choose. *)
Lemma dateStage_filter headers filters kept :
  dateStage Date_parse headers filters kept
  = List.filter (datePred Date_parse headers filters) kept.
Proof.
  unfold dateStage, datePred.
  destruct (_ || _); [|now rewrite filter_true].
  destruct (findDateColumns headers); [now rewrite filter_true | reflexivity].
Qed.

Lemma categoryStage_filter headers rows filters kept :
  categoryStage headers rows filters kept
  = List.filter (categoryPred headers (categoryColumn headers rows) filters) kept.
Proof.
  unfold categoryStage, categoryPred, categoryColumn.
  destruct (categoriesOf filters); [now rewrite filter_true|].
  destruct (findCategoricalColumns headers rows); simpl;
    [now rewrite filter_true | reflexivity].
Qed.

Lemma rangeStage_filter headers rows filters kept :
  rangeStage headers rows filters kept
  = List.filter (rangePred headers (numericColumn headers rows) filters) kept.
Proof.
  unfold rangeStage, rangePred, numericColumn.
  destruct (minValue filters), (maxValue filters);
    try (destruct (findNumericColumns headers rows); simpl;
         [now rewrite filter_true | reflexivity]).
  now rewrite filter_true.
Qed.

Lemma applyFilters_filter headers rows filters :
  applyFilters Date_parse headers rows (Some filters)
  = List.filter (rangePred headers (numericColumn headers rows) filters)
      (List.filter (categoryPred headers (categoryColumn headers rows) filters)
         (List.filter (datePred Date_parse headers filters) rows)).
Proof.
  unfold applyFilters.
  now rewrite rangeStage_filter, categoryStage_filter, dateStage_filter.
Qed.

Lemma applyFilters_In headers rows filters row :
  In row (applyFilters Date_parse headers rows (Some filters)) <->
  In row rows /\
  datePred Date_parse headers filters row = true /\
  categoryPred headers (categoryColumn headers rows) filters row = true /\
  rangePred headers (numericColumn headers rows) filters row = true.
Proof.
  rewrite applyFilters_filter, !filter_In. tauto.
Qed.

(** The engine only removes rows. *)
Lemma applyFilters_incl headers rows filters :
  incl (applyFilters Date_parse headers rows filters) rows.
Proof.
  destruct filters as [f|]; [|apply incl_refl].
  intros row H. now apply applyFilters_In in H.
Qed.

Lemma filter_fixed {A} (p : A -> bool) (l : list A) :
  (forall x, In x l -> p x = true) -> List.filter p l = l.
Proof.
  induction l as [|a l IH]; intros H; simpl; [reflexivity|].
  rewrite (H a (or_introl eq_refl)). f_equal. apply IH. intros x Hx. apply H. now right.
Qed.

(** *** The conjunction is at least as tight as its left operand *)

Lemma laterStart_truthy a b :
  truthy a = true -> truthy (laterStart Date_parse a b) = true.
Proof.
  unfold laterStart, truthy. intros Ha.
  destruct (falsy a) eqn:Fa; [discriminate|].
  destruct (falsy b) eqn:Fb; [now rewrite Fa|].
  destruct a as [sa|], b as [sb|]; try (now rewrite Fa).
  destruct (Date_parse sa), (Date_parse sb);
    try destruct (_ <? _)%Z; now rewrite ?Fa, ?Fb.
Qed.

Lemma earlierEnd_truthy a b :
  truthy a = true -> truthy (earlierEnd Date_parse a b) = true.
Proof.
  unfold earlierEnd, truthy. intros Ha.
  destruct (falsy a) eqn:Fa; [discriminate|].
  destruct (falsy b) eqn:Fb; [now rewrite Fa|].
  destruct a as [sa|], b as [sb|]; try (now rewrite Fa).
  destruct (Date_parse sa), (Date_parse sb);
    try destruct (_ <? _)%Z; now rewrite ?Fa, ?Fb.
Qed.

Lemma boundDate_truthy bound s :
  bound = Some s -> falsy bound = false ->
  boundDate Date_parse bound = Some (Date_parse s).
Proof. intros -> H. simpl in *. now rewrite H. Qed.

Lemma beforeBound_laterStart t a b :
  beforeBound t (boundDate Date_parse a) = true ->
  beforeBound t (boundDate Date_parse (laterStart Date_parse a b)) = true.
Proof.
  unfold laterStart. intros H.
  destruct a as [sa|]; [|discriminate].
  destruct (falsy (Some sa)) eqn:Fa; [simpl in *; now rewrite Fa in H|].
  destruct (falsy b) eqn:Fb; [exact H|].
  destruct b as [sb|]; [|exact H].
  rewrite (boundDate_truthy _ sa eq_refl Fa) in H.
  destruct (Date_parse sa) as [ta|] eqn:Pa; [|discriminate]. simpl in H.
  destruct (Date_parse sb) as [tb|] eqn:Pb.
  - destruct (ta <? tb)%Z eqn:E.
    + rewrite (boundDate_truthy _ sb eq_refl Fb), Pb. simpl.
      apply Z.ltb_lt in H, E. apply Z.ltb_lt. lia.
    + rewrite (boundDate_truthy _ sa eq_refl Fa), Pa. exact H.
  - rewrite (boundDate_truthy _ sa eq_refl Fa), Pa. exact H.
Qed.

Lemma afterBound_earlierEnd t a b :
  afterBound t (boundDate Date_parse a) = true ->
  afterBound t (boundDate Date_parse (earlierEnd Date_parse a b)) = true.
Proof.
  unfold earlierEnd. intros H.
  destruct a as [sa|]; [|discriminate].
  destruct (falsy (Some sa)) eqn:Fa; [simpl in *; now rewrite Fa in H|].
  destruct (falsy b) eqn:Fb; [exact H|].
  destruct b as [sb|]; [|exact H].
  rewrite (boundDate_truthy _ sa eq_refl Fa) in H.
  destruct (Date_parse sa) as [ta|] eqn:Pa; [|discriminate]. simpl in H.
  destruct (Date_parse sb) as [tb|] eqn:Pb.
  - destruct (tb <? ta)%Z eqn:E.
    + rewrite (boundDate_truthy _ sb eq_refl Fb), Pb. simpl.
      apply Z.ltb_lt in H, E. apply Z.ltb_lt. lia.
    + rewrite (boundDate_truthy _ sa eq_refl Fa), Pa. exact H.
  - rewrite (boundDate_truthy _ sa eq_refl Fa), Pa. exact H.
Qed.

(** Tighter bounds keep fewer rows. *)
Lemma dateKeeps_mono index startA endA startF endF row :
  (forall t, beforeBound t startA = true -> beforeBound t startF = true) ->
  (forall t, afterBound t endA = true -> afterBound t endF = true) ->
  dateKeeps Date_parse index startF endF row = true ->
  dateKeeps Date_parse index startA endA row = true.
Proof.
  intros Hs He. unfold dateKeeps.
  destruct (Arr.at_ row index) as [v|]; [|reflexivity].
  destruct (Str.is_empty v); [reflexivity|].
  destruct (Date_parse v) as [rowDate|]; [|reflexivity].
  destruct (beforeBound rowDate startA) eqn:B.
  - now rewrite (Hs _ B).
  - destruct (afterBound rowDate endA) eqn:A; [|reflexivity].
    rewrite (He _ A). now destruct (beforeBound rowDate startF).
Qed.

Lemma includes_In xs x : Arr.includes xs x = true <-> In x xs.
Proof.
  unfold Arr.includes. rewrite existsb_exists. split.
  - intros (y & Hy & E). apply String.eqb_eq in E. now subst.
  - intros H. exists x. split; [exact H | apply String.eqb_refl].
Qed.

Lemma categoryKeeps_mono index selectedA selectedF row :
  incl selectedF selectedA ->
  categoryKeeps index selectedF row = true ->
  categoryKeeps index selectedA row = true.
Proof.
  intros Hincl. unfold categoryKeeps.
  destruct (falsy (Arr.at_ row index)); [reflexivity|]. simpl.
  destruct (Arr.at_ row index) as [v|]; [|discriminate].
  rewrite !includes_In. apply Hincl.
Qed.

Lemma rangeKeeps_mono index minA maxA minF maxF row :
  (forall v m, minA = Some m -> Num.ltb v m = true ->
     exists m', minF = Some m' /\ Num.ltb v m' = true) ->
  (forall v m, maxA = Some m -> Num.gtb v m = true ->
     exists m', maxF = Some m' /\ Num.gtb v m' = true) ->
  rangeKeeps index minF maxF row = true ->
  rangeKeeps index minA maxA row = true.
Proof.
  intros Hmin Hmax. unfold rangeKeeps.
  set (value := parseNumericValue (Arr.at_ row index)).
  destruct (Num.isNaN value); [reflexivity|].
  destruct minA as [m|].
  - destruct (Num.ltb value m) eqn:L.
    + destruct (Hmin value m eq_refl L) as (m' & -> & ->). discriminate.
    + destruct maxA as [x|]; [|reflexivity].
      destruct (Num.gtb value x) eqn:G; [|reflexivity].
      destruct (Hmax value x eq_refl G) as (x' & -> & ->).
      destruct minF as [m'|]; [destruct (Num.ltb value m')|]; discriminate.
  - destruct maxA as [x|]; [|reflexivity].
    destruct (Num.gtb value x) eqn:G; [|reflexivity].
    destruct (Hmax value x eq_refl G) as (x' & -> & ->).
    destruct minF as [m'|]; [destruct (Num.ltb value m')|]; discriminate.
Qed.

Lemma largerMin_tighter a b v m :
  a = Some m -> Num.ltb v m = true ->
  exists m', largerMin a b = Some m' /\ Num.ltb v m' = true.
Proof.
  intros -> H. destruct b as [y|]; simpl; [|eauto].
  destruct (Num.ltb m y) eqn:E; eauto using ltb_trans.
Qed.

Lemma smallerMax_tighter a b v m :
  a = Some m -> Num.gtb v m = true ->
  exists m', smallerMax a b = Some m' /\ Num.gtb v m' = true.
Proof.
  unfold Num.gtb. intros -> H. destruct b as [y|]; simpl; [|eauto].
  destruct (Num.ltb y m) eqn:E; eauto using ltb_trans.
Qed.

Lemma commonCategories_incl a b common :
  commonCategories a b = Some common ->
  a <> [] -> common <> [] /\ incl common a.
Proof.
  unfold commonCategories. intros H Ha.
  destruct a as [|x a]; [congruence|].
  destruct b as [|y b].
  - inversion H; subst. split; [discriminate | apply incl_refl].
  - destruct (List.filter _ _) as [|c cs] eqn:E; [discriminate|].
    inversion H; subst. split; [discriminate|].
    intros z Hz. rewrite <- E in Hz. now apply filter_In in Hz.
Qed.

Section Monotone.

Variables (headers : list string) (A B F : FilterOptions).
Hypothesis HF : conjunction Date_parse A B = Some F.

Lemma conj_fields :
  exists categories,
    commonCategories (categoriesOf A) (categoriesOf B) = Some categories /\
    startDateOf F = laterStart Date_parse (startDateOf A) (startDateOf B) /\
    endDateOf F = earlierEnd Date_parse (endDateOf A) (endDateOf B) /\
    categoriesOf F = categories /\
    minValue F = largerMin (minValue A) (minValue B) /\
    maxValue F = smallerMax (maxValue A) (maxValue B).
Proof.
  unfold conjunction in HF.
  destruct (commonCategories _ _) as [categories|]; [|discriminate].
  inversion HF; subst; clear HF. exists categories. repeat split.
Qed.

Lemma datePred_conj row :
  datePred Date_parse headers F row = true ->
  datePred Date_parse headers A row = true.
Proof.
  destruct conj_fields as (cs & _ & Hs & He & _).
  unfold datePred. rewrite Hs, He.
  destruct (truthy (startDateOf A) || truthy (endDateOf A)) eqn:Act; [|reflexivity].
  assert (Act' : truthy (laterStart Date_parse (startDateOf A) (startDateOf B))
                 || truthy (earlierEnd Date_parse (endDateOf A) (endDateOf B)) = true).
  { apply orb_true_iff in Act as [H|H].
    - now rewrite laterStart_truthy.
    - rewrite (earlierEnd_truthy _ _ H). apply orb_true_r. }
  rewrite Act'.
  destruct (findDateColumns headers) as [|dateCol ?]; [reflexivity|].
  apply dateKeeps_mono.
  - intros t. apply beforeBound_laterStart.
  - intros t. apply afterBound_earlierEnd.
Qed.

Lemma categoryPred_conj column row :
  categoryPred headers column F row = true ->
  categoryPred headers column A row = true.
Proof.
  destruct conj_fields as (cs & Hc & _ & _ & HcF & _).
  unfold categoryPred. rewrite HcF.
  destruct (categoriesOf A) as [|a selA] eqn:EA; [reflexivity|].
  destruct (commonCategories_incl _ _ _ Hc) as [Hne Hincl]; [discriminate|].
  destruct cs as [|c cs]; [congruence|].
  destruct column as [categoryCol|]; [|reflexivity].
  apply categoryKeeps_mono. exact Hincl.
Qed.

Lemma rangePred_conj column row :
  rangePred headers column F row = true ->
  rangePred headers column A row = true.
Proof.
  destruct conj_fields as (cs & _ & _ & _ & _ & Hmin & Hmax).
  unfold rangePred. rewrite Hmin, Hmax.
  destruct column as [primaryMetric|];
    [|now destruct (minValue A), (maxValue A), (largerMin _ _), (smallerMax _ _)].
  intros H.
  assert (K : rangeKeeps (Arr.indexOf headers primaryMetric)
                (largerMin (minValue A) (minValue B))
                (smallerMax (maxValue A) (maxValue B)) row = true).
  { destruct (largerMin _ _) eqn:E1, (smallerMax _ _) eqn:E2; try exact H.
    unfold rangeKeeps. now destruct (Num.isNaN _). }
  assert (K' : rangeKeeps (Arr.indexOf headers primaryMetric)
                 (minValue A) (maxValue A) row = true).
  { revert K. apply rangeKeeps_mono.
    - intros v m. apply largerMin_tighter.
    - intros v m. apply smallerMax_tighter. }
  now destruct (minValue A), (maxValue A).
Qed.

End Monotone.

End FilterStages.

(** C4. For every header list, row list and pair of filter
    specifications with a conjunction, every row returned under the
    conjunction is returned under the first specification alone: each
    filter only narrows the result.  The same holds when the second
    specification is applied to the rows returned under the first. *)
Theorem applyFilters_monotone
    (Date_parse : string -> option Z) headers rows (A B F : FilterOptions) :
  conjunction Date_parse A B = Some F ->
  incl (applyFilters Date_parse headers rows (Some F))
       (applyFilters Date_parse headers rows (Some A)) /\
  incl (applyFilters Date_parse headers
          (applyFilters Date_parse headers rows (Some A)) (Some B))
       (applyFilters Date_parse headers rows (Some A)).
Proof.
  intros HF. split; [|apply applyFilters_incl].
  intros row H.
  apply applyFilters_In in H as (Hin & Hd & Hc & Hr).
  apply applyFilters_In. repeat split.
  - exact Hin.
  - exact (datePred_conj Date_parse headers A B F HF row Hd).
  - exact (categoryPred_conj Date_parse headers A B F HF _ row Hc).
  - exact (rangePred_conj Date_parse headers A B F HF _ row Hr).
Qed.

Lemma applyFilters_monotone_witness :
  let headers := ["revenue"; "channel"; "date"] in
  let rows := [["40"; "email"; "2024-01-01"]; ["75"; "search"; "2024-01-02"];
               ["20"; "email"; "2024-01-03"]; ["90"; "social"; "2024-01-04"]] in
  let A := onlyDates (Some "2024-01-02") None in
  let B := onlyRange (Some (Num.of_Z 50)) None in
  let F := mkFilterOptions (Some (mkDateRange (Some "2024-01-02") None))
             (Some []) (Some []) (Some (Num.of_Z 50)) None in
  conjunction isoDate A B = Some F /\
  incl (applyFilters isoDate headers rows (Some F))
       (applyFilters isoDate headers rows (Some A)).
Proof.
  intros headers rows A B F. split; [reflexivity|].
  apply (applyFilters_monotone isoDate headers rows A B F).
  reflexivity.
Defined.

(** ** Filtering twice *)

(** C7, refuted as stated.  The category column is chosen from the rows
    handed to the engine.  In the table below the shop column is the
    first categorical column of the five rows; among the three rows kept
    for the shop north, the sku column has become categorical, so the
    second pass filters on sku and keeps nothing.  No date range is set:
    the date parser is not consulted. *)
Lemma applyFilters_not_idempotent :
  let headers := ["sku"; "shop"] in
  let rows := [["A1"; "north"]; ["A1"; "north"]; ["B2"; "north"];
               ["C3"; "south"]; ["D4"; "south"]] in
  let F := Some (onlyCategories ["north"]) in
  let once := applyFilters isoDate headers rows F in
  once = [["A1"; "north"]; ["A1"; "north"]; ["B2"; "north"]] /\
  applyFilters isoDate headers once F = [] /\
  applyFilters isoDate headers once F <> once.
Proof. vm_compute. repeat split. discriminate. Qed.

Section Idempotence.

Variable Date_parse : string -> option Z.

Lemma categoryPred_inactive headers column F row :
  categoriesOf F = [] -> categoryPred headers column F row = true.
Proof. unfold categoryPred. now intros ->. Qed.

Lemma rangePred_inactive headers column F row :
  minValue F = None -> maxValue F = None -> rangePred headers column F row = true.
Proof. unfold rangePred. now intros -> ->. Qed.

End Idempotence.

(** C7, amended.  Applying the same specification to the rows it
    produced returns them unchanged whenever the engine filters on the
    same columns in both passes: the first categorical column of the
    filtered rows is that of the original rows if categories are
    selected, and likewise the first numeric column if a value bound is
    set. *)
Theorem applyFilters_idempotent
    (Date_parse : string -> option Z) headers rows (F : FilterOptions) :
  let once := applyFilters Date_parse headers rows (Some F) in
  (categoriesOf F <> [] ->
     categoryColumn headers once = categoryColumn headers rows) ->
  (minValue F <> None \/ maxValue F <> None ->
     numericColumn headers once = numericColumn headers rows) ->
  applyFilters Date_parse headers once (Some F) = once.
Proof.
  intros once Hcat Hnum.
  rewrite (applyFilters_filter Date_parse headers once F).
  assert (Hrows : forall row, In row once ->
            datePred Date_parse headers F row = true /\
            categoryPred headers (categoryColumn headers once) F row = true /\
            rangePred headers (numericColumn headers once) F row = true).
  { intros row Hin. apply applyFilters_In in Hin as (_ & Hd & Hc & Hr).
    split; [exact Hd|]. split.
    - destruct (categoriesOf F) eqn:E.
      + now apply categoryPred_inactive.
      + rewrite Hcat by discriminate. exact Hc.
    - destruct (minValue F) eqn:E1.
      + rewrite Hnum by (left; discriminate). exact Hr.
      + destruct (maxValue F) eqn:E2.
        * rewrite Hnum by (right; discriminate). exact Hr.
        * now apply rangePred_inactive. }
  rewrite (filter_fixed (datePred Date_parse headers F) once)
    by (intros row Hin; apply Hrows, Hin).
  rewrite (filter_fixed (categoryPred headers (categoryColumn headers once) F) once)
    by (intros row Hin; apply Hrows, Hin).
  apply filter_fixed. intros row Hin. apply Hrows, Hin.
Qed.

Lemma applyFilters_idempotent_witness :
  let headers := ["revenue"; "channel"; "date"] in
  let rows := [["40"; "email"; "2024-01-01"]; ["75"; "search"; "2024-01-02"];
               ["20"; "email"; "2024-01-03"]; ["90"; "social"; "2024-01-04"]] in
  let F := mkFilterOptions (Some (mkDateRange (Some "2024-01-02") None))
             None (Some ["email"; "search"]) (Some (Num.of_Z 50)) None in
  let once := applyFilters isoDate headers rows (Some F) in
  once = [["75"; "search"; "2024-01-02"]] /\
  applyFilters isoDate headers once (Some F) = once.
Proof.
  intros headers rows F once. split; [reflexivity|].
  apply (applyFilters_idempotent isoDate headers rows F).
  - intros _. reflexivity.
  - intros _. reflexivity.
Defined.

(** ** The value-range filter is not fail-open *)

(** [parseNumericValue] never returns NaN: the test for NaN in the
    callbacks that follow it cannot succeed. *)
Lemma parseNumericValue_not_NaN value :
  Num.isNaN (parseNumericValue value) = false.
Proof.
  unfold parseNumericValue.
  destruct (falsy value); [reflexivity|].
  destruct value as [v|]; [|reflexivity].
  destruct (Num.isNaN (Num.parseFloat (Str.stripFormatting v))) eqn:E;
    [reflexivity | exact E].
Qed.

(** A missing or unparseable cell is filtered as the number 0. *)
Lemma rangeKeeps_unparseable index min max row :
  parseNumericValue (Arr.at_ row index) = Num.zero ->
  rangeKeeps index min max row =
    negb (match min with Some m => Num.ltb Num.zero m | None => false end) &&
    negb (match max with Some m => Num.gtb Num.zero m | None => false end).
Proof.
  intros H. unfold rangeKeeps. rewrite H.
  change (Num.isNaN Num.zero) with false. cbv iota.
  destruct min as [m|], max as [x|];
    try destruct (Num.ltb Num.zero m); try destruct (Num.gtb Num.zero x);
    reflexivity.
Qed.

(** C5, on the failing input: with a minimum of 100, the row whose
    revenue cell is the text n/a and the row whose revenue cell is empty
    are both removed, together with the row below the minimum. *)
Theorem applyFilters_range_drops_unparseable (Date_parse : string -> option Z) :
  let headers := ["campaign"; "revenue"] in
  let rows := [["spring"; "n/a"]; ["summer"; "120"]; ["autumn"; "80"];
               ["winter"; EmptyString]] in
  let filters := Some (onlyRange (Some (Num.of_Z 100)) None) in
  numericColumn headers rows = Some "revenue" /\
  Num.isNaN (Num.parseFloat "n/a") = true /\
  applyFilters Date_parse headers rows filters = [["summer"; "120"]].
Proof. repeat split. Qed.

(** ** Line charts count unparseable values *)

Section TimeSeries.

Variable Date_parse : string -> option Z.
Variable toLocaleDateString : Z -> string.

Lemma insertSorted_length {A} (gt : A -> A -> bool) x sorted :
  length (insertSorted gt x sorted) = S (length sorted).
Proof.
  induction sorted as [|y tl IH]; simpl; [reflexivity|].
  destruct (gt x y); simpl; [now rewrite IH | reflexivity].
Qed.

Lemma sortBy_length {A} (gt : A -> A -> bool) xs :
  length (sortBy gt xs) = length xs.
Proof.
  unfold sortBy. induction xs as [|x tl IH]; simpl; [reflexivity|].
  now rewrite insertSorted_length, IH.
Qed.

End TimeSeries.

(** C6, on the failing input: the revenue column has one row with a
    parseable value and one row whose value is the text n/a.  The second
    row is not skipped: it enters the series with the value 0, and a line
    chart of two points is emitted for revenue. *)
Theorem timeSeriesCharts_counts_unparseable
    (Date_parse : string -> option Z) (toLocaleDateString : Z -> string) :
  let headers := ["revenue"; "date"] in
  let rows := [["120"; "2024-01-01"]; ["n/a"; "2024-01-02"]] in
  let label := formatDateLabel Date_parse toLocaleDateString in
  let points :=
    [mkPoint (label "2024-01-01") (Num.of_Z 120) (Some "2024-01-01") None;
     mkPoint (label "2024-01-02") Num.zero (Some "2024-01-02") None] in
  Num.isNaN (Num.parseFloat "n/a") = true /\
  timeSeriesPoints Date_parse toLocaleDateString
    (Arr.indexOf headers "date") (Arr.indexOf headers "revenue") rows = points /\
  In (mkChart LineChart "revenue Over Time" (sortBy (laterDate Date_parse) points)
        (Some "Date") (Some "revenue") (Some ["#3b82f6"]))
     (timeSeriesCharts Date_parse toLocaleDateString headers rows) /\
  length (sortBy (laterDate Date_parse) points) = 2.
Proof.
  intros headers rows label points.
  split; [reflexivity|]. split; [reflexivity|]. split.
  - left. reflexivity.
  - apply sortBy_length.
Qed.

(** ** The two validations of an uploaded table *)

(** C9, refuted as stated.  A table with a single column and two data
    rows passes the re-validation of [analyze] and fails the upload
    validation; a table of two columns and two data rows shorter than 50
    characters does the same; a table whose headers differ only in case
    passes the upload validation and fails the re-validation. *)
Lemma validations_disagree :
  let single := nl "visits" (nl "10" "12") in
  let short := nl "a,b" (nl "1,2" "3,4") in
  let repeated :=
    nl "Channel,channel,revenue" (nl "email,newsletter,1200" "search,brand,3400") in
  (is_ok (analyzeValidation single) = true /\
   is_ok (validateCSVContent single) = false) /\
  (is_ok (analyzeValidation short) = true /\
   is_ok (validateCSVContent short) = false) /\
  (is_ok (analyzeValidation repeated) = false /\
   is_ok (validateCSVContent repeated) = true).
Proof. vm_compute. repeat split. Qed.

Section Validations.

Lemma validateCSVContent_accepts content :
  is_ok (validateCSVContent content) = true ->
  3 <= length (nonBlankLines content) /\
  2 <= length (Str.split "," (hd EmptyString (nonBlankLines content))).
Proof.
  unfold validateCSVContent.
  destruct (Str.includes _ _); [discriminate|].
  destruct (nonBlankLines content) as [|headerLine [|l1 rest]] eqn:E;
    [discriminate | discriminate |].
  destruct (_ || _); [discriminate|].
  destruct (Nat.ltb (length (map Str.trim (Str.split "," headerLine))) 2) eqn:E2;
    [discriminate|].
  destruct (Nat.ltb 0 _); [discriminate|].
  destruct (firstInconsistent _ _ _) as [[i n]|]; [discriminate|].
  destruct (Nat.ltb (length (headerLine :: l1 :: rest)) 3) eqn:E3; [discriminate|].
  intros _. apply Nat.ltb_ge in E2, E3.
  rewrite length_map in E2. simpl hd. split; [exact E3 | exact E2].
Qed.

Lemma analyzeValidation_accepts content :
  is_ok (analyzeValidation content) = true ->
  3 <= length (nonBlankLines content) /\
  1 <= length (parseCSVLine (hd EmptyString (nonBlankLines content))).
Proof.
  unfold analyzeValidation.
  destruct (parseCSVContent content) as [parsed|] eqn:E; [|discriminate].
  destruct (Nat.eqb (length (headers parsed)) 0) eqn:E0; [discriminate|].
  destruct (Nat.eqb (length (rows parsed)) 0); [discriminate|].
  destruct (Nat.ltb (length (rows parsed)) 2) eqn:E2; [discriminate|].
  intros _. apply Nat.ltb_ge in E2. apply Nat.eqb_neq in E0.
  destruct (parseCSVContent_ok_inv _ _ E) as (headerLine & dataLines & Hl & Hh & Hr & _).
  rewrite Hl. simpl. rewrite <- Hh. rewrite Hr, length_map in E2. lia.
Qed.

End Validations.

(** C9, amended.  Each of the two validations accepts a text only if it
    has a header line and at least 2 data rows, that is at least 3
    non-blank lines.  The upload validation further requires at least 2
    comma-separated header cells, where the re-validation of [analyze]
    is content with one parsed header.  The two do not agree on every
    text. *)
Theorem validations_require_data_rows content :
  is_ok (validateCSVContent content) = true \/
  is_ok (analyzeValidation content) = true ->
  3 <= length (nonBlankLines content) /\
  (is_ok (validateCSVContent content) = true ->
     2 <= length (Str.split "," (hd EmptyString (nonBlankLines content)))) /\
  (is_ok (analyzeValidation content) = true ->
     1 <= length (parseCSVLine (hd EmptyString (nonBlankLines content)))).
Proof.
  intros H. split; [|split].
  - destruct H as [H|H].
    + now apply validateCSVContent_accepts in H.
    + now apply analyzeValidation_accepts in H.
  - intros Hu. now apply validateCSVContent_accepts in Hu.
  - intros Ha. now apply analyzeValidation_accepts in Ha.
Qed.

Lemma validations_require_data_rows_witness :
  let content :=
    nl "channel,sessions,revenue" (nl "email,120,1800.50" "search,340,9200.00") in
  3 <= length (nonBlankLines content) /\
  2 <= length (Str.split "," (hd EmptyString (nonBlankLines content))).
Proof.
  intros content.
  destruct (validations_require_data_rows content) as (H3 & Hu & _).
  - left. reflexivity.
  - split; [exact H3 | apply Hu; reflexivity].
Defined.

(** ** The schedule calculator *)

Section Calendar.

Import DateTime.
Local Open Scope Z_scope.

(** The calendar: a year has 365 or 366 days, and [YearFromDay] is the
    year whose days contain the given one. *)
Lemma DayFromYear_step y :
  DayFromYear (y + 1) - DayFromYear y = if InLeapYear y then 366 else 365.
Proof.
  unfold DayFromYear, InLeapYear.
  destruct (y mod 4 =? 0) eqn:E4; destruct (y mod 100 =? 0) eqn:E100;
    destruct (y mod 400 =? 0) eqn:E400; simpl;
    rewrite ?Z.eqb_eq, ?Z.eqb_neq in *; Z.to_euclidean_division_equations; lia.
Qed.

Lemma YearFromDay_spec d :
  DayFromYear (YearFromDay d) <= d < DayFromYear (YearFromDay d + 1).
Proof.
  unfold YearFromDay.
  set (y := 1970 + 400 * d / 146097).
  destruct (d <? DayFromYear y) eqn:E1; [|destruct (DayFromYear (y + 1) <=? d) eqn:E2].
  all: rewrite ?Z.ltb_lt, ?Z.ltb_ge, ?Z.leb_le, ?Z.leb_gt in *.
  all: unfold DayFromYear in *; subst y; Z.to_euclidean_division_equations; lia.
Qed.

Lemma sameNumber_eq x y : sameNumber x y = true -> x = y.
Proof.
  destruct x as [|[a b]|a], y as [|[c d]|c]; simpl; try discriminate; auto.
  - intros H. apply andb_true_iff in H as [H1 H2].
    apply Z.eqb_eq in H1. apply Pos.eqb_eq in H2. now subst.
  - intros H. apply Bool.eqb_prop in H. now subst.
Qed.

(** Every text [HH:MM] of a time of day splits into its hour and its
    minute: checked on the 1440 of them. *)
Lemma hoursMinutes_timeText (hour minute : nat) :
  (hour < 24)%nat -> (minute < 60)%nat ->
  hoursMinutes (timeText hour minute) = (Num.of_nat hour, Num.of_nat minute).
Proof.
  intros Hh Hm.
  assert (All : forallb (fun h => forallb (hoursMinutesOk h) (seq 0 60)) (seq 0 24) = true)
    by (vm_compute; reflexivity).
  rewrite forallb_forall in All.
  specialize (All hour (proj2 (in_seq _ _ _) (conj (Nat.le_0_l _) Hh))).
  rewrite forallb_forall in All.
  specialize (All minute (proj2 (in_seq _ _ _) (conj (Nat.le_0_l _) Hm))).
  unfold hoursMinutesOk in All.
  destruct (hoursMinutes (timeText hour minute)) as [h m].
  apply andb_true_iff in All as [H1 H2].
  now rewrite (sameNumber_eq _ _ H1), (sameNumber_eq _ _ H2).
Qed.

Lemma truncQ_of_Z z : Num.truncQ (inject_Z z) = z.
Proof.
  unfold Num.truncQ. destruct (Qle_bool 0 (inject_Z z)).
  - apply Qfloor_Z.
  - apply Qceiling_Z.
Qed.

Lemma toInteger_of_Z z : Num.toInteger (Num.of_Z z) = Some z.
Proof. unfold Num.toInteger, Num.of_Z. now rewrite truncQ_of_Z. Qed.

Lemma Qred_inject_Z z : Qred (inject_Z z) = inject_Z z.
Proof.
  unfold Qred, inject_Z.
  pose proof (Z.ggcd_gcd z 1) as G.
  pose proof (Z.ggcd_correct_divisors z 1) as D.
  destruct (Z.ggcd z 1) as [g [aa bb]]. simpl in G, D |- *.
  rewrite Z.gcd_1_r in G. subst g. destruct D as [D1 D2].
  rewrite Z.mul_1_l in D1, D2. now subst.
Qed.

Lemma add_of_Z a b : Num.add (Num.of_Z a) (Num.of_Z b) = Num.of_Z (a + b).
Proof.
  unfold Num.add, Num.of_Z. f_equal.
  rewrite <- inject_Z_plus. apply Qred_inject_Z.
Qed.

Lemma MonthFromTime_range t : 0 <= MonthFromTime t <= 11.
Proof.
  unfold MonthFromTime.
  repeat match goal with |- context [if ?c then _ else _] => destruct c end; lia.
Qed.

(** [d.setDate(d.getDate() + k)] moves a valid date by [k] days. *)
Lemma setDate_getDate LocalTZA t k :
  setDate LocalTZA (Some t) (Num.add (getDate LocalTZA (Some t)) (Num.of_Z k))
  = TimeClip (t + k * msPerDay).
Proof.
  unfold setDate, getDate. rewrite add_of_Z.
  unfold MakeDay. rewrite !toInteger_of_Z.
  set (t' := LocalTime LocalTZA t).
  pose proof (MonthFromTime_range t') as Hm.
  rewrite (Z.div_small (MonthFromTime t') 12), (Z.mod_small (MonthFromTime t') 12) by lia.
  rewrite Z.add_0_r. f_equal.
  unfold DateFromTime, DayWithinYear, MakeDate, UTC, TimeWithinDay.
  pose proof (Z.div_mod t' msPerDay ltac:(discriminate)) as D.
  unfold Day. subst t'. unfold LocalTime in *.
  set (d := (t + LocalTZA) / msPerDay) in *.
  set (r := (t + LocalTZA) mod msPerDay) in *.
  lia.
Qed.

Lemma TimeClip_in_range t :
  Z.abs t <= 8640000000000000 -> TimeClip t = Some t.
Proof.
  intros H. unfold TimeClip.
  destruct (8640000000000000 <? Z.abs t) eqn:E; [|reflexivity].
  apply Z.ltb_lt in E. lia.
Qed.

Lemma sameDayAt_near LocalTZA now hour minute :
  (hour < 24)%nat -> (minute < 60)%nat ->
  now - msPerDay < sameDayAt LocalTZA now hour minute < now + msPerDay.
Proof.
  intros Hh Hm. unfold sameDayAt, UTC, MakeDate, LocalTime, Day.
  pose proof (Z.div_mod (now + LocalTZA) msPerDay ltac:(discriminate)) as D.
  pose proof (Z.mod_pos_bound (now + LocalTZA) msPerDay ltac:(reflexivity)) as B.
  set (d := (now + LocalTZA) / msPerDay) in *.
  set (r := (now + LocalTZA) mod msPerDay) in *.
  unfold msPerDay, msPerHour, msPerMinute in *. lia.
Qed.

Lemma setHours_timeOfDay LocalTZA now hour minute :
  (hour < 24)%nat -> (minute < 60)%nat ->
  Z.abs now <= 8640000000000000 - 2 * msPerDay ->
  setHours LocalTZA (Some now) (Num.of_nat hour) (Num.of_nat minute) Num.zero Num.zero
  = Some (sameDayAt LocalTZA now hour minute).
Proof.
  intros Hh Hm Hnow. unfold setHours, MakeTime, Num.of_nat, Num.zero.
  rewrite !toInteger_of_Z.
  replace (Z.of_nat hour * msPerHour + Z.of_nat minute * msPerMinute + 0 * msPerSecond + 0)
    with (Z.of_nat hour * msPerHour + Z.of_nat minute * msPerMinute) by lia.
  fold (sameDayAt LocalTZA now hour minute).
  apply TimeClip_in_range.
  pose proof (sameDayAt_near LocalTZA now hour minute Hh Hm).
  unfold msPerDay in *. lia.
Qed.

End Calendar.

(** The daily frequency on a host whose zone keeps one offset from UTC
    all year ([LocalTZA], no daylight saving): [calculateNextRun]
    returns the day of the reference instant at the given time of day
    when that instant is strictly in the future, and the same time of
    day one day later otherwise.  The day and the time of day are those
    of the clock of the host.  With the host on UTC and the time of day
    09:00, the next run computed at 2024-01-01T10:00Z is
    2024-01-02T09:00Z, and the next run computed at 2024-01-01T08:00Z is
    2024-01-01T09:00Z. *)
Theorem calculateNextRun_daily
    (LocalTZA now : Z) (hour minute : nat) dayOfWeek dayOfMonth timezone :
  (hour < 24)%nat -> (minute < 60)%nat ->
  (Z.abs now <= 8640000000000000 - 2 * DateTime.msPerDay)%Z ->
  let today := sameDayAt LocalTZA now hour minute in
  calculateNextRun LocalTZA now "daily" (timeText hour minute)
    dayOfWeek dayOfMonth timezone
  = Some (if (now <? today)%Z then today else (today + DateTime.msPerDay)%Z) /\
  calculateNextRun 0 (DateTime.utc 2024 1 1 10 0) "daily" "09:00" None None (Some "UTC")
  = Some (DateTime.utc 2024 1 2 9 0) /\
  calculateNextRun 0 (DateTime.utc 2024 1 1 8 0) "daily" "09:00" None None (Some "UTC")
  = Some (DateTime.utc 2024 1 1 9 0).
Proof.
  intros Hh Hm Hnow today. split; [|split; reflexivity].
  unfold calculateNextRun.
  rewrite (hoursMinutes_timeText hour minute Hh Hm).
  rewrite (setHours_timeOfDay LocalTZA now hour minute Hh Hm Hnow).
  fold today. change (String.eqb "daily" "daily") with true. cbv iota.
  pose proof (sameDayAt_near LocalTZA now hour minute Hh Hm) as Hnear. fold today in Hnear.
  unfold dateLe.
  destruct (today <=? now)%Z eqn:Le.
  - apply Z.leb_le in Le.
    replace (now <? today)%Z with false by (symmetry; apply Z.ltb_ge; lia).
    rewrite setDate_getDate. rewrite Z.mul_1_l.
    apply TimeClip_in_range. unfold DateTime.msPerDay in *. lia.
  - apply Z.leb_gt in Le.
    replace (now <? today)%Z with true by (symmetry; apply Z.ltb_lt; lia).
    reflexivity.
Qed.

Lemma calculateNextRun_daily_witness :
  calculateNextRun 19800000 (DateTime.utc 2024 1 1 10 0) "daily" "09:00"
    None None (Some "Asia/Kolkata")
  = Some (DateTime.utc 2024 1 2 3 30).
Proof.
  destruct (calculateNextRun_daily 19800000 (DateTime.utc 2024 1 1 10 0) 9 0
              None None (Some "Asia/Kolkata")) as [H _].
  - lia.
  - lia.
  - vm_compute. discriminate.
  - exact H.
Defined.

(** C1. The daily next run is taken on the clock of the host, not in
    the zone named by the timezone argument, which is never read.  On a
    host in Asia/Kolkata (UTC+05:30 all year), the call with the daily
    frequency, the time of day 09:00 and the timezone argument UTC
    returns 2024-01-02T03:30Z when evaluated at 2024-01-01T10:00Z, not
    2024-01-02T09:00Z, and returns 2024-01-02T03:30Z again when
    evaluated at 2024-01-01T08:00Z, not 2024-01-01T09:00Z: at both
    instants 09:00 of the first of January has passed in Kolkata. *)
Theorem calculateNextRun_daily_host_zone :
  let Kolkata := (5 * DateTime.msPerHour + 30 * DateTime.msPerMinute)%Z in
  calculateNextRun Kolkata (DateTime.utc 2024 1 1 10 0) "daily" "09:00"
    None None (Some "UTC")
  = Some (DateTime.utc 2024 1 2 3 30) /\
  calculateNextRun Kolkata (DateTime.utc 2024 1 1 8 0) "daily" "09:00"
    None None (Some "UTC")
  = Some (DateTime.utc 2024 1 2 3 30) /\
  DateTime.utc 2024 1 2 3 30 <> DateTime.utc 2024 1 2 9 0 /\
  DateTime.utc 2024 1 2 3 30 <> DateTime.utc 2024 1 1 9 0.
Proof.
  cbv zeta. split; [|split; [|split]].
  - vm_compute. reflexivity.
  - vm_compute. reflexivity.
  - vm_compute. discriminate.
  - vm_compute. discriminate.
Qed.

(** C10. The timezone argument has no effect on the next run: for every
    host zone, reference instant, frequency, time of day, day of week
    and day of month, any two timezone arguments, given or left to the
    default, yield the same instant. *)
Theorem calculateNextRun_ignores_timezone
    (LocalTZA now : Z) frequency timeOfDay dayOfWeek dayOfMonth
    (timezone1 timezone2 : option string) :
  calculateNextRun LocalTZA now frequency timeOfDay dayOfWeek dayOfMonth timezone1
  = calculateNextRun LocalTZA now frequency timeOfDay dayOfWeek dayOfMonth timezone2.
Proof. reflexivity. Qed.

(** * Further properties *)

(** ** The CSV parser and the CSV writer *)

Section Trimming.

Lemma append_cons c s t : String c s +:+ t = String c (s +:+ t).
Proof. reflexivity. Qed.

Lemma append_empty_r s : s +:+ EmptyString = s.
Proof.
  induction s as [|c s IH]; [reflexivity|]. now rewrite append_cons, IH.
Qed.

Lemma append_assoc s t u : (s +:+ t) +:+ u = s +:+ (t +:+ u).
Proof.
  induction s as [|c s IH]; [reflexivity|]. now rewrite !append_cons, IH.
Qed.

Lemma trimEnd_head c s :
  Str.is_space c = false -> exists r, Str.trimEnd (String c s) = String c r.
Proof.
  intros H. simpl. destruct (Str.trimEnd s); [rewrite H|]; eauto.
Qed.

Lemma trimEnd_idempotent s : Str.trimEnd (Str.trimEnd s) = Str.trimEnd s.
Proof.
  induction s as [|c s IH]; [reflexivity|]. simpl.
  destruct (Str.trimEnd s) as [|d r] eqn:E.
  - destruct (Str.is_space c) eqn:Sp; [reflexivity|]. simpl. now rewrite Sp.
  - change (Str.trimEnd (String c (String d r))) with
      (match Str.trimEnd (String d r) with
       | EmptyString => if Str.is_space c then EmptyString else String c EmptyString
       | tl' => String c tl'
       end).
    now rewrite IH.
Qed.

Lemma trimStart_cases s :
  Str.trimStart s = EmptyString \/
  exists c r, Str.trimStart s = String c r /\ Str.is_space c = false.
Proof.
  induction s as [|c s IH]; [now left|]. simpl.
  destruct (Str.is_space c) eqn:Sp; [exact IH|]. right. eauto.
Qed.

(** Trimming twice is trimming once. *)
Lemma trim_idempotent s : Str.trim (Str.trim s) = Str.trim s.
Proof.
  unfold Str.trim.
  destruct (trimStart_cases s) as [-> | (c & r & -> & Sp)]; [reflexivity|].
  destruct (trimEnd_head c r Sp) as [r' E]. rewrite E.
  simpl Str.trimStart. rewrite Sp. rewrite <- E. apply trimEnd_idempotent.
Qed.

(** A text that starts with a character other than white space is not
    blank. *)
Lemma trim_head_nonempty c s :
  Str.is_space c = false -> Str.is_empty (Str.trim (String c s)) = false.
Proof.
  intros Sp. unfold Str.trim. simpl Str.trimStart. rewrite Sp.
  destruct (trimEnd_head c s Sp) as [r ->]. reflexivity.
Qed.

End Trimming.

Section LineParser.

(** The loop of [parseCSVLine] consumes one or two characters at a
    step: induction on the line with the tail of the tail at hand. *)
Lemma string_two_step (P : string -> Prop) :
  P EmptyString ->
  (forall c tl, P tl -> (forall next rest, tl = String next rest -> P rest) ->
     P (String c tl)) ->
  forall s, P s.
Proof.
  intros H0 Hstep s.
  assert (H : P s /\ (forall next rest, s = String next rest -> P rest)).
  { induction s as [|c s [IH1 IH2]].
    - split; [exact H0 | discriminate].
    - split; [now apply Hstep|]. intros next rest E. now inversion E; subst. }
  exact (proj1 H).
Qed.

(** Every field pushed by the loop is trimmed. *)
Lemma parseCSVLine_loop_trimmed : forall line result current inQuotes,
  Forall (fun field => Str.trim field = field) result ->
  Forall (fun field => Str.trim field = field)
    (parseCSVLine_loop result current inQuotes line).
Proof.
  induction line as [|char tl IH IH2] using string_two_step;
    intros result current inQuotes H; simpl.
  - apply Forall_app. split; [exact H|]. constructor; [apply trim_idempotent | constructor].
  - destruct (Str.eqc char Str.dquote).
    + destruct tl as [|next rest]; [apply IH, H|].
      destruct (inQuotes && Str.eqc next Str.dquote).
      * apply (IH2 next rest eq_refl), H.
      * apply IH, H.
    + destruct (Str.eqc char "," && negb inQuotes).
      * apply IH. apply Forall_app. split; [exact H|].
        constructor; [apply trim_idempotent | constructor].
      * apply IH, H.
Qed.

Lemma parseCSVLine_loop_length : forall line result current inQuotes,
  length result < length (parseCSVLine_loop result current inQuotes line).
Proof.
  induction line as [|char tl IH IH2] using string_two_step;
    intros result current inQuotes; simpl.
  - rewrite length_app. simpl. lia.
  - destruct (Str.eqc char Str.dquote).
    + destruct tl as [|next rest]; [apply IH|].
      destruct (inQuotes && Str.eqc next Str.dquote); [apply (IH2 next rest eq_refl) | apply IH].
    + destruct (Str.eqc char "," && negb inQuotes); [|apply IH].
      eapply Nat.lt_trans; [|apply IH]. rewrite length_app. simpl. lia.
Qed.

(** On a line without double quotes the parser is the plain split on
    commas, followed by trimming. *)
Lemma parseCSVLine_loop_plain : forall line result current,
  hasChar Str.dquote line = false ->
  parseCSVLine_loop result current false line
  = result ++ map Str.trim (Str.split_go "," current line).
Proof.
  induction line as [|char tl IH]; intros result current H; simpl; [reflexivity|].
  simpl in H. apply orb_false_iff in H as [Hc Ht].
  rewrite Hc. rewrite andb_true_r.
  destruct (Str.eqc char ",").
  - rewrite IH by exact Ht. simpl. now rewrite <- app_assoc.
  - now apply IH.
Qed.

End LineParser.

(** X1. Every field returned by [parseCSVLine] is trimmed, quoted or
    not, and a line always has at least one field. *)
Theorem parseCSVLine_fields_trimmed line :
  Forall (fun field => Str.trim field = field) (parseCSVLine line) /\
  1 <= length (parseCSVLine line).
Proof.
  split.
  - apply parseCSVLine_loop_trimmed. constructor.
  - pose proof (parseCSVLine_loop_length line [] EmptyString false) as H.
    simpl in H. unfold parseCSVLine. lia.
Qed.

(** X2. On a line without a double quote, [parseCSVLine] returns the
    pieces of [line.split(',')], trimmed: there the parser of [analyze]
    sees the columns that the upload validation counts. *)
Theorem parseCSVLine_plain line :
  hasChar Str.dquote line = false ->
  parseCSVLine line = map Str.trim (Str.split "," line) /\
  length (parseCSVLine line) = length (Str.split "," line).
Proof.
  intros H. unfold parseCSVLine, Str.split.
  rewrite parseCSVLine_loop_plain by exact H. simpl.
  split; [reflexivity | apply length_map].
Qed.

Lemma parseCSVLine_plain_witness :
  parseCSVLine " email , 120,,9200.00 " = ["email"; "120"; EmptyString; "9200.00"].
Proof.
  destruct (parseCSVLine_plain " email , 120,,9200.00 " eq_refl) as [H _].
  rewrite H. reflexivity.
Defined.

Section RoundTrip.

Lemma escapeQuotes_plain s :
  hasChar Str.dquote s = false -> escapeQuotes s = s.
Proof.
  induction s as [|c s IH]; [reflexivity|]. simpl.
  intros H. apply orb_false_iff in H as [Hc Hs]. rewrite Hc. now rewrite IH.
Qed.

(** Inside quotes, the escaped cell and its closing quote are read back
    as the cell; what follows is the end of the line or a comma. *)
Lemma parseCSVLine_loop_quoted : forall cell result current rest,
  (rest = EmptyString \/ exists r, rest = String "," r) ->
  parseCSVLine_loop result current true (escapeQuotes cell +:+ String Str.dquote rest)
  = parseCSVLine_loop result (current +:+ cell) false rest.
Proof.
  induction cell as [|c cell IH]; intros result current rest Hrest.
  - rewrite append_empty_r. simpl.
    destruct Hrest as [-> | [r ->]]; reflexivity.
  - simpl escapeQuotes. destruct (Str.eqc c Str.dquote) eqn:E.
    + apply Ascii.eqb_eq in E. subst c.
      rewrite !append_cons. simpl parseCSVLine_loop.
      rewrite IH by exact Hrest. now rewrite append_assoc.
    + rewrite append_cons. simpl parseCSVLine_loop. rewrite E.
      rewrite andb_false_r.
      rewrite IH by exact Hrest. now rewrite append_assoc.
Qed.

(** Outside quotes, a double quote opens a quoted stretch. *)
Lemma parseCSVLine_loop_open result current tl :
  parseCSVLine_loop result current false (String Str.dquote tl)
  = parseCSVLine_loop result current true tl.
Proof. destruct tl; reflexivity. Qed.

Lemma parseCSVLine_loop_cells : forall cells result,
  cells <> [] ->
  parseCSVLine_loop result EmptyString false
    (Str.join "," (map (fun cell => quoteText (escapeQuotes cell)) cells))
  = result ++ map Str.trim cells.
Proof.
  induction cells as [|cell cells IH]; intros result Hne; [congruence|].
  destruct cells as [|cell' cells'].
  - simpl Str.join. unfold quoteText.
    rewrite parseCSVLine_loop_open.
    rewrite parseCSVLine_loop_quoted by (now left). reflexivity.
  - change (Str.join "," (map (fun c => quoteText (escapeQuotes c)) (cell :: cell' :: cells')))
      with (quoteText (escapeQuotes cell) +:+ "," +:+
            Str.join "," (map (fun c => quoteText (escapeQuotes c)) (cell' :: cells'))).
    set (line' := Str.join "," (map (fun c => quoteText (escapeQuotes c)) (cell' :: cells'))) in *.
    unfold quoteText. rewrite append_cons, append_assoc, append_cons.
    change (String Str.dquote EmptyString +:+ "," +:+ line')
      with (String Str.dquote (String "," line')).
    rewrite parseCSVLine_loop_open.
    rewrite parseCSVLine_loop_quoted by (right; eauto).
    simpl parseCSVLine_loop. rewrite IH by discriminate.
    now rewrite <- app_assoc.
Qed.

Lemma hasChar_append c s t :
  hasChar c (s +:+ t) = hasChar c s || hasChar c t.
Proof.
  induction s as [|d s IH]; [reflexivity|].
  rewrite append_cons. simpl. rewrite IH. now rewrite orb_assoc.
Qed.

Lemma escapeQuotes_hasChar c s :
  Str.eqc Str.dquote c = false ->
  hasChar c (escapeQuotes s) = hasChar c s.
Proof.
  intros Hc. induction s as [|d s IH]; [reflexivity|].
  cbn [escapeQuotes]. destruct (Str.eqc d Str.dquote) eqn:E; cbn [hasChar]; rewrite IH;
    [|reflexivity].
  apply Ascii.eqb_eq in E. subst d. now rewrite Hc.
Qed.

Lemma writtenLine_join (wrap : string -> string) cells :
  cells <> [] ->
  (forall cell, In cell cells ->
     exists inner, wrap cell = quoteText inner /\ hasChar Str.LF inner = false) ->
  writtenLine (Str.join "," (map wrap cells)).
Proof.
  induction cells as [|cell cells IH]; intros Hne Hw; [congruence|].
  destruct (Hw cell (or_introl eq_refl)) as (inner & Ew & Hi).
  destruct cells as [|cell' cells'].
  - simpl. rewrite Ew. exists inner. split; [reflexivity | exact Hi].
  - change (Str.join "," (map wrap (cell :: cell' :: cells')))
      with (wrap cell +:+ "," +:+ Str.join "," (map wrap (cell' :: cells'))).
    destruct IH as (body & Eb & Hb); [discriminate | intros c Hc; apply Hw; now right |].
    rewrite Eb, Ew. unfold quoteText.
    exists (inner +:+ String Str.dquote (String "," (String Str.dquote body))).
    split.
    + rewrite !append_cons, !append_assoc. reflexivity.
    + rewrite hasChar_append, Hi. simpl. exact Hb.
Qed.

Lemma splitLines_go_body : forall body current rest,
  hasChar Str.LF body = false ->
  Str.splitLines_go current ((body +:+ String Str.dquote EmptyString) +:+ String Str.LF rest)
  = (current +:+ body +:+ String Str.dquote EmptyString) :: Str.splitLines_go EmptyString rest.
Proof.
  induction body as [|c body IH]; intros current rest H.
  - reflexivity.
  - simpl in H. apply orb_false_iff in H as [Hc Hb].
    rewrite !append_cons. simpl Str.splitLines_go. rewrite Hc.
    destruct ((body +:+ String Str.dquote EmptyString) +:+ String Str.LF rest)
      as [|c' r] eqn:E.
    + destruct body; discriminate.
    + assert (Hc' : Str.eqc c' Str.LF = false).
      { destruct body as [|d body]; inversion E; subst; [reflexivity|].
        simpl in Hb. now apply orb_false_iff in Hb as [Hd _]. }
      rewrite Hc', andb_false_r. rewrite <- E. rewrite IH by exact Hb.
      now rewrite append_assoc.
Qed.

Lemma splitLines_go_last : forall body current,
  hasChar Str.LF body = false ->
  Str.splitLines_go current (body +:+ String Str.dquote EmptyString)
  = [current +:+ body +:+ String Str.dquote EmptyString].
Proof.
  induction body as [|c body IH]; intros current H.
  - reflexivity.
  - simpl in H. apply orb_false_iff in H as [Hc Hb].
    rewrite !append_cons. simpl Str.splitLines_go. rewrite Hc.
    pose proof (IH (current +:+ String c EmptyString) Hb) as IH'.
    assert (Hc' : match body +:+ String Str.dquote EmptyString with
                  | String c' _ => Str.eqc c' Str.LF = false
                  | EmptyString => False
                  end).
    { destruct body as [|d body]; [reflexivity|].
      rewrite append_cons. simpl in Hb. now apply orb_false_iff in Hb as [Hd _]. }
    destruct (body +:+ String Str.dquote EmptyString) as [|c' r]; [contradiction|].
    rewrite Hc', andb_false_r, IH'. now rewrite append_assoc.
Qed.

(** The written lines are read back line by line. *)
Lemma splitLines_join lines :
  lines <> [] -> Forall writtenLine lines ->
  Str.splitLines (Str.join (String Str.LF EmptyString) lines) = lines.
Proof.
  unfold Str.splitLines.
  induction lines as [|l lines IH]; intros Hne Hall; [congruence|].
  inversion Hall as [|? ? (body & El & Hb) Hall']; subst.
  destruct lines as [|l' lines'].
  - simpl Str.join.
    change (String Str.dquote body +:+ String Str.dquote EmptyString)
      with ((String Str.dquote body) +:+ String Str.dquote EmptyString).
    rewrite splitLines_go_last; [reflexivity|]. exact Hb.
  - change (Str.join (String Str.LF EmptyString)
              ((String Str.dquote body +:+ String Str.dquote EmptyString) :: l' :: lines'))
      with ((String Str.dquote body +:+ String Str.dquote EmptyString) +:+
            String Str.LF (Str.join (String Str.LF EmptyString) (l' :: lines'))).
    rewrite splitLines_go_body by exact Hb.
    rewrite IH; [reflexivity | discriminate | exact Hall'].
Qed.

Lemma writtenLine_not_blank l :
  writtenLine l -> Str.is_empty (Str.trim l) = false.
Proof. intros (body & -> & _). rewrite append_cons. now apply trim_head_nonempty. Qed.

Lemma nonBlank_written lines :
  Forall writtenLine lines ->
  List.filter (fun line => negb (Str.is_empty (Str.trim line))) lines = lines.
Proof.
  intros H. apply filter_fixed. intros l Hl.
  rewrite Forall_forall in H. rewrite writtenLine_not_blank; [reflexivity|].
  apply H. now apply list_elem_of_In.
Qed.

Lemma push_loop {A B} (f : A -> B) xs : forall acc,
  fold_left (fun acc x => acc ++ [f x]) xs acc = acc ++ map f xs.
Proof.
  induction xs as [|x xs IH]; intros acc; simpl; [now rewrite app_nil_r|].
  rewrite IH. now rewrite <- app_assoc.
Qed.

(** Headers that differ pairwise when lowered are no duplicates. *)
Lemma duplicateHeaders_none : forall hs seen,
  NoDup (map Str.toLowerCase hs) ->
  (forall h, In h hs -> ~ In (Str.toLowerCase h) seen) ->
  duplicateHeaders seen hs = [].
Proof.
  induction hs as [|h hs IH]; intros seen Hnd Hseen; [reflexivity|]. simpl.
  simpl in Hnd. apply NoDup_cons in Hnd as [Hh Hnd].
  destruct (Arr.includes seen (Str.toLowerCase h)) eqn:E.
  - apply includes_In in E. exfalso. apply (Hseen h); [now left | exact E].
  - apply IH; [exact Hnd|]. intros h' Hin [Heq | Hs].
    + apply Hh. rewrite Heq. apply list_elem_of_In, in_map, Hin.
    + apply (Hseen h'); [now right | exact Hs].
Qed.

Lemma duplicateHeaders_nodup : forall hs seen,
  duplicateHeaders seen hs = [] ->
  NoDup (map Str.toLowerCase hs) /\
  (forall h, In h hs -> ~ In (Str.toLowerCase h) seen).
Proof.
  induction hs as [|h hs IH]; intros seen H.
  - split; [constructor | intros h []].
  - simpl in H. destruct (Arr.includes seen (Str.toLowerCase h)) eqn:E; [discriminate|].
    apply IH in H as [Hnd Hseen]. split.
    + simpl. apply NoDup_cons. split; [|exact Hnd].
      intros Hin. apply list_elem_of_In, in_map_iff in Hin as (h' & Heq & Hin).
      apply (Hseen h' Hin). left. now symmetry.
    + intros h' [-> | Hin] Hs.
      * apply includes_In in Hs. congruence.
      * apply (Hseen h' Hin). now right.
Qed.

Lemma parseRows_all expected : forall lines i acc,
  Forall (fun line => length (parseCSVLine line) = expected) lines ->
  parseRows expected i lines acc = Ok (acc ++ map parseCSVLine lines).
Proof.
  induction lines as [|line lines IH]; intros i acc H; simpl.
  - now rewrite app_nil_r.
  - inversion H as [|? ? Hl Hall]; subst. rewrite Nat.eqb_refl. simpl.
    rewrite IH by exact Hall. now rewrite <- app_assoc.
Qed.

End RoundTrip.

Section WriterReader.

Lemma map_trim_plain cells :
  Forall plainCell cells -> map Str.trim cells = cells.
Proof.
  induction 1 as [|cell cells [Ht _] _ IH]; simpl; [reflexivity|]. now rewrite Ht, IH.
Qed.

Lemma parseCSVLine_written cells :
  cells <> [] -> Forall plainCell cells ->
  parseCSVLine (Str.join "," (map (fun cell => quoteText (escapeQuotes cell)) cells)) = cells.
Proof.
  intros Hne Hp. unfold parseCSVLine.
  rewrite parseCSVLine_loop_cells by exact Hne. simpl. now apply map_trim_plain.
Qed.

Lemma writtenLine_row cells :
  cells <> [] -> Forall plainCell cells ->
  writtenLine (Str.join "," (map (fun cell => quoteText (escapeQuotes cell)) cells)).
Proof.
  intros Hne Hp. apply writtenLine_join; [exact Hne|].
  intros cell Hin. exists (escapeQuotes cell). split; [reflexivity|].
  rewrite escapeQuotes_hasChar by reflexivity.
  rewrite Forall_forall in Hp. apply Hp. now apply list_elem_of_In.
Qed.

Lemma headers_as_cells hs :
  Forall (fun header => hasChar Str.dquote header = false) hs ->
  map (fun header => quoteText header) hs
  = map (fun cell => quoteText (escapeQuotes cell)) hs.
Proof.
  induction 1 as [|h hs Hh _ IH]; simpl; [reflexivity|].
  now rewrite escapeQuotes_plain, IH.
Qed.

Lemma join_written_head l lines :
  writtenLine l ->
  exists r, Str.join (String Str.LF EmptyString) (l :: lines) = String Str.dquote r.
Proof.
  intros (body & -> & _). destruct lines as [|l' lines']; simpl Str.join.
  - rewrite append_cons. eauto.
  - rewrite !append_cons. eauto.
Qed.

End WriterReader.

(** X3. What the integration manager writes, [analyze] reads back: for
    a non-empty list of headers without double quotes that differ
    pairwise whatever the letter case, and rows of the header's width,
    all cells being trimmed and free of line feeds, parsing the text of
    [convertToCSV] succeeds and returns these headers and rows, whatever
    commas and double quotes the cells of the rows hold. *)
Theorem convertToCSV_parseCSVContent (headers : list string) (rows : list (list string)) :
  headers <> [] ->
  Forall (fun header => plainCell header /\ hasChar Str.dquote header = false) headers ->
  NoDup (map Str.toLowerCase headers) ->
  Forall (fun row => length row = length headers /\ Forall plainCell row) rows ->
  parseCSVContent (convertToCSV headers rows) = Ok (mkParseResult headers rows).
Proof.
  intros Hne Hh Hnd Hrows.
  assert (Hplain : Forall plainCell headers).
  { eapply Forall_impl; [exact Hh|]. now intros h [H _]. }
  assert (Hnoq : Forall (fun header => hasChar Str.dquote header = false) headers).
  { eapply Forall_impl; [exact Hh|]. now intros h [_ H]. }
  set (rowLine := fun row : list string =>
         Str.join "," (map (fun cell => quoteText (escapeQuotes cell)) row)).
  set (headerLine := Str.join "," (map (fun header => quoteText header) headers)).
  assert (Econtent : convertToCSV headers rows
                     = Str.join (String Str.LF EmptyString) (headerLine :: map rowLine rows)).
  { unfold convertToCSV. f_equal. exact (push_loop rowLine rows [headerLine]). }
  assert (EheaderLine : headerLine = rowLine headers).
  { unfold headerLine, rowLine. now rewrite headers_as_cells. }
  assert (Hrow : forall row, In row rows -> row <> [] /\ Forall plainCell row /\
                                             length row = length headers).
  { intros row Hin. rewrite Forall_forall in Hrows.
    destruct (Hrows row) as [Hl Hp]; [now apply list_elem_of_In|].
    repeat split; auto. intros ->. destruct headers; [congruence | discriminate]. }
  assert (Hwritten : Forall writtenLine (headerLine :: map rowLine rows)).
  { constructor.
    - rewrite EheaderLine. now apply writtenLine_row.
    - apply Forall_forall. intros l Hl.
      apply list_elem_of_In, in_map_iff in Hl as (row & <- & Hin).
      destruct (Hrow row Hin) as (? & ? & ?). now apply writtenLine_row. }
  assert (Hlines : nonBlankLines (convertToCSV headers rows) = headerLine :: map rowLine rows).
  { unfold nonBlankLines. rewrite Econtent.
    rewrite splitLines_join by (discriminate || exact Hwritten).
    now apply nonBlank_written. }
  unfold parseCSVContent. rewrite Hlines.
  destruct (join_written_head headerLine (map rowLine rows)) as [r Er];
    [now inversion Hwritten|].
  rewrite Econtent, Er. rewrite trim_head_nonempty by reflexivity.
  cbn [Str.is_empty orb].
  assert (EhHead : Str.is_empty headerLine = false).
  { inversion Hwritten as [|? ? (body & -> & _) _]. reflexivity. }
  rewrite EhHead, EheaderLine.
  unfold rowLine at 1 2 3. rewrite !parseCSVLine_written by assumption.
  destruct (Nat.eqb (length headers) 0) eqn:E0.
  { apply Nat.eqb_eq in E0. destruct headers; [congruence | discriminate]. }
  rewrite duplicateHeaders_none by (exact Hnd || (intros h _ [])).
  rewrite parseRows_all.
  - cbv beta iota. cbn [app].
    replace (parseCSVLine (rowLine headers)) with headers
      by (symmetry; now apply parseCSVLine_written).
    do 2 f_equal. rewrite map_map.
    rewrite <- (map_id rows) at 2. apply map_ext_in.
    intros row Hin. destruct (Hrow row Hin) as (? & ? & ?).
    now apply parseCSVLine_written.
  - apply Forall_forall. intros l Hl.
    apply list_elem_of_In, in_map_iff in Hl as (row & <- & Hin).
    destruct (Hrow row Hin) as (? & ? & ?).
    unfold rowLine. now rewrite parseCSVLine_written.
Qed.

Lemma convertToCSV_parseCSVContent_witness :
  let headers := ["campaign.name"; "metrics.clicks"] in
  let rows := [["Spring, 2024"; "1,204"]; ["Say " +:+ q "hi" +:+ " again"; EmptyString]] in
  parseCSVContent (convertToCSV headers rows) = Ok (mkParseResult headers rows).
Proof.
  intros headers rows.
  apply (convertToCSV_parseCSVContent headers rows).
  - discriminate.
  - repeat constructor.
  - vm_compute. repeat constructor; intros H; inversion H; subst;
      repeat match goal with H : _ ∈ _ |- _ => inversion H; clear H; subst end.
  - repeat constructor.
Defined.

(** X4. The headers of a parsed table are not empty and differ
    pairwise whatever the letter case. *)
Theorem parseCSVContent_headers_distinct csvContent parsed :
  parseCSVContent csvContent = Ok parsed ->
  headers parsed <> [] /\ NoDup (map Str.toLowerCase (headers parsed)).
Proof.
  unfold parseCSVContent. intros H.
  destruct (_ || _); [discriminate|].
  destruct (nonBlankLines csvContent) as [|headerLine dataLines]; [discriminate|].
  destruct (Str.is_empty headerLine); [discriminate|].
  destruct (Nat.eqb (length (parseCSVLine headerLine)) 0) eqn:E0; [discriminate|].
  destruct (duplicateHeaders [] (parseCSVLine headerLine)) eqn:Ed; [|discriminate].
  destruct (parseRows _ 1 dataLines []) as [rs|]; [|discriminate].
  inversion H; subst; clear H. simpl. split.
  - intros E. rewrite E in E0. discriminate.
  - now apply duplicateHeaders_nodup in Ed as [Hnd _].
Qed.

Lemma parseCSVContent_headers_distinct_witness :
  NoDup (map Str.toLowerCase ["Channel"; "Clicks"]).
Proof.
  apply (parseCSVContent_headers_distinct (nl "Channel,Clicks" "email,10")
           (mkParseResult ["Channel"; "Clicks"] [["email"; "10"]])).
  reflexivity.
Defined.

(** ** The column classifier *)

Section Classifier.

Lemma filteri_from_ext {A} (f g : A -> nat -> bool) : forall xs i,
  (forall x j, f x j = g x j) ->
  Arr.filteri_from i f xs = Arr.filteri_from i g xs.
Proof.
  induction xs as [|x xs IH]; intros i H; simpl; [reflexivity|].
  rewrite H, (IH (S i) H). reflexivity.
Qed.

Lemma filteri_from_sublist {A} (f : A -> nat -> bool) : forall xs i,
  Arr.filteri_from i f xs `sublist_of` xs.
Proof.
  induction xs as [|x xs IH]; intros i; simpl; [constructor|].
  destruct (f x i); [apply sublist_skip | apply sublist_cons]; apply IH.
Qed.

Lemma filteri_from_keeps {A} (f : A -> nat -> bool) (p : A -> bool) : forall xs i x,
  (forall y j, p y = true -> f y j = true) ->
  In x xs -> p x = true -> In x (Arr.filteri_from i f xs).
Proof.
  induction xs as [|y xs IH]; intros i x H Hin Hp; [destruct Hin|]. simpl.
  destruct Hin as [-> | Hin].
  - rewrite (H x i Hp). now left.
  - destruct (f y i); [right|]; now apply IH.
Qed.

Lemma filteri_from_plain {A} (p : A -> bool) : forall xs i,
  Arr.filteri_from i (fun x _ => p x) xs = List.filter p xs.
Proof.
  induction xs as [|x xs IH]; intros i; simpl; [reflexivity|]. now rewrite IH.
Qed.

Lemma firstn_min {A} n (l : list A) : firstn (Nat.min n (length l)) l = firstn n l.
Proof.
  destruct (Nat.le_ge_cases n (length l)) as [H|H].
  - now rewrite Nat.min_l.
  - rewrite Nat.min_r by exact H. now rewrite !firstn_all2.
Qed.

Lemma sample_of_sample {A} n (l : list A) :
  Nat.min n (length (firstn n l)) = Nat.min n (length l) /\
  firstn (Nat.min n (length (firstn n l))) (firstn n l) = firstn (Nat.min n (length l)) l.
Proof.
  rewrite length_firstn. split; [lia|].
  replace (Nat.min n (Nat.min n (length l))) with (Nat.min n (length l)) by lia.
  rewrite firstn_firstn. f_equal. lia.
Qed.

End Classifier.

(** X5. The classifier looks at a sample only: the numeric columns are
    those found in the first 10 rows and the categorical columns those
    found in the first 20 rows; no later row changes the outcome. *)
Theorem classifier_samples headers rows :
  findNumericColumns headers rows = findNumericColumns headers (firstn 10 rows) /\
  findCategoricalColumns headers rows = findCategoricalColumns headers (firstn 20 rows).
Proof.
  split.
  - unfold findNumericColumns, Arr.filteri, Arr.slice0.
    apply filteri_from_ext. intros header index.
    destruct (sample_of_sample 10 rows) as [-> ->]. reflexivity.
  - unfold findCategoricalColumns, Arr.filteri, Arr.slice0.
    apply filteri_from_ext. intros header index.
    destruct (sample_of_sample 20 rows) as [-> ->]. reflexivity.
Qed.

(** X6. The classified columns are headers of the table, in the order
    of the table.  A header that contains a keyword of a kind is of that
    kind whatever its cells hold, and on a table without rows the
    numeric and categorical columns are exactly the headers with a
    keyword. *)
Theorem classifier_keywords headers rows :
  (findNumericColumns headers rows `sublist_of` headers /\
   findCategoricalColumns headers rows `sublist_of` headers /\
   findDateColumns headers `sublist_of` headers) /\
  (forall header, In header headers ->
     (hasKeyword numericKeywords header = true ->
        In header (findNumericColumns headers rows)) /\
     (hasKeyword categoricalKeywords header = true ->
        In header (findCategoricalColumns headers rows))) /\
  findNumericColumns headers [] = List.filter (hasKeyword numericKeywords) headers /\
  findCategoricalColumns headers [] = List.filter (hasKeyword categoricalKeywords) headers.
Proof.
  split; [|split; [|split]].
  - split; [|split].
    + apply filteri_from_sublist.
    + apply filteri_from_sublist.
    + unfold findDateColumns. rewrite <- (filteri_from_plain _ headers 0).
      apply filteri_from_sublist.
  - intros header Hin. split; intros Hk.
    + unfold findNumericColumns, Arr.filteri.
      apply (filteri_from_keeps _ (hasKeyword numericKeywords)); auto.
      intros y j Hy. now rewrite Hy.
    + unfold findCategoricalColumns, Arr.filteri.
      apply (filteri_from_keeps _ (hasKeyword categoricalKeywords)); auto.
      intros y j Hy. now rewrite Hy.
  - unfold findNumericColumns, Arr.filteri. rewrite <- (filteri_from_plain _ headers 0).
    apply filteri_from_ext. intros x j. simpl. apply orb_false_r.
  - unfold findCategoricalColumns, Arr.filteri. rewrite <- (filteri_from_plain _ headers 0).
    apply filteri_from_ext. intros x j. simpl. apply orb_false_r.
Qed.
(** ** The filter engine, stage by stage *)

Section FilterBehaviour.

Variable Date_parse : string -> option Z.

Lemma filter_sublist {A} (p : A -> bool) (l : list A) : List.filter p l `sublist_of` l.
Proof.
  induction l as [|x l IH]; simpl; [constructor|].
  destruct (p x); [now apply sublist_skip | now apply sublist_cons].
Qed.

Lemma datePred_inactive headers F row :
  truthy (startDateOf F) = false -> truthy (endDateOf F) = false ->
  datePred Date_parse headers F row = true.
Proof. unfold datePred. now intros -> ->. Qed.

Lemma datePred_no_column headers F row :
  findDateColumns headers = [] -> datePred Date_parse headers F row = true.
Proof. unfold datePred. intros ->. now destruct (_ || _). Qed.

Lemma categoryPred_no_column headers F row :
  categoryPred headers None F row = true.
Proof. unfold categoryPred. now destruct (categoriesOf F). Qed.

Lemma rangePred_no_column headers F row :
  rangePred headers None F row = true.
Proof. unfold rangePred. now destruct (minValue F), (maxValue F). Qed.

Lemma dateKeeps_unreadable index start_ end_ row :
  unreadable Date_parse (Arr.at_ row index) ->
  dateKeeps Date_parse index start_ end_ row = true.
Proof.
  unfold dateKeeps, unreadable.
  destruct (Arr.at_ row index) as [v|]; [|reflexivity].
  intros [-> | H]; [reflexivity|]. rewrite H. now destruct (Str.is_empty v).
Qed.

End FilterBehaviour.

(** X7. The filter engine only removes rows: the rows it returns are a
    subsequence of the rows it was given, in their order and unaltered,
    and without a specification all rows are returned. *)
Theorem applyFilters_sublist (Date_parse : string -> option Z) headers rows filters :
  applyFilters Date_parse headers rows filters `sublist_of` rows /\
  length (applyFilters Date_parse headers rows filters) <= length rows /\
  applyFilters Date_parse headers rows None = rows.
Proof.
  assert (H : applyFilters Date_parse headers rows filters `sublist_of` rows).
  { destruct filters as [F|]; [|reflexivity].
    rewrite applyFilters_filter.
    etransitivity; [apply filter_sublist|].
    etransitivity; [apply filter_sublist|]. apply filter_sublist. }
  split; [exact H|]. split; [now apply sublist_length | reflexivity].
Qed.

(** X8. A specification with no active constraint returns all rows:
    absent fields, empty bounds of the date range and an empty selection
    of categories do not filter, and the selected metrics never do. *)
Theorem applyFilters_inactive (Date_parse : string -> option Z) headers rows F :
  inactive F ->
  applyFilters Date_parse headers rows (Some F) = rows.
Proof.
  intros (Hs & He & Hc & Hmin & Hmax).
  rewrite applyFilters_filter.
  rewrite (filter_fixed (datePred Date_parse headers F) rows)
    by (intros; now apply datePred_inactive).
  rewrite (filter_fixed (categoryPred headers _ F) rows)
    by (intros; now apply categoryPred_inactive).
  apply filter_fixed. intros. now apply rangePred_inactive.
Qed.

Lemma applyFilters_inactive_witness :
  let rows := [["40"; "email"]; ["75"; "search"]] in
  let F := mkFilterOptions (Some (mkDateRange (Some EmptyString) None))
             (Some ["revenue"]) (Some []) None None in
  applyFilters isoDate ["revenue"; "channel"] rows (Some F) = rows.
Proof.
  intros rows F. apply (applyFilters_inactive isoDate ["revenue"; "channel"] rows F).
  repeat split.
Defined.

(** X9. A constraint whose column is not found is ignored: a date range
    on a table without a date column, a selection of categories on a
    table without a categorical column and a value range on a table
    without a numeric column return all rows. *)
Theorem applyFilters_missing_column (Date_parse : string -> option Z) headers rows :
  (findDateColumns headers = [] ->
     forall start_ end_,
       applyFilters Date_parse headers rows (Some (onlyDates start_ end_)) = rows) /\
  (findCategoricalColumns headers rows = [] ->
     forall selected,
       applyFilters Date_parse headers rows (Some (onlyCategories selected)) = rows) /\
  (findNumericColumns headers rows = [] ->
     forall min max,
       applyFilters Date_parse headers rows (Some (onlyRange min max)) = rows).
Proof.
  split; [|split].
  - intros H start_ end_. rewrite applyFilters_filter.
    rewrite (filter_fixed (datePred Date_parse headers _) rows)
      by (intros; now apply datePred_no_column).
    rewrite (filter_fixed (categoryPred headers _ _) rows)
      by (intros; now apply categoryPred_inactive).
    apply filter_fixed. intros. now apply rangePred_inactive.
  - intros H selected. rewrite applyFilters_filter.
    rewrite (filter_fixed (datePred Date_parse headers _) rows)
      by (intros; now apply datePred_inactive).
    unfold categoryColumn. rewrite H. simpl head.
    rewrite (filter_fixed (categoryPred headers None _) rows)
      by (intros; apply categoryPred_no_column).
    apply filter_fixed. intros. now apply rangePred_inactive.
  - intros H min max. rewrite applyFilters_filter.
    rewrite (filter_fixed (datePred Date_parse headers _) rows)
      by (intros; now apply datePred_inactive).
    rewrite (filter_fixed (categoryPred headers _ _) rows)
      by (intros; now apply categoryPred_inactive).
    unfold numericColumn. rewrite H. simpl head.
    apply filter_fixed. intros. apply rangePred_no_column.
Qed.

Lemma applyFilters_missing_column_witness :
  let headers := ["sku"; "shop"] in
  let rows := [["A1"; "north"]; ["B2"; "south"]] in
  applyFilters isoDate headers rows (Some (onlyDates (Some "2024-01-01") None)) = rows /\
  applyFilters isoDate headers rows (Some (onlyCategories ["north"])) = rows /\
  applyFilters isoDate headers rows (Some (onlyRange (Some (Num.of_Z 5)) None)) = rows.
Proof.
  intros headers rows.
  destruct (applyFilters_missing_column isoDate headers rows) as (Hd & Hc & Hn).
  split; [|split].
  - apply Hd. reflexivity.
  - apply Hc. reflexivity.
  - apply Hn. reflexivity.
Defined.

(** X10. The date and category filters are fail-open: under a date
    range alone, a row whose date cell is missing, empty or not a
    parseable date is kept whatever the bounds; under a selection of
    categories alone, a row whose category cell is missing or empty is
    kept whatever the selection. *)
Theorem filters_fail_open (Date_parse : string -> option Z) headers rows row :
  In row rows ->
  (forall dateCol others start_ end_,
     findDateColumns headers = dateCol :: others ->
     unreadable Date_parse (Arr.at_ row (Arr.indexOf headers dateCol)) ->
     In row (applyFilters Date_parse headers rows (Some (onlyDates start_ end_)))) /\
  (forall categoryCol selected,
     categoryColumn headers rows = Some categoryCol ->
     falsy (Arr.at_ row (Arr.indexOf headers categoryCol)) = true ->
     In row (applyFilters Date_parse headers rows (Some (onlyCategories selected)))).
Proof.
  intros Hin. split.
  - intros dateCol others start_ end_ Hcol Hcell.
    apply applyFilters_In. split; [exact Hin|]. split; [|split].
    + unfold datePred. rewrite Hcol. destruct (_ || _); [|reflexivity].
      now apply dateKeeps_unreadable.
    + now apply categoryPred_inactive.
    + now apply rangePred_inactive.
  - intros categoryCol selected Hcol Hcell.
    apply applyFilters_In. split; [exact Hin|]. split; [|split].
    + now apply datePred_inactive.
    + rewrite Hcol. unfold categoryPred.
      destruct (categoriesOf (onlyCategories selected)); [reflexivity|].
      unfold categoryKeeps. now rewrite Hcell.
    + now apply rangePred_inactive.
Qed.

Lemma filters_fail_open_witness :
  let headers := ["revenue"; "channel"; "date"] in
  let rows := [["40"; "email"; "soon"]; ["75"; EmptyString; "2024-01-02"];
               ["20"; "email"; "2024-01-03"]] in
  In ["40"; "email"; "soon"]
     (applyFilters isoDate headers rows
        (Some (onlyDates (Some "2024-02-01") (Some "2024-02-28")))) /\
  In ["75"; EmptyString; "2024-01-02"]
     (applyFilters isoDate headers rows (Some (onlyCategories ["search"]))).
Proof.
  intros headers rows. split.
  - destruct (filters_fail_open isoDate headers rows ["40"; "email"; "soon"]) as [H _].
    + left. reflexivity.
    + apply (H "date" []); [reflexivity|]. right. reflexivity.
  - destruct (filters_fail_open isoDate headers rows ["75"; EmptyString; "2024-01-02"])
      as [_ H].
    + right. left. reflexivity.
    + apply (H "channel"); reflexivity.
Defined.

(** X11. Under a date range alone with two parseable bounds, the rows
    kept are exactly the rows whose date cell is unreadable or lies
    between the bounds, both bounds included. *)
Theorem date_filter_inclusive
    (Date_parse : string -> option Z) headers rows dateCol others s e ts te row :
  findDateColumns headers = dateCol :: others ->
  s <> EmptyString -> e <> EmptyString ->
  Date_parse s = Some ts -> Date_parse e = Some te ->
  let cell := Arr.at_ row (Arr.indexOf headers dateCol) in
  In row (applyFilters Date_parse headers rows (Some (onlyDates (Some s) (Some e)))) <->
  In row rows /\
  (unreadable Date_parse cell \/
   exists v t, cell = Some v /\ Date_parse v = Some t /\ (ts <= t <= te)%Z).
Proof.
  intros Hcol Hs He Ps Pe cell.
  assert (Es : Str.is_empty s = false) by (destruct s; [now destruct Hs | reflexivity]).
  assert (Ee : Str.is_empty e = false) by (destruct e; [now destruct He | reflexivity]).
  rewrite applyFilters_In.
  assert (Hpred : datePred Date_parse headers (onlyDates (Some s) (Some e)) row = true <->
                  (unreadable Date_parse cell \/
                   exists v t, cell = Some v /\ Date_parse v = Some t /\ (ts <= t <= te)%Z)).
  { unfold datePred, truthy, startDateOf, endDateOf. simpl. rewrite Es, Ee, Hcol. simpl.
    rewrite Ps, Pe. unfold dateKeeps. fold cell. unfold unreadable.
    destruct cell as [v|]; [|split; auto].
    destruct (Str.is_empty v) eqn:Ev.
    { split; auto. intros _. left. left. now destruct v. }
    destruct (Date_parse v) as [t|] eqn:Pv; [|split; auto].
    simpl. destruct (t <? ts)%Z eqn:L1; [|destruct (te <? t)%Z eqn:L2].
    - apply Z.ltb_lt in L1. split; [discriminate|].
      intros [[-> | H] | (v' & t' & Hv & Pt & Hr)]; try discriminate.
      inversion Hv; subst v'. rewrite Pv in Pt. inversion Pt; subst. lia.
    - apply Z.ltb_lt in L2. split; [discriminate|].
      intros [[-> | H] | (v' & t' & Hv & Pt & Hr)]; try discriminate.
      inversion Hv; subst v'. rewrite Pv in Pt. inversion Pt; subst. lia.
    - apply Z.ltb_ge in L1, L2. split; auto. intros _. right. exists v, t. auto. }
  rewrite Hpred.
  rewrite (categoryPred_inactive headers _ _ row) by reflexivity.
  rewrite (rangePred_inactive headers _ _ row) by reflexivity.
  tauto.
Qed.

Lemma date_filter_inclusive_witness :
  let headers := ["revenue"; "date"] in
  let rows := [["40"; "2024-01-01"]; ["75"; "2024-01-02"]; ["20"; "2024-01-03"]] in
  In ["75"; "2024-01-02"]
     (applyFilters isoDate headers rows
        (Some (onlyDates (Some "2024-01-02") (Some "2024-01-02")))).
Proof.
  intros headers rows.
  apply (date_filter_inclusive isoDate headers rows "date" [] "2024-01-02" "2024-01-02"
           (DateTime.utc 2024 1 2 0 0) (DateTime.utc 2024 1 2 0 0) ["75"; "2024-01-02"]);
    try reflexivity; try discriminate.
  split; [right; left; reflexivity|].
  right. exists "2024-01-02", (DateTime.utc 2024 1 2 0 0).
  repeat split; vm_compute; discriminate.
Defined.

(** X12. Under a selection of categories alone, on a table with a
    categorical column, the rows kept are exactly the rows whose
    category cell is missing, empty or one of the selected values. *)
Theorem category_filter_rows
    (Date_parse : string -> option Z) headers rows categoryCol selected row :
  categoryColumn headers rows = Some categoryCol ->
  selected <> [] ->
  let cell := Arr.at_ row (Arr.indexOf headers categoryCol) in
  In row (applyFilters Date_parse headers rows (Some (onlyCategories selected))) <->
  In row rows /\
  (falsy cell = true \/ exists v, cell = Some v /\ In v selected).
Proof.
  intros Hcol Hsel cell.
  rewrite applyFilters_In.
  rewrite (datePred_inactive Date_parse headers _ row) by reflexivity.
  rewrite (rangePred_inactive headers _ _ row) by reflexivity.
  rewrite Hcol. unfold categoryPred.
  destruct selected as [|c cs]; [congruence|].
  change (categoriesOf (onlyCategories (c :: cs))) with (c :: cs). cbv iota.
  unfold categoryKeeps. fold cell.
  destruct (falsy cell) eqn:F; cbn [orb].
  - tauto.
  - destruct cell as [v|]; [|discriminate].
    rewrite includes_In. split.
    + intros (Hin & _ & Hv & _). split; [exact Hin|]. right. eauto.
    + intros (Hin & [Hf | (v' & Hv & Hs)]); [discriminate|].
      inversion Hv; subst. tauto.
Qed.

Lemma category_filter_rows_witness :
  let headers := ["revenue"; "channel"] in
  let rows := [["40"; "email"]; ["75"; "search"]; ["20"; "email"]] in
  ~ In ["75"; "search"]
       (applyFilters isoDate headers rows (Some (onlyCategories ["email"]))).
Proof.
  intros headers rows Hin.
  apply (category_filter_rows isoDate headers rows "channel" ["email"] ["75"; "search"])
    in Hin as (_ & [Hf | (v & Hv & Hs)]); try reflexivity; try discriminate.
  inversion Hv; subst v. destruct Hs as [Hs | []]. discriminate.
Defined.

(** ** The line charts *)

Section LineCharts.

Variable Date_parse : string -> option Z.
Variable toLocaleDateString : Z -> string.

Lemma timeSeriesPoints_acc dateIndex numericIndex rows : forall acc,
  exists points,
    fold_left (fun timeSeriesData row =>
      let dateValue := Arr.at_ row dateIndex in
      let numericValue := parseNumericValue (Arr.at_ row numericIndex) in
      match dateValue with
      | Some d =>
          if truthy dateValue && negb (Num.isNaN numericValue)
          then timeSeriesData ++
               [mkPoint (formatDateLabel Date_parse toLocaleDateString d)
                  numericValue (Some d) None]
          else timeSeriesData
      | None => timeSeriesData
      end) rows acc = acc ++ points /\
    length points <= length rows /\
    Forall (fun p => exists row d, In row rows /\ Arr.at_ row dateIndex = Some d /\
                                   d <> EmptyString /\ date p = Some d) points.
Proof.
  induction rows as [|row rows IH]; intros acc.
  - exists []. rewrite app_nil_r. repeat split; [simpl; lia | constructor].
  - cbn [fold_left]. cbv beta zeta.
    assert (Hkeep : forall points,
              Forall (fun p => exists r d, In r rows /\ Arr.at_ r dateIndex = Some d /\
                                           d <> EmptyString /\ date p = Some d) points ->
              Forall (fun p => exists r d, In r (row :: rows) /\
                                           Arr.at_ r dateIndex = Some d /\
                                           d <> EmptyString /\ date p = Some d) points).
    { intros points Hall. eapply Forall_impl; [exact Hall|].
      intros p (r & d' & ? & ? & ? & ?). exists r, d'. repeat split; auto. now right. }
    destruct (Arr.at_ row dateIndex) as [d|] eqn:Ed.
    + destruct (truthy (Some d) && negb (Num.isNaN (parseNumericValue (Arr.at_ row numericIndex))))
        eqn:K.
      * set (pt := mkPoint (formatDateLabel Date_parse toLocaleDateString d)
                     (parseNumericValue (Arr.at_ row numericIndex)) (Some d) None).
        destruct (IH (acc ++ [pt])) as (points & E & Hl & Hall).
        exists (pt :: points). split; [|split].
        -- etransitivity; [exact E|]. now rewrite <- app_assoc.
        -- simpl. lia.
        -- constructor; [|now apply Hkeep].
           exists row, d. repeat split; auto; [now left|].
           apply andb_true_iff in K as [K _]. unfold truthy in K. simpl in K.
           intros ->. discriminate.
      * destruct (IH acc) as (points & E & Hl & Hall). exists points.
        split; [|split].
        -- exact E.
        -- simpl. lia.
        -- now apply Hkeep.
    + destruct (IH acc) as (points & E & Hl & Hall). exists points.
      split; [exact E|]. split; [simpl; lia | now apply Hkeep].
Qed.

Lemma timeSeriesPoints_bound dateIndex numericIndex rows :
  length (timeSeriesPoints Date_parse toLocaleDateString dateIndex numericIndex rows)
  <= length rows.
Proof.
  destruct (timeSeriesPoints_acc dateIndex numericIndex rows []) as (points & E & Hl & _).
  change (timeSeriesPoints Date_parse toLocaleDateString dateIndex numericIndex rows
          = [] ++ points) in E.
  rewrite E. exact Hl.
Qed.

Lemma timeSeriesPoints_dates dateIndex numericIndex rows p :
  In p (timeSeriesPoints Date_parse toLocaleDateString dateIndex numericIndex rows) ->
  exists row d, In row rows /\ Arr.at_ row dateIndex = Some d /\
                d <> EmptyString /\ date p = Some d.
Proof.
  destruct (timeSeriesPoints_acc dateIndex numericIndex rows []) as (points & E & _ & Hall).
  change (timeSeriesPoints Date_parse toLocaleDateString dateIndex numericIndex rows
          = [] ++ points) in E.
  rewrite E. simpl. intros Hin. rewrite Forall_forall in Hall.
  apply Hall. now apply list_elem_of_In.
Qed.

Lemma lineCharts_loop headers rows dateIndex : forall columns acc,
  exists charts,
    fold_left (fun charts numericCol =>
      let numericIndex := Arr.indexOf headers numericCol in
      let timeSeriesData :=
        timeSeriesPoints Date_parse toLocaleDateString dateIndex numericIndex rows in
      if Nat.ltb 1 (length timeSeriesData) then
        charts ++ [mkChart LineChart (numericCol +:+ " Over Time")
                     (sortBy (laterDate Date_parse) timeSeriesData)
                     (Some "Date") (Some numericCol) (Some ["#3b82f6"])]
      else charts) columns acc = acc ++ charts /\
    length charts <= length columns /\
    Forall (lineChartOf Date_parse toLocaleDateString headers rows dateIndex columns) charts.
Proof.
  induction columns as [|col columns IH]; intros acc.
  - exists []. rewrite app_nil_r. repeat split; [simpl; lia | constructor].
  - cbn [fold_left]. cbv beta zeta.
    assert (Hkeep : forall charts,
              Forall (lineChartOf Date_parse toLocaleDateString headers rows dateIndex columns)
                charts ->
              Forall (lineChartOf Date_parse toLocaleDateString headers rows dateIndex
                        (col :: columns)) charts).
    { intros charts Hall. eapply Forall_impl; [exact Hall|].
      intros chart (c & Hc & Echart & H2). exists c. split; [now right | now split]. }
    set (points := timeSeriesPoints Date_parse toLocaleDateString dateIndex
                     (Arr.indexOf headers col) rows).
    destruct (Nat.ltb 1 (length points)) eqn:L.
    + set (chart := mkChart LineChart (col +:+ " Over Time")
                      (sortBy (laterDate Date_parse) points)
                      (Some "Date") (Some col) (Some ["#3b82f6"])).
      destruct (IH (acc ++ [chart])) as (charts & E & Hl & Hall).
      exists (chart :: charts). split; [|split].
      * etransitivity; [exact E|].
        now rewrite <- app_assoc.
      * simpl. lia.
      * constructor; [|now apply Hkeep].
        exists col. split; [now left|]. split; [reflexivity|].
        simpl. rewrite sortBy_length. apply Nat.ltb_lt in L. lia.
    + destruct (IH acc) as (charts & E & Hl & Hall). exists charts.
      split; [|split].
      * exact E.
      * simpl. lia.
      * now apply Hkeep.
Qed.

Lemma timeSeriesCharts_inv headers rows :
  let charts := timeSeriesCharts Date_parse toLocaleDateString headers rows in
  match findDateColumns headers with
  | [] => charts = []
  | dateCol :: _ =>
      length charts <= 3 /\
      Forall (lineChartOf Date_parse toLocaleDateString headers rows
                (Arr.indexOf headers dateCol) (findNumericColumns headers rows)) charts
  end.
Proof.
  unfold timeSeriesCharts.
  destruct (findDateColumns headers) as [|dateCol others]; [reflexivity|].
  destruct (findNumericColumns headers rows) as [|c cs] eqn:En.
  - simpl. split; [lia | constructor].
  - rewrite <- En.
    destruct (lineCharts_loop headers rows (Arr.indexOf headers dateCol)
                (Arr.slice0 3 (findNumericColumns headers rows)) [])
      as (charts & E & Hl & Hall).
    match goal with |- context [fold_left ?f ?l ?a] =>
      assert (E' : fold_left f l a = [] ++ charts) by exact E; rewrite E' end.
    simpl app. split.
    + etransitivity; [exact Hl|]. unfold Arr.slice0. apply firstn_le_length.
    + eapply Forall_impl; [exact Hall|].
      intros chart (col & Hc & Echart & H2). exists col. split; [|now split].
      unfold Arr.slice0 in Hc.
      rewrite <- (firstn_skipn 3 (findNumericColumns headers rows)).
      apply in_or_app. now left.
Qed.

(** Insertion keeps a list sorted by a key, when the comparator orders
    the keys. *)
Lemma insertSorted_sorted {A} (key : A -> Z) (gt : A -> A -> bool) x : forall sorted,
  (forall y, In y sorted -> gt x y = (key y <? key x)%Z) ->
  StronglySorted (fun a b => (key a <= key b)%Z) sorted ->
  StronglySorted (fun a b => (key a <= key b)%Z) (insertSorted gt x sorted) /\
  Permutation (insertSorted gt x sorted) (x :: sorted).
Proof.
  induction sorted as [|y sorted IH]; intros Hgt Hs; simpl.
  - split; [repeat constructor | reflexivity].
  - rewrite (Hgt y (or_introl eq_refl)).
    inversion Hs as [|? ? Hs' Hy]; subst.
    destruct (key y <? key x)%Z eqn:L.
    + apply Z.ltb_lt in L.
      destruct IH as [IHs IHp]; [intros z Hz; apply Hgt; now right | exact Hs' |].
      split.
      * constructor; [exact IHs|].
        apply Forall_forall. intros z Hz.
        apply list_elem_of_In in Hz.
        apply (Permutation_in _ IHp) in Hz. destruct Hz as [<- | Hz]; [lia|].
        rewrite Forall_forall in Hy. apply Hy. now apply list_elem_of_In.
      * rewrite IHp. apply perm_swap.
    + apply Z.ltb_ge in L. split; [|reflexivity].
      constructor; [exact Hs|]. constructor; [exact L|].
      eapply Forall_impl; [exact Hy|]. intros z Hz. simpl in Hz. lia.
Qed.

Lemma sortBy_sorted {A} (key : A -> Z) (gt : A -> A -> bool) : forall xs,
  (forall a b, In a xs -> In b xs -> gt a b = (key b <? key a)%Z) ->
  StronglySorted (fun a b => (key a <= key b)%Z) (sortBy gt xs) /\
  Permutation (sortBy gt xs) xs.
Proof.
  unfold sortBy. induction xs as [|x xs IH]; intros Hgt; simpl.
  - split; [constructor | reflexivity].
  - destruct IH as [IHs IHp]; [intros a b Ha Hb; apply Hgt; now right|].
    destruct (insertSorted_sorted key gt x (fold_right (insertSorted gt) [] xs))
      as [Hs Hp]; [|exact IHs|].
    + intros y Hy. apply Hgt; [now left|]. right.
      exact (Permutation_in _ IHp Hy).
    + split; [exact Hs|]. rewrite Hp. now constructor.
Qed.

Lemma laterDate_timeOf a b :
  (exists d t, date a = Some d /\ Date_parse d = Some t) ->
  (exists d t, date b = Some d /\ Date_parse d = Some t) ->
  laterDate Date_parse a b = (timeOf Date_parse b <? timeOf Date_parse a)%Z.
Proof.
  intros (da & ta & Ea & Pa) (db & tb & Eb & Pb).
  unfold laterDate, timeOf. now rewrite Ea, Eb, Pa, Pb.
Qed.

End LineCharts.

(** X13. The time-series block of [generateChartData] pushes at most 3
    charts; each is a line chart of at least 2 points and at most one
    point per row, titled after a numeric column of the table.  A table
    without a date column, or with fewer than 2 rows, gets none. *)
Theorem timeSeriesCharts_shape
    (Date_parse : string -> option Z) (toLocaleDateString : Z -> string) headers rows :
  let charts := timeSeriesCharts Date_parse toLocaleDateString headers rows in
  length charts <= 3 /\
  Forall (fun chart =>
    type_ chart = LineChart /\
    2 <= length (data chart) <= length rows /\
    exists numericCol,
      In numericCol (findNumericColumns headers rows) /\
      title_ chart = numericCol +:+ " Over Time") charts /\
  (findDateColumns headers = [] -> charts = []) /\
  (length rows < 2 -> charts = []).
Proof.
  intros charts.
  pose proof (timeSeriesCharts_inv Date_parse toLocaleDateString headers rows) as H.
  fold charts in H. cbv zeta in H.
  assert (Hshape : Forall (fun chart =>
            type_ chart = LineChart /\
            2 <= length (data chart) <= length rows /\
            exists numericCol,
              In numericCol (findNumericColumns headers rows) /\
              title_ chart = numericCol +:+ " Over Time") charts).
  { destruct (findDateColumns headers) as [|dateCol others]; [rewrite H; constructor|].
    destruct H as [_ H]. eapply Forall_impl; [exact H|].
    intros chart (col & Hc & Echart & H2).
    split; [now rewrite Echart|]. split.
    - split; [exact H2|]. rewrite Echart. simpl. rewrite sortBy_length.
      apply timeSeriesPoints_bound.
    - exists col. split; [exact Hc | now rewrite Echart]. }
  split; [|split; [exact Hshape|split]].
  - destruct (findDateColumns headers); [rewrite H; simpl; lia | apply H].
  - intros E. now rewrite E in H.
  - intros Hlen. destruct charts as [|chart rest]; [reflexivity|].
    inversion Hshape as [|? ? (_ & [H2 Hr] & _) _]. lia.
Qed.

(** X14. When every non-empty date cell of the table is a parseable
    date, each line chart is that of one numeric column of the table,
    which its title and the label of its y axis name, and its points are
    those collected from the rows for that column, in ascending order of
    time. *)
Theorem timeSeriesCharts_sorted
    (Date_parse : string -> option Z) (toLocaleDateString : Z -> string)
    headers rows dateCol others chart :
  findDateColumns headers = dateCol :: others ->
  (forall row d, In row rows ->
     Arr.at_ row (Arr.indexOf headers dateCol) = Some d -> d <> EmptyString ->
     Date_parse d <> None) ->
  In chart (timeSeriesCharts Date_parse toLocaleDateString headers rows) ->
  StronglySorted (fun a b => (timeOf Date_parse a <= timeOf Date_parse b)%Z) (data chart) /\
  exists numericCol,
    In numericCol (findNumericColumns headers rows) /\
    title_ chart = numericCol +:+ " Over Time" /\
    yAxisLabel chart = Some numericCol /\
    Permutation (data chart)
      (timeSeriesPoints Date_parse toLocaleDateString
         (Arr.indexOf headers dateCol) (Arr.indexOf headers numericCol) rows).
Proof.
  intros Hcol Hparse Hin.
  pose proof (timeSeriesCharts_inv Date_parse toLocaleDateString headers rows) as H.
  cbv zeta in H. rewrite Hcol in H. destruct H as [_ H].
  rewrite Forall_forall in H.
  destruct (H chart) as (col & Hc & Echart & _); [now apply list_elem_of_In|].
  rewrite Echart. cbn [data title_ yAxisLabel].
  set (points := timeSeriesPoints Date_parse toLocaleDateString
                   (Arr.indexOf headers dateCol) (Arr.indexOf headers col) rows).
  destruct (sortBy_sorted (timeOf Date_parse) (laterDate Date_parse) points) as [Hs Hp].
  - assert (Hd : forall p, In p points ->
                   exists d t, date p = Some d /\ Date_parse d = Some t).
    { intros p Hp.
      destruct (timeSeriesPoints_dates Date_parse toLocaleDateString _ _ _ _ Hp)
        as (row & d & Hrow & Hcell & Hne & Hdate).
      destruct (Date_parse d) as [t|] eqn:Pd; [eauto|].
      exfalso. exact (Hparse row d Hrow Hcell Hne Pd). }
    intros a b Ha Hb. apply laterDate_timeOf; auto.
  - split; [exact Hs|]. exists col. repeat split; [exact Hc | exact Hp].
Qed.

Lemma timeSeriesCharts_sorted_witness :
  let headers := ["revenue"; "channel"; "date"] in
  let rows := [["40"; "email"; "2024-01-03"]; ["75"; "search"; "2024-01-01"];
               ["20"; "email"; "2024-01-02"]] in
  let chart :=
    mkChart LineChart "revenue Over Time"
      [mkPoint "1/1" (Num.of_Z 75) (Some "2024-01-01") None;
       mkPoint "2/1" (Num.of_Z 20) (Some "2024-01-02") None;
       mkPoint "3/1" (Num.of_Z 40) (Some "2024-01-03") None]
      (Some "Date") (Some "revenue") (Some ["#3b82f6"]) in
  In chart (timeSeriesCharts isoDate
              (fun t => pretty (DateTime.DateFromTime t) +:+ "/" +:+
                        pretty (DateTime.MonthFromTime t + 1)%Z) headers rows) /\
  StronglySorted (fun a b => (timeOf isoDate a <= timeOf isoDate b)%Z) (data chart).
Proof.
  intros headers rows chart.
  assert (Hin : In chart (timeSeriesCharts isoDate
              (fun t => pretty (DateTime.DateFromTime t) +:+ "/" +:+
                        pretty (DateTime.MonthFromTime t + 1)%Z) headers rows)).
  { vm_compute. left. reflexivity. }
  split; [exact Hin|].
  eapply (timeSeriesCharts_sorted isoDate _ headers rows "date" []); [reflexivity | | exact Hin].
  intros row d Hrow Hcell Hne.
  destruct Hrow as [<- | [<- | [<- | []]]]; inversion Hcell; subst; discriminate.
Defined.

(** ** The decoder of the generation service's reply *)

Section Braces.

Lemma toLastBrace_none s : JS.toLastBrace s = None <-> hasChar "}" s = false.
Proof.
  induction s as [|c s IH]; [simpl; tauto|]. simpl.
  destruct (JS.toLastBrace s) as [r|].
  - split; [discriminate|]. intros H. apply orb_false_iff in H as [_ H].
    apply IH in H. discriminate.
  - destruct (Str.eqc c "}"); simpl.
    + split; discriminate.
    + split; [intros _; now apply IH | reflexivity].
Qed.

Lemma toLastBrace_spec s : forall t,
  JS.toLastBrace s = Some t <->
  exists body post,
    s = body +:+ String "}" post /\ t = body +:+ "}" /\ hasChar "}" post = false.
Proof.
  induction s as [|c s IH]; intros t.
  - simpl. split; [discriminate|].
    intros (body & post & E & _). destruct body; discriminate.
  - simpl. split.
    + destruct (JS.toLastBrace s) as [r|] eqn:E.
      * intros [= <-]. destruct (proj1 (IH r) eq_refl) as (body & post & -> & -> & Hp).
        exists (String c body), post. now rewrite !append_cons.
      * destruct (Str.eqc c "}") eqn:Ec; [|discriminate].
        intros [= <-]. apply Ascii.eqb_eq in Ec. subst c.
        exists EmptyString, s. repeat split. now apply toLastBrace_none.
    + intros (body & post & E & -> & Hp). destruct body as [|d body].
      * injection E as -> ->.
        rewrite (proj2 (toLastBrace_none post) Hp). reflexivity.
      * rewrite append_cons in E. injection E as -> ->.
        rewrite (proj2 (IH (body +:+ "}")) (ex_intro _ body (ex_intro _ post
                   (conj eq_refl (conj eq_refl Hp))))).
        now rewrite append_cons.
Qed.

Lemma fromFirstBrace_spec s : forall u,
  JS.fromFirstBrace s = Some u <->
  exists pre rest,
    s = pre +:+ String "{" rest /\ u = String "{" rest /\ hasChar "{" pre = false.
Proof.
  induction s as [|c s IH]; intros u.
  - simpl. split; [discriminate|].
    intros (pre & rest & E & _). destruct pre; discriminate.
  - simpl. destruct (Str.eqc c "{") eqn:Ec.
    + apply Ascii.eqb_eq in Ec. subst c. split.
      * intros [= <-]. exists EmptyString, s. repeat split.
      * intros (pre & rest & E & -> & Hp). destruct pre as [|d pre].
        -- now injection E as ->.
        -- rewrite append_cons in E. injection E as <- _. discriminate.
    + split.
      * intros H. destruct (proj1 (IH u) H) as (pre & rest & -> & -> & Hp).
        exists (String c pre), rest. rewrite append_cons. repeat split.
        simpl. now rewrite Ec.
      * intros (pre & rest & E & -> & Hp). destruct pre as [|d pre].
        -- injection E as -> _. rewrite Ascii.eqb_refl in Ec. discriminate.
        -- rewrite append_cons in E. injection E as -> ->.
           apply IH. exists pre, rest. repeat split.
           simpl in Hp. now apply orb_false_iff in Hp as [_ Hp].
Qed.

(** A text that holds a character other than white space does not trim
    to the empty text. *)
Lemma trim_nonempty c s :
  Str.is_space c = false -> hasChar c s = true -> Str.is_empty (Str.trim s) = false.
Proof.
  intros Sp. induction s as [|d s IH]; [discriminate|]. simpl hasChar. intros H.
  destruct (Str.is_space d) eqn:Sd.
  - unfold Str.trim. simpl Str.trimStart. rewrite Sd. apply IH.
    destruct (Str.eqc d c) eqn:E; [|exact H].
    apply Ascii.eqb_eq in E. congruence.
  - now apply trim_head_nonempty.
Qed.

End Braces.

(** A reply with a braced text has it matched. *)
Lemma jsonMatch_found pre body post :
  hasChar "{" pre = false -> hasChar "}" post = false ->
  JS.jsonMatch (pre +:+ "{" +:+ body +:+ "}" +:+ post) = Some ("{" +:+ body +:+ "}").
Proof.
  intros Hpre Hpost. unfold JS.jsonMatch.
  rewrite (proj2 (fromFirstBrace_spec _ (String "{" (body +:+ String "}" post)))).
  - apply toLastBrace_spec. exists (String "{" body), post. repeat split. exact Hpost.
  - exists pre, (body +:+ String "}" post). repeat split. exact Hpre.
Qed.

(** X15. The text that [parseAIResponse] hands to [JSON.parse] runs from
    the first opening brace of the reply to its last closing brace after
    it, both included; there is one exactly when a closing brace follows
    an opening one. *)
Theorem jsonMatch_spec s t :
  JS.jsonMatch s = Some t <->
  exists pre body post,
    s = pre +:+ "{" +:+ body +:+ "}" +:+ post /\
    t = "{" +:+ body +:+ "}" /\
    hasChar "{" pre = false /\ hasChar "}" post = false.
Proof.
  split.
  - unfold JS.jsonMatch.
    destruct (JS.fromFirstBrace s) as [u|] eqn:E; [|discriminate].
    intros H.
    apply fromFirstBrace_spec in E as (pre & rest & -> & -> & Hpre).
    apply toLastBrace_spec in H as (body' & post & E & -> & Hpost).
    destruct body' as [|d body]; [discriminate|].
    rewrite append_cons in E. injection E as <- ->.
    exists pre, body, post. repeat split; assumption.
  - intros (pre & body & post & -> & -> & Hpre & Hpost).
    now apply jsonMatch_found.
Qed.

(** X16. Text before the first opening brace of the reply and text after
    its last closing brace make no difference to [parseAIResponse]: the
    reply is decoded as the braced text alone would be. *)
Theorem parseAIResponse_surrounding_text
    (JSON_parse : string -> option json) pre body post headers rows :
  hasChar "{" pre = false -> hasChar "}" post = false ->
  parseAIResponse JSON_parse (pre +:+ "{" +:+ body +:+ "}" +:+ post) headers rows
  = parseAIResponse JSON_parse ("{" +:+ body +:+ "}") headers rows.
Proof.
  intros Hpre Hpost. unfold parseAIResponse.
  assert (Hs : forall s, hasChar "{" s = true ->
            Str.is_empty s || Str.is_empty (Str.trim s) = false).
  { intros s Hs. rewrite (trim_nonempty "{" s eq_refl Hs).
    destruct s; [discriminate | reflexivity]. }
  rewrite !Hs.
  - rewrite (jsonMatch_found pre body post Hpre Hpost).
    assert (E : JS.jsonMatch ("{" +:+ body +:+ "}") = Some ("{" +:+ body +:+ "}"))
      by exact (jsonMatch_found EmptyString body EmptyString eq_refl eq_refl).
    rewrite E. reflexivity.
  - reflexivity.
  - rewrite hasChar_append. apply orb_true_r.
Qed.

Lemma parseAIResponse_surrounding_text_witness :
  let JSON_parse := fun text =>
    if String.eqb text "{}" then Some (JObj []) else None in
  parseAIResponse JSON_parse "Here is the analysis: {} I hope it helps"
    ["revenue"] [["5"]; ["7"]]
  = parseAIResponse JSON_parse "{}" ["revenue"] [["5"]; ["7"]] /\
  is_ok (parseAIResponse JSON_parse "Here is the analysis: {} I hope it helps"
           ["revenue"] [["5"]; ["7"]]) = true.
Proof.
  intros JSON_parse. split; [|reflexivity].
  apply (parseAIResponse_surrounding_text JSON_parse
           "Here is the analysis: " EmptyString " I hope it helps"); reflexivity.
Defined.

Section Metrics.

Lemma set_lookup (obj : gmap string number) key v k :
  JS.set obj key v !! k =
  if String.eqb key k && negb (String.eqb key "__proto__") then Some v else obj !! k.
Proof.
  unfold JS.set. destruct (String.eqb key "__proto__").
  - now rewrite andb_false_r.
  - rewrite andb_true_r. destruct (String.eqb key k) eqn:E.
    + apply String.eqb_eq in E. subst. apply lookup_insert_eq.
    + apply String.eqb_neq in E. now apply lookup_insert_ne.
Qed.

Lemma indexOf_from_found xs x : forall i,
  In x xs -> (0 <= i)%Z -> (i <= Arr.indexOf_from i xs x)%Z.
Proof.
  induction xs as [|y ys IH]; intros i Hin Hi; [destruct Hin|]. simpl.
  destruct (String.eqb y x) eqn:E; [lia|].
  destruct Hin as [-> | Hin]; [rewrite String.eqb_refl in E; discriminate|].
  specialize (IH (i + 1)%Z Hin). lia.
Qed.

Lemma includes_filter p xs x :
  Arr.includes (List.filter p xs) x = Arr.includes xs x && p x.
Proof.
  apply eq_true_iff_eq. rewrite andb_true_iff, !includes_In, filter_In. tauto.
Qed.

(** The loop over the metric columns of [parseAIResponse], from any
    object and over any columns. *)
Lemma computed_loop headers rows k : forall cols (m0 : gmap string number),
  fold_left (fun (keyMetrics : gmap string number) col =>
    let colIndex := Arr.indexOf headers col in
    if negb (colIndex =? -1)%Z then
      let values :=
        List.filter (fun v => negb (Num.isNaN v) && negb (Num.eqb v Num.zero))
          (columnValues colIndex rows) in
      if Nat.ltb 0 (length values)
      then JS.set keyMetrics col (Num.sum values)
      else keyMetrics
    else keyMetrics) cols m0 !! k =
  let values :=
    List.filter (fun v => negb (Num.isNaN v) && negb (Num.eqb v Num.zero))
      (columnValues (Arr.indexOf headers k) rows) in
  if Arr.includes cols k && negb (String.eqb k "__proto__") &&
     negb (Arr.indexOf headers k =? -1)%Z && Nat.ltb 0 (length values)
  then Some (Num.sum values) else m0 !! k.
Proof.
  induction cols as [|col cols IH]; intros m0; [reflexivity|].
  cbn [fold_left]. rewrite IH. cbv zeta.
  set (values := List.filter _ (columnValues (Arr.indexOf headers k) rows)).
  change (Arr.includes (col :: cols) k) with (String.eqb k col || Arr.includes cols k).
  destruct (Arr.includes cols k && negb (String.eqb k "__proto__") &&
            negb (Arr.indexOf headers k =? -1)%Z && Nat.ltb 0 (length values)) eqn:C.
  - rewrite !andb_true_iff in C. destruct C as [[[-> ->] ->] ->].
    now rewrite orb_true_r.
  - destruct (String.eqb k col) eqn:E.
    + apply String.eqb_eq in E. subst col. fold values. cbn [orb].
      destruct (negb (Arr.indexOf headers k =? -1)%Z);
        [|now rewrite andb_false_r].
      destruct (Nat.ltb 0 (length values)); [|now rewrite !andb_false_r].
      rewrite set_lookup, String.eqb_refl, !andb_true_r. reflexivity.
    + cbn [orb]. rewrite C.
      destruct (negb (Arr.indexOf headers col =? -1)%Z); [|reflexivity].
      match goal with |- context [Nat.ltb 0 (length ?l)] =>
        destruct (Nat.ltb 0 (length l)) end; [|reflexivity].
      rewrite set_lookup. rewrite String.eqb_sym, E. reflexivity.
Qed.

(** The loop that merges the metrics of the reply. *)
Lemma merge_loop k : forall (entries : list (string * json)) (m0 : gmap string number),
  NoDup (map fst entries) -> k <> "__proto__" ->
  fold_left (fun (finalMetrics : gmap string number) entry =>
    match entry with
    | (key, JNum value) =>
        if negb (Num.isNaN value) then JS.set finalMetrics key value
        else finalMetrics
    | _ => finalMetrics
    end) entries m0 !! k =
  match JS.assoc k entries with
  | Some (JNum value) => if Num.isNaN value then m0 !! k else Some value
  | _ => m0 !! k
  end.
Proof.
  intros entries. induction entries as [|[key j] entries IH]; intros m0 Hnd Hk;
    [reflexivity|].
  cbn [map fst] in Hnd. apply NoDup_cons in Hnd as [Hkey Hnd].
  cbn [fold_left]. rewrite (IH _ Hnd Hk). cbn [JS.assoc].
  destruct (String.eqb key k) eqn:E.
  - apply String.eqb_eq in E. subst key.
    assert (Ha : JS.assoc k entries = None).
    { clear -Hkey. induction entries as [|[key j'] entries IH]; [reflexivity|].
      cbn [JS.assoc]. cbn [map fst] in Hkey.
      destruct (String.eqb key k) eqn:E.
      - apply String.eqb_eq in E. subst. exfalso. apply Hkey. now left.
      - apply IH. intros H. apply Hkey. now right. }
    rewrite Ha. destruct j as [| | value | | |]; try reflexivity.
    destruct (Num.isNaN value); [reflexivity|]. cbn [negb].
    rewrite set_lookup, String.eqb_refl.
    apply String.eqb_neq in Hk. now rewrite Hk.
  - assert (Hm : forall v, JS.set m0 key v !! k = m0 !! k).
    { intros v. rewrite set_lookup, E. reflexivity. }
    destruct j as [| | value | | |]; try reflexivity.
    destruct (Num.isNaN value); cbn [negb]; [reflexivity|]. now rewrite Hm.
Qed.

Lemma imap_entries (headers : list string) : forall (f : nat -> nat),
  map snd (imap (fun index header => (f index, header)) headers) = headers.
Proof.
  induction headers as [|h headers IH]; intros f; [reflexivity|].
  cbn [imap map snd]. f_equal.
  exact (IH (fun index => f (S index))).
Qed.

Lemma imap_entries_In (headers : list string) index header : forall (f : nat -> nat),
  headers !! index = Some header ->
  In (f index, header) (imap (fun index header => (f index, header)) headers).
Proof.
  revert index. induction headers as [|h headers IH]; intros index f H; [discriminate|].
  cbn [imap]. destruct index as [|index].
  - injection H as ->. now left.
  - right. exact (IH index (fun index => f (S index)) H).
Qed.

(** The loop over the headers of [createFallbackAnalysis]: a property
    that is the name of no header is left as it is. *)
Lemma fallback_loop_other (rows : list (list string)) k :
  forall (entries : list (nat * string)) (m0 : gmap string number),
  ~ In k (map snd entries) ->
  fold_left (fun (keyMetrics : gmap string number) (entry : nat * string) =>
    let '(index, header) := entry in
    let values :=
      List.filter (fun v => negb (Num.eqb v Num.zero))
        (columnValues (Z.of_nat index) rows) in
    if Nat.ltb 0 (length values) && Nat.ltb (length rows) (2 * length values)
    then JS.set keyMetrics header (Num.sum values)
    else keyMetrics) entries m0 !! k = m0 !! k.
Proof.
  induction entries as [|[i h] entries IH]; intros m0 Hk; [reflexivity|].
  cbn [fold_left]. cbn [map snd] in Hk. rewrite IH by (intros H; apply Hk; now right).
  destruct (_ && _); [|reflexivity].
  rewrite set_lookup.
  destruct (String.eqb h k) eqn:E; [|reflexivity].
  apply String.eqb_eq in E. subst. exfalso. apply Hk. now left.
Qed.

Lemma fallback_loop_at (rows : list (list string)) k index :
  forall (entries : list (nat * string)) (m0 : gmap string number),
  NoDup (map snd entries) -> In (index, k) entries -> k <> "__proto__" ->
  fold_left (fun (keyMetrics : gmap string number) (entry : nat * string) =>
    let '(index, header) := entry in
    let values :=
      List.filter (fun v => negb (Num.eqb v Num.zero))
        (columnValues (Z.of_nat index) rows) in
    if Nat.ltb 0 (length values) && Nat.ltb (length rows) (2 * length values)
    then JS.set keyMetrics header (Num.sum values)
    else keyMetrics) entries m0 !! k =
  let values :=
    List.filter (fun v => negb (Num.eqb v Num.zero))
      (columnValues (Z.of_nat index) rows) in
  if Nat.ltb 0 (length values) && Nat.ltb (length rows) (2 * length values)
  then Some (Num.sum values) else m0 !! k.
Proof.
  induction entries as [|[i h] entries IH]; intros m0 Hnd Hin Hk; [destruct Hin|].
  cbn [map snd] in Hnd. apply NoDup_cons in Hnd as [Hh Hnd].
  cbn [fold_left]. destruct Hin as [[= -> ->] | Hin].
  - rewrite fallback_loop_other by (rewrite <- list_elem_of_In; exact Hh).
    cbv zeta. destruct (_ && _); [|reflexivity].
    rewrite set_lookup, String.eqb_refl.
    apply String.eqb_neq in Hk. now rewrite Hk.
  - rewrite (IH _ Hnd Hin Hk). cbv zeta.
    destruct (Nat.ltb 0 _ && Nat.ltb (length rows) _); [reflexivity|].
    destruct (_ && _); [|reflexivity].
    rewrite set_lookup.
    destruct (String.eqb h k) eqn:E; [|reflexivity].
    apply String.eqb_eq in E. subst. exfalso. apply Hh.
    apply list_elem_of_In. apply (in_map snd) in Hin. exact Hin.
Qed.

End Metrics.

(** X17. The metrics that [parseAIResponse] calculates from the table:
    a header has one exactly when it contains a metric word and its
    column, the first of that name, has a cell that reads as a number
    other than zero; the metric is the sum of those numbers.  Cells that
    are empty or are not numbers count as zero. *)
Theorem computedMetrics_lookup headers rows col :
  computedMetrics headers rows !! col =
  let values :=
    List.filter (fun v => negb (Num.eqb v Num.zero))
      (map (fun row => parseNumericValue (Arr.at_ row (Arr.indexOf headers col))) rows) in
  if Arr.includes headers col && hasKeyword metricWords col && Nat.ltb 0 (length values)
  then Some (Num.sum values) else None.
Proof.
  unfold computedMetrics. rewrite computed_loop. cbv zeta.
  rewrite includes_filter, lookup_empty.
  assert (Ev : List.filter (fun v => negb (Num.isNaN v) && negb (Num.eqb v Num.zero))
                 (columnValues (Arr.indexOf headers col) rows)
               = List.filter (fun v => negb (Num.eqb v Num.zero))
                   (map (fun row => parseNumericValue (Arr.at_ row (Arr.indexOf headers col)))
                      rows)).
  { unfold columnValues. induction rows as [|row rows IH]; [reflexivity|].
    cbn [map List.filter]. rewrite parseNumericValue_not_NaN. cbn [negb andb].
    now rewrite IH. }
  rewrite Ev.
  destruct (Arr.includes headers col) eqn:Hin; [|reflexivity].
  destruct (hasKeyword metricWords col) eqn:Hkw; [|reflexivity].
  cbn [andb].
  assert (Hp : String.eqb col "__proto__" = false).
  { destruct (String.eqb col "__proto__") eqn:E; [|reflexivity].
    apply String.eqb_eq in E. subst col. vm_compute in Hkw. discriminate. }
  rewrite Hp. cbn [negb andb].
  apply includes_In in Hin.
  pose proof (indexOf_from_found headers col 0%Z Hin ltac:(lia)) as Hi.
  fold (Arr.indexOf headers col) in Hi.
  replace (Arr.indexOf headers col =? -1)%Z with false by (symmetry; apply Z.eqb_neq; lia).
  reflexivity.
Qed.

(** X18. The metrics of a decoded reply: a key of the reply's
    [keyMetrics] whose value is a number other than NaN takes that value,
    also over a calculated metric of the same name; every other key has
    its calculated metric, if any. *)
Theorem decodeParsed_metrics_merge parsed headers rows analysisResult key :
  decodeParsed parsed headers rows = Ok analysisResult ->
  NoDup (map fst (JS.entriesOrEmpty (JS.get parsed "keyMetrics"))) ->
  key <> "__proto__" ->
  keyMetrics analysisResult !! key =
  match JS.assoc key (JS.entriesOrEmpty (JS.get parsed "keyMetrics")) with
  | Some (JNum value) =>
      if Num.isNaN value then computedMetrics headers rows !! key else Some value
  | _ => computedMetrics headers rows !! key
  end.
Proof.
  intros H Hnd Hk. unfold decodeParsed in H.
  destruct (negb (JS.isObject parsed)); [discriminate|].
  injection H as <-. cbn [keyMetrics].
  exact (merge_loop key _ (computedMetrics headers rows) Hnd Hk).
Qed.

Lemma decodeParsed_metrics_merge_witness :
  let parsed := JObj [("summary", JStr "Revenue grew.");
                      ("keyMetrics", JObj [("revenue", JNum (Num.of_Z 100));
                                           ("growth", JStr "12%")])] in
  let headers := ["channel"; "revenue"; "clicks"] in
  let rows := [["email"; "$1,200"; "30"]; ["search"; "800"; "n/a"]] in
  exists analysisResult,
    decodeParsed parsed headers rows = Ok analysisResult /\
    keyMetrics analysisResult !! "revenue" = Some (Num.of_Z 100) /\
    keyMetrics analysisResult !! "clicks" = Some (Num.of_Z 30) /\
    keyMetrics analysisResult !! "growth" = None.
Proof.
  intros parsed headers rows.
  destruct (decodeParsed parsed headers rows) as [analysisResult|] eqn:E;
    [|vm_compute in E; discriminate].
  exists analysisResult. split; [reflexivity|].
  assert (Hnd : NoDup (map fst (JS.entriesOrEmpty (JS.get parsed "keyMetrics")))).
  { apply (bool_decide_unpack _). vm_compute. exact I. }
  rewrite !(decodeParsed_metrics_merge parsed headers rows analysisResult _ E Hnd)
    by discriminate.
  repeat split; vm_compute; reflexivity.
Defined.

(** X19. The metrics of the fallback analysis, for a table with distinct
    headers: a header has the sum of its column exactly when more than
    half of the rows have, in that column, a cell that reads as a number
    other than zero; [total_rows] and [total_columns] hold the numbers of
    rows and of columns unless a header of that name takes their place;
    there is no other key. *)
Theorem createFallbackAnalysis_metrics headers rows reportType key :
  NoDup headers -> key <> "__proto__" ->
  let totals :=
    if String.eqb key "total_columns" then Some (Num.of_nat (length headers))
    else if String.eqb key "total_rows" then Some (Num.of_nat (length rows))
    else None in
  (forall index, headers !! index = Some key ->
     let values :=
       List.filter (fun v => negb (Num.eqb v Num.zero))
         (map (fun row => parseNumericValue (Arr.at_ row (Z.of_nat index))) rows) in
     keyMetrics (createFallbackAnalysis headers rows reportType) !! key =
     if Nat.ltb (length rows) (2 * length values) then Some (Num.sum values) else totals) /\
  (~ In key headers ->
     keyMetrics (createFallbackAnalysis headers rows reportType) !! key = totals).
Proof.
  intros Hnd Hk totals.
  assert (H0 : (<["total_columns" := Num.of_nat (length headers)]>
                  (<["total_rows" := Num.of_nat (length rows)]> ∅)
                : gmap string number) !! key = totals).
  { subst totals. destruct (String.eqb key "total_columns") eqn:E1.
    - apply String.eqb_eq in E1. subst. apply lookup_insert_eq.
    - apply String.eqb_neq in E1. rewrite lookup_insert_ne by congruence.
      destruct (String.eqb key "total_rows") eqn:E2.
      + apply String.eqb_eq in E2. subst. apply lookup_insert_eq.
      + apply String.eqb_neq in E2. rewrite lookup_insert_ne by congruence.
        apply lookup_empty. }
  split.
  - intros index Hi values. unfold createFallbackAnalysis. cbn [keyMetrics].
    rewrite (fallback_loop_at rows key index).
    + cbv zeta. rewrite H0.
      change (List.filter (fun v => negb (Num.eqb v Num.zero))
                (columnValues (Z.of_nat index) rows)) with values.
      destruct (Nat.ltb (length rows) (2 * length values)) eqn:L.
      * apply Nat.ltb_lt in L.
        replace (Nat.ltb 0 (length values)) with true
          by (symmetry; apply Nat.ltb_lt; lia).
        reflexivity.
      * now rewrite andb_false_r.
    + rewrite (imap_entries headers (fun index => index)). exact Hnd.
    + exact (imap_entries_In headers index key (fun index => index) Hi).
    + exact Hk.
  - intros Hn. unfold createFallbackAnalysis. cbn [keyMetrics].
    rewrite (fallback_loop_other rows key).
    + exact H0.
    + now rewrite (imap_entries headers (fun index => index)).
Qed.

Lemma createFallbackAnalysis_metrics_witness :
  let headers := ["channel"; "clicks"; "notes"] in
  let rows := [["email"; "10"; "7"]; ["search"; "25"; ""]; ["social"; "n/a"; ""]] in
  let keyMetrics := keyMetrics (createFallbackAnalysis headers rows "general") in
  keyMetrics !! "clicks" = Some (Num.of_Z 35) /\
  keyMetrics !! "notes" = None /\
  keyMetrics !! "total_rows" = Some (Num.of_Z 3).
Proof.
  intros headers rows keyMetrics.
  assert (Hnd : NoDup headers).
  { apply (bool_decide_unpack _). vm_compute. exact I. }
  split; [|split].
  - destruct (createFallbackAnalysis_metrics headers rows "general" "clicks" Hnd
                ltac:(discriminate)) as [H _].
    exact (H 1 eq_refl).
  - destruct (createFallbackAnalysis_metrics headers rows "general" "notes" Hnd
                ltac:(discriminate)) as [H _].
    exact (H 2 eq_refl).
  - destruct (createFallbackAnalysis_metrics headers rows "general" "total_rows" Hnd
                ltac:(discriminate)) as [_ H].
    apply H. simpl. intuition discriminate.
Defined.

(** ** The schedule calculator: weekly and monthly schedules, and times
       of day that are not read *)

Section Schedules.

Import DateTime.
Local Open Scope Z_scope.

Lemma eqb_of_Z a b : Num.eqb (Num.of_Z a) (Num.of_Z b) = (a =? b).
Proof.
  unfold Num.eqb, Num.of_Z, Qeq_bool, inject_Z. cbn [Qnum Qden].
  now rewrite !Z.mul_1_r.
Qed.

(** The number of days to the requested day of the week, on the 49
    pairs of days. *)
Lemma daysUntilTarget_table w d :
  0 <= w <= 6 -> 0 <= d <= 6 ->
  Num.rem (Num.add (Num.sub (Num.of_Z w) (Num.of_Z d)) (Num.of_Z 7)) (Num.of_Z 7)
  = Num.of_Z ((w - d + 7) mod 7).
Proof.
  intros Hw Hd.
  assert (Ew : w = 0 \/ w = 1 \/ w = 2 \/ w = 3 \/ w = 4 \/ w = 5 \/ w = 6) by lia.
  assert (Ed : d = 0 \/ d = 1 \/ d = 2 \/ d = 3 \/ d = 4 \/ d = 5 \/ d = 6) by lia.
  destruct Ew as [-> | [-> | [-> | [-> | [-> | [-> | ->]]]]]];
    destruct Ed as [-> | [-> | [-> | [-> | [-> | [-> | ->]]]]]];
    vm_compute; reflexivity.
Qed.

(** The local time of the instant [k] days after the clock shows
    [hour]:[minute] on the local day of [now]. *)
Lemma sameDayAt_local LocalTZA now hour minute k :
  LocalTime LocalTZA (sameDayAt LocalTZA now hour minute + k * msPerDay)
  = (Day (LocalTime LocalTZA now) + k) * msPerDay
    + (Z.of_nat hour * msPerHour + Z.of_nat minute * msPerMinute).
Proof. unfold sameDayAt, LocalTime, UTC, MakeDate. lia. Qed.

Lemma Day_MakeDate day time :
  0 <= time < msPerDay ->
  Day (day * msPerDay + time) = day /\ TimeWithinDay (day * msPerDay + time) = time.
Proof.
  intros H. unfold Day, TimeWithinDay, msPerDay in *.
  Z.to_euclidean_division_equations; lia.
Qed.

Lemma timeOfDay_range (hour minute : nat) :
  (hour < 24)%nat -> (minute < 60)%nat ->
  0 <= Z.of_nat hour * msPerHour + Z.of_nat minute * msPerMinute < msPerDay.
Proof. intros Hh Hm. unfold msPerHour, msPerMinute, msPerDay. lia. Qed.

End Schedules.

(** X20. On a host whose zone keeps one offset from UTC all year
    ([LocalTZA], no daylight saving), for the weekly frequency with a day
    of the week from 0 to 6, [calculateNextRun] returns the first instant
    strictly after the reference instant at which the clock of the host
    shows the given time on the given day of the week: it is at most 7
    days away, and the clock shows that time on that day at no instant in
    between.  A zone with daylight saving is outside this statement. *)
Theorem calculateNextRun_weekly_next
    (LocalTZA now : Z) (hour minute : nat) (dayOfWeek : Z) dayOfMonth timezone :
  (hour < 24)%nat -> (minute < 60)%nat -> (0 <= dayOfWeek <= 6)%Z ->
  (Z.abs now <= 8640000000000000 - 8 * DateTime.msPerDay)%Z ->
  exists next,
    calculateNextRun LocalTZA now "weekly" (timeText hour minute)
      (Some (Num.of_Z dayOfWeek)) dayOfMonth timezone = Some next /\
    (now < next <= now + 7 * DateTime.msPerDay)%Z /\
    DateTime.WeekDay (LocalTime LocalTZA next) = dayOfWeek /\
    DateTime.TimeWithinDay (LocalTime LocalTZA next)
    = (Z.of_nat hour * DateTime.msPerHour + Z.of_nat minute * DateTime.msPerMinute)%Z /\
    forall t, (now < t < next)%Z ->
      ~ (DateTime.WeekDay (LocalTime LocalTZA t) = dayOfWeek /\
         DateTime.TimeWithinDay (LocalTime LocalTZA t)
         = (Z.of_nat hour * DateTime.msPerHour + Z.of_nat minute * DateTime.msPerMinute)%Z).
Proof.
  intros Hh Hm Hw Hnow.
  assert (Hfirst : forall next,
            (now < next <= now + 7 * DateTime.msPerDay)%Z ->
            DateTime.WeekDay (LocalTime LocalTZA next) = dayOfWeek ->
            DateTime.TimeWithinDay (LocalTime LocalTZA next)
            = (Z.of_nat hour * DateTime.msPerHour
               + Z.of_nat minute * DateTime.msPerMinute)%Z ->
            forall t, (now < t < next)%Z ->
              ~ (DateTime.WeekDay (LocalTime LocalTZA t) = dayOfWeek /\
                 DateTime.TimeWithinDay (LocalTime LocalTZA t)
                 = (Z.of_nat hour * DateTime.msPerHour
                    + Z.of_nat minute * DateTime.msPerMinute)%Z)).
  { intros next Hb Hd Ht t Hlt [Hd' Ht']. rewrite <- Hd in Hd'. rewrite <- Ht in Ht'.
    unfold DateTime.WeekDay, DateTime.TimeWithinDay, DateTime.Day, LocalTime,
      DateTime.msPerDay in *.
    Z.to_euclidean_division_equations; lia. }
  assert (Hgoal : exists next,
    calculateNextRun LocalTZA now "weekly" (timeText hour minute)
      (Some (Num.of_Z dayOfWeek)) dayOfMonth timezone = Some next /\
    (now < next <= now + 7 * DateTime.msPerDay)%Z /\
    DateTime.WeekDay (LocalTime LocalTZA next) = dayOfWeek /\
    DateTime.TimeWithinDay (LocalTime LocalTZA next)
    = (Z.of_nat hour * DateTime.msPerHour + Z.of_nat minute * DateTime.msPerMinute)%Z);
    [|destruct Hgoal as (next & E & Hb & Hd & Ht); exists next;
      repeat split; try assumption; try apply Hb; now apply Hfirst].
  unfold calculateNextRun.
  rewrite (hoursMinutes_timeText hour minute Hh Hm).
  rewrite (setHours_timeOfDay LocalTZA now hour minute Hh Hm)
    by (unfold DateTime.msPerDay in *; lia).
  change (String.eqb "weekly" "daily") with false.
  change (String.eqb "weekly" "weekly") with true. cbv iota.
  set (today := sameDayAt LocalTZA now hour minute).
  pose proof (sameDayAt_near LocalTZA now hour minute Hh Hm) as Hnear. fold today in Hnear.
  pose proof (timeOfDay_range hour minute Hh Hm) as Hr.
  pose proof (sameDayAt_local LocalTZA now hour minute) as Hl. fold today in Hl.
  set (D := DateTime.Day (LocalTime LocalTZA now)) in *.
  assert (Hd : (0 <= DateTime.WeekDay (LocalTime LocalTZA today) <= 6)%Z).
  { unfold DateTime.WeekDay. Z.to_euclidean_division_equations; lia. }
  assert (Ed : DateTime.WeekDay (LocalTime LocalTZA today) = ((D + 4) mod 7)%Z).
  { pose proof (Hl 0%Z) as H0. rewrite Z.mul_0_l, !Z.add_0_r in H0.
    unfold DateTime.WeekDay. rewrite H0.
    now rewrite (proj1 (Day_MakeDate D _ Hr)). }
  unfold getDay.
  rewrite (daysUntilTarget_table dayOfWeek _ Hw Hd).
  set (k := ((dayOfWeek - DateTime.WeekDay (LocalTime LocalTZA today) + 7) mod 7)%Z).
  assert (Hk : (0 <= k <= 6)%Z) by (subst k; Z.to_euclidean_division_equations; lia).
  unfold Num.zero. rewrite eqb_of_Z. unfold dateLe.
  assert (Hres : forall j : Z,
             (now < today + j * DateTime.msPerDay <= now + 7 * DateTime.msPerDay)%Z ->
             ((D + j + 4) mod 7 = dayOfWeek)%Z ->
             exists next,
               DateTime.TimeClip (today + j * DateTime.msPerDay) = Some next /\
               (now < next <= now + 7 * DateTime.msPerDay)%Z /\
               DateTime.WeekDay (LocalTime LocalTZA next) = dayOfWeek /\
               DateTime.TimeWithinDay (LocalTime LocalTZA next)
               = (Z.of_nat hour * DateTime.msPerHour
                  + Z.of_nat minute * DateTime.msPerMinute)%Z).
  { intros j Hj Hwd. exists (today + j * DateTime.msPerDay)%Z.
    split; [apply TimeClip_in_range; unfold DateTime.msPerDay in *; lia|].
    split; [exact Hj|]. rewrite Hl.
    destruct (Day_MakeDate (D + j) _ Hr) as [E1 E2].
    unfold DateTime.WeekDay. rewrite E1, E2. split; [exact Hwd | reflexivity]. }
  destruct ((k =? 0)%Z && (today <=? now)%Z) eqn:C.
  - apply andb_true_iff in C as [C1 C2].
    apply Z.eqb_eq in C1. apply Z.leb_le in C2.
    rewrite setDate_getDate. apply Hres.
    + unfold DateTime.msPerDay in *. lia.
    + subst k. rewrite Ed in C1. Z.to_euclidean_division_equations; lia.
  - rewrite setDate_getDate. apply Hres.
    + apply andb_false_iff in C.
      destruct C as [C | C]; [apply Z.eqb_neq in C | apply Z.leb_gt in C];
        unfold DateTime.msPerDay in *; lia.
    + subst k. rewrite Ed. Z.to_euclidean_division_equations; lia.
Qed.

Lemma calculateNextRun_weekly_next_witness :
  exists next,
    calculateNextRun 19800000 (DateTime.utc 2024 1 1 10 0) "weekly" "09:00"
      (Some (Num.of_Z 1)) None (Some "Asia/Kolkata") = Some next /\
    (DateTime.utc 2024 1 1 10 0 < next <= DateTime.utc 2024 1 8 10 0)%Z /\
    DateTime.WeekDay (LocalTime 19800000 next) = 1%Z.
Proof.
  destruct (calculateNextRun_weekly_next 19800000 (DateTime.utc 2024 1 1 10 0) 9 0 1
              None (Some "Asia/Kolkata")) as (next & E & Hb & Hw & _).
  - lia.
  - lia.
  - lia.
  - vm_compute. discriminate.
  - exists next. split; [exact E|]. split; [exact Hb | exact Hw].
Defined.
Section CalendarRoundTrip.

Import DateTime.
Local Open Scope Z_scope.

Lemma YearFromDay_unique y d :
  DayFromYear y <= d < DayFromYear (y + 1) -> YearFromDay d = y.
Proof.
  intros H. pose proof (YearFromDay_spec d) as S.
  set (y' := YearFromDay d) in *. clearbody y'.
  unfold DayFromYear in *. Z.to_euclidean_division_equations; lia.
Qed.

Lemma DayWithinYear_range t :
  0 <= DayWithinYear t < (if InLeapYear (YearFromTime t) then 366 else 365).
Proof.
  unfold DayWithinYear, YearFromTime.
  pose proof (YearFromDay_spec (Day t)) as S.
  pose proof (DayFromYear_step (YearFromDay (Day t))) as St.
  destruct (InLeapYear _); lia.
Qed.

Ltac month_cases :=
  repeat match goal with
  | |- context [if (?a <? ?b) then _ else _] =>
      let L := fresh "L" in
      destruct (a <? b) eqn:L;
      [apply Z.ltb_lt in L | apply Z.ltb_ge in L]; cbn
  end.

Lemma DateFromTime_range t :
  1 <= DateFromTime t <= daysInMonth (MonthFromTime t) (InLeapYear (YearFromTime t)).
Proof.
  pose proof (DayWithinYear_range t) as R.
  unfold DateFromTime, MonthFromTime.
  set (d := DayWithinYear t) in *. clearbody d.
  destruct (InLeapYear (YearFromTime t)); cbn; month_cases; lia.
Qed.

Lemma calendar_round_trip y m dt tod :
  0 <= m <= 11 -> 1 <= dt <= daysInMonth m (InLeapYear y) -> 0 <= tod < msPerDay ->
  let t := (DayFromYear y + monthStart m (InLeapYear y) + dt - 1) * msPerDay + tod in
  YearFromTime t = y /\ MonthFromTime t = m /\ DateFromTime t = dt.
Proof.
  intros Hm Hdt Htod t.
  destruct (Day_MakeDate (DayFromYear y + monthStart m (InLeapYear y) + dt - 1) tod Htod)
    as [Ed _]. fold t in Ed.
  pose proof (DayFromYear_step y) as St.
  assert (Em : m = 0 \/ m = 1 \/ m = 2 \/ m = 3 \/ m = 4 \/ m = 5 \/ m = 6 \/ m = 7 \/
               m = 8 \/ m = 9 \/ m = 10 \/ m = 11) by lia.
  assert (Ey : YearFromTime t = y).
  { unfold YearFromTime. rewrite Ed. apply YearFromDay_unique.
    destruct (InLeapYear y);
      repeat (destruct Em as [-> | Em]; [cbn in *; lia|]); subst m; cbn in *; lia. }
  assert (Ew : DayWithinYear t = monthStart m (InLeapYear y) + dt - 1).
  { unfold DayWithinYear. rewrite Ey, Ed. lia. }
  split; [exact Ey|].
  unfold DateFromTime, MonthFromTime. rewrite Ew, Ey.
  destruct (InLeapYear y);
    repeat (destruct Em as [-> | Em]; [cbn in *; month_cases; lia|]);
    subst m; cbn in *; month_cases; lia.
Qed.

End CalendarRoundTrip.
Section MonthlySchedule.

Import DateTime.
Local Open Scope Z_scope.

Lemma daysInMonth_bounds m leap : 28 <= daysInMonth m leap <= 31.
Proof.
  unfold daysInMonth.
  destruct (m =? 1); [destruct leap; lia|]. destruct (_ || _); lia.
Qed.

(** The first day of the month after month [m] of year [y]. *)
Lemma next_month_start y m :
  0 <= m <= 11 ->
  DayFromYear (y + (m + 1) / 12)
  + monthStart ((m + 1) mod 12) (InLeapYear (y + (m + 1) / 12))
  = DayFromYear y + monthStart m (InLeapYear y) + daysInMonth m (InLeapYear y).
Proof.
  intros Hm.
  assert (Em : m = 0 \/ m = 1 \/ m = 2 \/ m = 3 \/ m = 4 \/ m = 5 \/ m = 6 \/ m = 7 \/
               m = 8 \/ m = 9 \/ m = 10 \/ m = 11) by lia.
  pose proof (DayFromYear_step y) as St.
  assert (Hcase : forall k q r,
            m = k -> (k + 1) / 12 = q -> (k + 1) mod 12 = r ->
            DayFromYear (y + q) + monthStart r (InLeapYear (y + q))
            = DayFromYear y + monthStart k (InLeapYear y) + daysInMonth k (InLeapYear y) ->
            DayFromYear (y + (m + 1) / 12)
            + monthStart ((m + 1) mod 12) (InLeapYear (y + (m + 1) / 12))
            = DayFromYear y + monthStart m (InLeapYear y) + daysInMonth m (InLeapYear y)).
  { intros k q r -> <- <-. trivial. }
  destruct Em as [E | [E | [E | [E | [E | [E | [E | [E | [E | [E | [E | E]]]]]]]]]]];
    (eapply (Hcase _ _ _ E);
     [vm_compute; reflexivity | vm_compute; reflexivity |
      rewrite ?Z.add_0_r; destruct (InLeapYear y); cbn in *; lia]).
Qed.

Lemma setDate_of_Z LocalTZA t dt :
  let t' := LocalTime LocalTZA t in
  setDate LocalTZA (Some t) (Num.of_Z dt)
  = TimeClip (UTC LocalTZA
      (MakeDate (DayFromYear (YearFromTime t')
                 + monthStart (MonthFromTime t') (InLeapYear (YearFromTime t')) + dt - 1)
         (TimeWithinDay t'))).
Proof.
  intros t'. unfold setDate, MakeDay. rewrite !toInteger_of_Z. fold t'.
  pose proof (MonthFromTime_range t') as Hm.
  rewrite (Z.div_small (MonthFromTime t') 12), (Z.mod_small (MonthFromTime t') 12) by lia.
  now rewrite Z.add_0_r.
Qed.

Lemma setMonth_of_Z LocalTZA t m :
  let t' := LocalTime LocalTZA t in
  setMonth LocalTZA (Some t) (Num.of_Z m)
  = TimeClip (UTC LocalTZA
      (MakeDate (DayFromYear (YearFromTime t' + m / 12)
                 + monthStart (m mod 12) (InLeapYear (YearFromTime t' + m / 12))
                 + DateFromTime t' - 1)
         (TimeWithinDay t'))).
Proof.
  intros t'. unfold setMonth, MakeDay. rewrite !toInteger_of_Z. reflexivity.
Qed.

End MonthlySchedule.

(** X21. On a host whose zone keeps one offset from UTC all year
    ([LocalTZA], no daylight saving), for the monthly frequency with a
    day of the month from 1 to 28, [calculateNextRun] returns an instant
    strictly after the reference instant and at most 31 days away, at
    which the clock of the host shows the given time on the given day of
    the month.  A zone with daylight saving is outside this statement. *)
Theorem calculateNextRun_monthly_next
    (LocalTZA now : Z) (hour minute : nat) dayOfWeek (dayOfMonth : Z) timezone :
  (hour < 24)%nat -> (minute < 60)%nat -> (1 <= dayOfMonth <= 28)%Z ->
  (Z.abs now <= 8640000000000000 - 64 * DateTime.msPerDay)%Z ->
  exists next,
    calculateNextRun LocalTZA now "monthly" (timeText hour minute)
      dayOfWeek (Some (Num.of_Z dayOfMonth)) timezone = Some next /\
    (now < next <= now + 31 * DateTime.msPerDay)%Z /\
    DateTime.DateFromTime (LocalTime LocalTZA next) = dayOfMonth /\
    DateTime.TimeWithinDay (LocalTime LocalTZA next)
    = (Z.of_nat hour * DateTime.msPerHour + Z.of_nat minute * DateTime.msPerMinute)%Z.
Proof.
  intros Hh Hm Hdom Hnow.
  unfold calculateNextRun.
  rewrite (hoursMinutes_timeText hour minute Hh Hm).
  rewrite (setHours_timeOfDay LocalTZA now hour minute Hh Hm)
    by (unfold DateTime.msPerDay in *; lia).
  change (String.eqb "monthly" "daily") with false.
  change (String.eqb "monthly" "weekly") with false.
  change (String.eqb "monthly" "monthly") with true. cbv iota.
  set (today := sameDayAt LocalTZA now hour minute).
  pose proof (sameDayAt_near LocalTZA now hour minute Hh Hm) as Hnear. fold today in Hnear.
  pose proof (timeOfDay_range hour minute Hh Hm) as Hr.
  set (tod := (Z.of_nat hour * DateTime.msPerHour
               + Z.of_nat minute * DateTime.msPerMinute)%Z) in *.
  set (D := DateTime.Day (LocalTime LocalTZA now)).
  (* the instant at which the clock shows the time of day on day [d] *)
  set (at_day := fun d : Z => UTC LocalTZA (DateTime.MakeDate d tod)).
  assert (Hloc : forall d, LocalTime LocalTZA (at_day d) = (d * DateTime.msPerDay + tod)%Z).
  { intros d. unfold at_day, LocalTime, UTC, DateTime.MakeDate. lia. }
  assert (Hat : forall d k, at_day (d + k)%Z = (at_day d + k * DateTime.msPerDay)%Z).
  { intros d k. unfold at_day, UTC, DateTime.MakeDate. lia. }
  assert (Et : today = at_day D) by reflexivity.
  pose proof (Hloc D) as Hl0. rewrite <- Et in Hl0.
  destruct (Day_MakeDate D tod Hr) as [EDay ETime]. rewrite <- Hl0 in EDay, ETime.
  set (t0 := LocalTime LocalTZA today) in *.
  set (Y := DateTime.YearFromTime t0).
  set (M := DateTime.MonthFromTime t0).
  set (cur := DateTime.DateFromTime t0).
  pose proof (MonthFromTime_range t0) as HM. fold M in HM.
  pose proof (DateFromTime_range t0) as Hcur. fold cur M Y in Hcur.
  pose proof (daysInMonth_bounds M (DateTime.InLeapYear Y)) as Hdim.
  set (dim := daysInMonth M (DateTime.InLeapYear Y)) in *.
  set (first := (DateTime.DayFromYear Y
                 + DateTime.monthStart M (DateTime.InLeapYear Y))%Z).
  assert (HD : D = (first + cur - 1)%Z).
  { subst cur first. unfold DateTime.DateFromTime, DateTime.DayWithinYear.
    fold Y M. rewrite EDay. lia. }
  (* the first [setDate] *)
  rewrite setDate_of_Z. fold t0 Y M first. rewrite ETime.
  change (UTC LocalTZA (DateTime.MakeDate (first + dayOfMonth - 1) tod))
    with (at_day (first + dayOfMonth - 1)%Z).
  assert (E1 : at_day (first + dayOfMonth - 1)%Z
               = (today + (dayOfMonth - cur) * DateTime.msPerDay)%Z).
  { rewrite Et, <- Hat. f_equal. lia. }
  set (r1 := at_day (first + dayOfMonth - 1)%Z) in *.
  rewrite (TimeClip_in_range r1) by (unfold DateTime.msPerDay in *; lia).
  destruct (calendar_round_trip Y M dayOfMonth tod HM ltac:(fold dim; lia) Hr)
    as (Hy1 & Hm1 & Hd1).
  fold first in Hy1, Hm1, Hd1. rewrite <- (Hloc (first + dayOfMonth - 1)%Z) in Hy1, Hm1, Hd1.
  fold r1 in Hy1, Hm1, Hd1.
  assert (Ht1 : DateTime.TimeWithinDay (LocalTime LocalTZA r1) = tod).
  { unfold r1. rewrite Hloc. apply Day_MakeDate. exact Hr. }
  unfold dateLe at 1.
  destruct (r1 <=? now)%Z eqn:Le.
  - apply Z.leb_le in Le.
    (* [setMonth] to the next month, and the second [setDate] *)
    unfold getMonth. rewrite Hm1, add_of_Z, setMonth_of_Z.
    rewrite Hy1, Hd1, Ht1.
    pose proof (next_month_start Y M HM) as Hnext. fold first dim in Hnext.
    set (Y' := (Y + (M + 1) / 12)%Z) in *.
    set (M' := ((M + 1) mod 12)%Z) in *.
    set (first' := (DateTime.DayFromYear Y'
                    + DateTime.monthStart M' (DateTime.InLeapYear Y'))%Z) in *.
    change (UTC LocalTZA (DateTime.MakeDate (first' + dayOfMonth - 1) tod))
      with (at_day (first' + dayOfMonth - 1)%Z).
    assert (E2 : at_day (first' + dayOfMonth - 1)%Z
                 = (r1 + dim * DateTime.msPerDay)%Z).
    { unfold r1. rewrite <- Hat. f_equal. lia. }
    set (r2 := at_day (first' + dayOfMonth - 1)%Z) in *.
    rewrite (TimeClip_in_range r2) by (unfold DateTime.msPerDay in *; lia).
    assert (HM' : (0 <= M' <= 11)%Z) by (subst M'; Z.to_euclidean_division_equations; lia).
    pose proof (daysInMonth_bounds M' (DateTime.InLeapYear Y')) as Hdim'.
    destruct (calendar_round_trip Y' M' dayOfMonth tod HM' ltac:(lia) Hr)
      as (Hy2 & Hm2 & Hd2).
    fold first' in Hy2, Hm2, Hd2.
    rewrite <- (Hloc (first' + dayOfMonth - 1)%Z) in Hy2, Hm2, Hd2.
    fold r2 in Hy2, Hm2, Hd2.
    assert (Ht2 : DateTime.TimeWithinDay (LocalTime LocalTZA r2) = tod).
    { unfold r2. rewrite Hloc. apply Day_MakeDate. exact Hr. }
    rewrite setDate_of_Z. rewrite Hy2, Hm2, Ht2. fold first'.
    change (UTC LocalTZA (DateTime.MakeDate (first' + dayOfMonth - 1) tod)) with r2.
    rewrite (TimeClip_in_range r2) by (unfold DateTime.msPerDay in *; lia).
    exists r2. split; [reflexivity|]. split; [|split; assumption].
    unfold DateTime.msPerDay in *. nia.
  - apply Z.leb_gt in Le.
    exists r1. split; [reflexivity|]. split; [|split; assumption].
    unfold DateTime.msPerDay in *. lia.
Qed.

Lemma calculateNextRun_monthly_next_witness :
  exists next,
    calculateNextRun 19800000 (DateTime.utc 2024 1 15 10 0) "monthly" "09:00"
      None (Some (Num.of_Z 15)) (Some "Asia/Kolkata") = Some next /\
    (DateTime.utc 2024 1 15 10 0 < next <= DateTime.utc 2024 2 15 10 0)%Z /\
    DateTime.DateFromTime (LocalTime 19800000 next) = 15%Z.
Proof.
  destruct (calculateNextRun_monthly_next 19800000 (DateTime.utc 2024 1 15 10 0) 9 0
              None 15 (Some "Asia/Kolkata")) as (next & E & Hb & Hd & _).
  - lia.
  - lia.
  - lia.
  - vm_compute. discriminate.
  - exists next. split; [exact E|]. split; [exact Hb | exact Hd].
Defined.
Section TimesOfDay.

Import DateTime.
Local Open Scope Z_scope.

(** Splitting at a separator that the text does not hold gives the text
    in one piece. *)
Lemma split_go_plain sep s : forall current,
  hasChar sep s = false -> Str.split_go sep current s = [current +:+ s].
Proof.
  induction s as [|c s IH]; intros current H.
  - now rewrite append_empty_r.
  - simpl in H. apply orb_false_iff in H as [Hc Hs]. simpl. rewrite Hc.
    rewrite (IH _ Hs). now rewrite append_assoc.
Qed.

Lemma setHours_invalid LocalTZA d hour min sec ms :
  Num.toInteger hour = None \/ Num.toInteger min = None ->
  setHours LocalTZA d hour min sec ms = None.
Proof.
  intros H. unfold setHours, MakeTime. destruct d as [t|]; [|reflexivity].
  destruct H as [-> | H]; [reflexivity|]. rewrite H.
  now destruct (Num.toInteger hour).
Qed.

End TimesOfDay.

(** X22. A time of day that has no colon, or whose hour or minute is not
    read as a finite number, makes the next run an invalid date, for
    every frequency, day of the week and day of the month. *)
Theorem calculateNextRun_invalid_time
    (LocalTZA now : Z) frequency timeOfDay dayOfWeek dayOfMonth timezone :
  hasChar ":" timeOfDay = false \/
  Num.toInteger (fst (hoursMinutes timeOfDay)) = None \/
  Num.toInteger (snd (hoursMinutes timeOfDay)) = None ->
  calculateNextRun LocalTZA now frequency timeOfDay dayOfWeek dayOfMonth timezone = None.
Proof.
  intros H.
  assert (H' : Num.toInteger (fst (hoursMinutes timeOfDay)) = None \/
               Num.toInteger (snd (hoursMinutes timeOfDay)) = None).
  { destruct H as [H | H]; [|exact H]. right.
    unfold hoursMinutes, Str.split. now rewrite (split_go_plain _ _ _ H). }
  clear H. unfold calculateNextRun.
  destruct (hoursMinutes timeOfDay) as [hours minutes]. cbn [fst snd] in H'.
  rewrite (setHours_invalid LocalTZA (Some now) hours minutes _ _ H').
  destruct (String.eqb frequency "daily"); [reflexivity|].
  destruct (String.eqb frequency "weekly").
  - destruct dayOfWeek as [[| |]|]; reflexivity.
  - destruct (String.eqb frequency "monthly"); [|reflexivity].
    destruct dayOfMonth; reflexivity.
Qed.

Lemma calculateNextRun_invalid_time_witness :
  calculateNextRun 0 (DateTime.utc 2024 1 1 10 0) "weekly" "0900"
    (Some (Num.of_Z 1)) None None = None /\
  calculateNextRun 0 (DateTime.utc 2024 1 1 10 0) "monthly" "9:xx"
    None (Some (Num.of_Z 15)) None = None.
Proof.
  split.
  - apply calculateNextRun_invalid_time. left. reflexivity.
  - apply calculateNextRun_invalid_time. right. right. reflexivity.
Defined.

(** X23. On a host whose zone keeps one offset from UTC all year
    ([LocalTZA], no daylight saving), for a frequency other than daily,
    weekly and monthly, the next run is the local day of the reference
    instant at the given time: it is not moved forward, and is not after
    the reference instant once the clock of the host has reached that
    time.  A zone with daylight saving is outside this statement. *)
Theorem calculateNextRun_not_advanced
    (LocalTZA now : Z) frequency (hour minute : nat) dayOfWeek dayOfMonth timezone :
  (hour < 24)%nat -> (minute < 60)%nat ->
  (Z.abs now <= 8640000000000000 - 2 * DateTime.msPerDay)%Z ->
  frequency <> "daily" -> frequency <> "weekly" -> frequency <> "monthly" ->
  let next := sameDayAt LocalTZA now hour minute in
  calculateNextRun LocalTZA now frequency (timeText hour minute)
    dayOfWeek dayOfMonth timezone = Some next /\
  ((next <= now)%Z <->
   (Z.of_nat hour * DateTime.msPerHour + Z.of_nat minute * DateTime.msPerMinute
    <= DateTime.TimeWithinDay (LocalTime LocalTZA now))%Z).
Proof.
  intros Hh Hm Hnow Hd Hw Hmo next. split.
  - unfold calculateNextRun.
    rewrite (hoursMinutes_timeText hour minute Hh Hm).
    rewrite (setHours_timeOfDay LocalTZA now hour minute Hh Hm Hnow).
    apply String.eqb_neq in Hd, Hw, Hmo. now rewrite Hd, Hw, Hmo.
  - subst next.
    unfold sameDayAt, UTC, LocalTime, DateTime.MakeDate, DateTime.Day,
      DateTime.TimeWithinDay, DateTime.msPerDay.
    Z.to_euclidean_division_equations; lia.
Qed.

Lemma calculateNextRun_not_advanced_witness :
  calculateNextRun 19800000 (DateTime.utc 2024 1 1 10 0) "hourly" "09:00"
    (Some (Num.of_Z 1)) None (Some "Asia/Kolkata")
  = Some (DateTime.utc 2024 1 1 3 30) /\
  (DateTime.utc 2024 1 1 3 30 <= DateTime.utc 2024 1 1 10 0)%Z.
Proof.
  destruct (calculateNextRun_not_advanced 19800000 (DateTime.utc 2024 1 1 10 0) "hourly"
              9 0 (Some (Num.of_Z 1)) None (Some "Asia/Kolkata")) as [E H].
  - lia.
  - lia.
  - vm_compute. discriminate.
  - discriminate.
  - discriminate.
  - discriminate.
  - split; [exact E|]. apply H. vm_compute. discriminate.
Defined.

(** ** The comparison of two analyses *)

Section Comparison.

Lemma filter_snoc {A} (p : A -> bool) xs x :
  List.filter p (xs ++ [x]) = List.filter p xs ++ (if p x then [x] else []).
Proof.
  induction xs as [|y xs IH]; [simpl; now destruct (p x)|].
  simpl. rewrite IH. now destruct (p y).
Qed.

Lemma count_snoc {A} (p : A -> bool) xs x :
  length (List.filter p (xs ++ [x]))
  = (length (List.filter p xs) + (if p x then 1 else 0))%nat.
Proof. rewrite filter_snoc, length_app. now destruct (p x). Qed.

Lemma compareMetric_tallied current previous tally entry :
  In entry current -> tallied current previous tally ->
  tallied current previous (compareMetric previous tally entry) /\
  (length (tallyInsights (compareMetric previous tally entry))
   <= S (length (tallyInsights tally)))%nat.
Proof.
  intros Hin (Hs & Hi & Hd & Hall). destruct entry as [name value].
  assert (Hskip : tallied current previous tally /\
                  (length (tallyInsights tally) <= S (length (tallyInsights tally)))%nat).
  { split; [repeat split; assumption | lia]. }
  unfold compareMetric.
  destruct value as [cur|]; [|exact Hskip].
  destruct (member name previous) as [prev|] eqn:Hp; [|exact Hskip].
  destruct (PrimFloat.eqb prev 0%float) eqn:Hz; [exact Hskip|].
  cbn [negb]. clear Hskip.
  set (percent := PrimFloat.mul (PrimFloat.div (PrimFloat.sub cur prev) prev) 100%float).
  split.
  - unfold tallied.
    destruct (PrimFloat.ltb 20%float (PrimFloat.abs percent));
      [|destruct (PrimFloat.ltb 10%float (PrimFloat.abs percent))];
      (destruct (PrimFloat.ltb 5%float percent);
       [|destruct (PrimFloat.ltb percent (-5)%float)]);
      cbn [tallyInsights tallySignificant tallyImprovement tallyDecline];
      rewrite !count_snoc, ?Hs, ?Hi, ?Hd; unfold isHigh, isUp, isDown;
      cbn [significance trend];
      (repeat split; [lia | lia | lia |]);
      (apply Forall_app; split; [exact Hall|]);
      (constructor; [|constructor]); cbn [metric currentValue previousValue];
      repeat split; assumption.
  - destruct (PrimFloat.ltb 20%float (PrimFloat.abs percent));
      [|destruct (PrimFloat.ltb 10%float (PrimFloat.abs percent))];
      (destruct (PrimFloat.ltb 5%float percent);
       [|destruct (PrimFloat.ltb percent (-5)%float)]);
      cbn [tallyInsights]; rewrite length_app; simpl; lia.
Qed.

Lemma compareMetric_loop current previous : forall entries tally,
  incl entries current -> tallied current previous tally ->
  tallied current previous (fold_left (compareMetric previous) entries tally) /\
  (length (tallyInsights (fold_left (compareMetric previous) entries tally))
   <= length (tallyInsights tally) + length entries)%nat.
Proof.
  induction entries as [|entry entries IH]; intros tally Hincl Ht.
  - split; [exact Ht | simpl; lia].
  - cbn [fold_left].
    destruct (compareMetric_tallied current previous tally entry
                (Hincl entry (or_introl eq_refl)) Ht) as [Ht' Hl'].
    destruct (IH _ (fun e He => Hincl e (or_intror He)) Ht') as [Hf Hlf].
    split; [exact Hf | simpl; lia].
Qed.

Lemma up_down_disjoint insights :
  (length (List.filter isUp insights) + length (List.filter isDown insights)
   <= length insights)%nat.
Proof.
  induction insights as [|insight insights IH]; [simpl; lia|].
  simpl. unfold isUp at 1, isDown at 1.
  destruct (trend insight); simpl; lia.
Qed.

(** One turn of the loop adds no insight, or one insight for the entry
    it reads. *)
Lemma compareMetric_step previous tally entry :
  exists added,
    tallyInsights (compareMetric previous tally entry) = tallyInsights tally ++ added /\
    (added = [] \/
     exists insight,
       added = [insight] /\ (metric insight, MNumber (currentValue insight)) = entry).
Proof.
  destruct entry as [name value].
  assert (Hskip : exists added,
            tallyInsights tally = tallyInsights tally ++ added /\
            (added = [] \/
             exists insight,
               added = [insight] /\
               (metric insight, MNumber (currentValue insight)) = (name, value))).
  { exists []. split; [now rewrite app_nil_r | now left]. }
  unfold compareMetric.
  destruct value as [cur|]; [|exact Hskip].
  destruct (member name previous) as [prev|]; [|exact Hskip].
  destruct (PrimFloat.eqb prev 0%float); [exact Hskip|].
  cbn [negb]. clear Hskip.
  set (percent := PrimFloat.mul (PrimFloat.div (PrimFloat.sub cur prev) prev) 100%float).
  destruct (PrimFloat.ltb 20%float (PrimFloat.abs percent));
    [|destruct (PrimFloat.ltb 10%float (PrimFloat.abs percent))];
    (destruct (PrimFloat.ltb 5%float percent);
     [|destruct (PrimFloat.ltb percent (-5)%float)]);
    cbn [tallyInsights]; eexists; (split; [reflexivity|]); right; eexists;
    (split; [reflexivity|]); reflexivity.
Qed.

(** The insights added by the loop follow the entries it reads: at most
    one for each entry, in their order. *)
Lemma compareMetric_entries previous : forall entries tally,
  exists added,
    tallyInsights (fold_left (compareMetric previous) entries tally)
    = tallyInsights tally ++ added /\
    map (fun insight => (metric insight, MNumber (currentValue insight))) added
    `sublist_of` entries.
Proof.
  induction entries as [|entry entries IH]; intros tally.
  - exists []. split; [now rewrite app_nil_r | constructor].
  - cbn [fold_left].
    destruct (compareMetric_step previous tally entry) as (one & E1 & Hone).
    destruct (IH (compareMetric previous tally entry)) as (rest & E2 & Hrest).
    exists (one ++ rest). split.
    + rewrite E2, E1. now rewrite <- app_assoc.
    + destruct Hone as [-> | (insight & -> & <-)].
      * now apply sublist_cons.
      * cbn [app map]. now apply sublist_skip.
Qed.

End Comparison.

(** X24. The counters returned by [generateComparisonData] count its
    insights: the significant changes are the insights of high
    significance, the improvement areas those trending up and the decline
    areas those trending down.  The insights follow the entries of the
    metrics of the current analysis, at most one for each entry and in
    their order, so that no metric has two insights when no name occurs
    twice; each compares the number of its entry with a number other than
    zero that the previous analysis has under the same name. *)
Theorem generateComparisonData_counters currentAnalysis previousAnalysis :
  let comparison := generateComparisonData currentAnalysis previousAnalysis in
  let currentMetrics := default [] (key_metrics currentAnalysis) in
  let previousMetrics := default [] (key_metrics previousAnalysis) in
  significantChanges comparison
  = length (List.filter isHigh (comparisonInsights comparison)) /\
  improvementAreas comparison
  = length (List.filter isUp (comparisonInsights comparison)) /\
  declineAreas comparison
  = length (List.filter isDown (comparisonInsights comparison)) /\
  (improvementAreas comparison + declineAreas comparison
   <= length (comparisonInsights comparison) <= length currentMetrics)%nat /\
  Forall (fun insight =>
    In (metric insight, MNumber (currentValue insight)) currentMetrics /\
    member (metric insight) previousMetrics = MNumber (previousValue insight) /\
    PrimFloat.eqb (previousValue insight) 0%float = false)
    (comparisonInsights comparison) /\
  map (fun insight => (metric insight, MNumber (currentValue insight)))
    (comparisonInsights comparison) `sublist_of` currentMetrics /\
  (NoDup (map fst currentMetrics) ->
   NoDup (map metric (comparisonInsights comparison))).
Proof.
  intros comparison currentMetrics previousMetrics.
  assert (Hsub : map (fun insight => (metric insight, MNumber (currentValue insight)))
                   (comparisonInsights comparison) `sublist_of` currentMetrics).
  { destruct (compareMetric_entries previousMetrics currentMetrics (mkTally [] 0 0 0))
      as (added & E & Hadded).
    subst comparison. unfold generateComparisonData.
    fold currentMetrics previousMetrics. cbn [comparisonInsights].
    rewrite E. exact Hadded. }
  assert (Hnd : NoDup (map fst currentMetrics) ->
                NoDup (map metric (comparisonInsights comparison))).
  { intros Hnd. eapply sublist_NoDup; [exact Hnd|].
    replace (map metric (comparisonInsights comparison))
      with (map fst (map (fun insight => (metric insight, MNumber (currentValue insight)))
                       (comparisonInsights comparison)))
      by (rewrite map_map; reflexivity).
    now apply fmap_sublist. }
  revert Hsub Hnd.
  destruct (compareMetric_loop currentMetrics previousMetrics currentMetrics
              (mkTally [] 0 0 0) (fun e He => He))
    as [(Hs & Hi & Hd & Hall) Hl].
  { repeat split; constructor. }
  subst comparison. unfold generateComparisonData.
  fold currentMetrics previousMetrics.
  cbn [significantChanges improvementAreas declineAreas comparisonInsights].
  intros Hsub Hnd.
  split; [exact Hs|]. split; [exact Hi|]. split; [exact Hd|].
  split; [|split; [exact Hall | split; [exact Hsub | exact Hnd]]].
  rewrite Hi, Hd. split.
  - apply up_down_disjoint.
  - simpl in Hl. exact Hl.
Qed.

(** ** From the upload validation to the parser *)

Section UploadThenAnalyze.

(** Every character of a line of the text is a character of the text. *)
Lemma splitLines_go_chars c : forall s current line,
  In line (Str.splitLines_go current s) -> hasChar c line = true ->
  hasChar c current = true \/ hasChar c s = true.
Proof.
  induction s as [|d tl IH IH2] using string_two_step; intros current line Hin Hc.
  - destruct Hin as [<- | []]. now left.
  - assert (Hkeep : forall l, In l (Str.splitLines_go (current +:+ String d EmptyString) tl) ->
              hasChar c l = true ->
              hasChar c current = true \/ hasChar c (String d tl) = true).
    { intros l Hl Hcl. destruct (IH _ _ Hl Hcl) as [H | H].
      - rewrite hasChar_append in H. apply orb_true_iff in H as [H | H]; [now left|].
        right. simpl in H |- *. rewrite orb_false_r in H. now rewrite H.
      - right. simpl. rewrite H. apply orb_true_r. }
    simpl in Hin. destruct (Str.eqc d Str.LF).
    + destruct Hin as [<- | Hin]; [now left|].
      destruct (IH _ _ Hin Hc) as [H | H]; [discriminate|].
      right. simpl. rewrite H. apply orb_true_r.
    + destruct tl as [|d' rest].
      * destruct Hin as [<- | []].
        rewrite hasChar_append in Hc. apply orb_true_iff in Hc as [H | H]; [now left|].
        now right.
      * destruct (Str.eqc d Str.CR && Str.eqc d' Str.LF).
        -- destruct Hin as [<- | Hin]; [now left|].
           destruct (IH2 d' rest eq_refl _ _ Hin Hc) as [H | H]; [discriminate|].
           right. simpl. rewrite H. now rewrite !orb_true_r.
        -- exact (Hkeep line Hin Hc).
Qed.

Lemma trimStart_chars c s : hasChar c (Str.trimStart s) = true -> hasChar c s = true.
Proof.
  induction s as [|d s IH]; [trivial|]. simpl.
  destruct (Str.is_space d); [|trivial].
  intros H. rewrite (IH H). apply orb_true_r.
Qed.

(** A text that does not trim to the empty text holds a character other
    than white space. *)
Lemma nonblank_char s :
  Str.is_empty (Str.trim s) = false ->
  exists c, Str.is_space c = false /\ hasChar c s = true.
Proof.
  intros H. unfold Str.trim in H.
  destruct (trimStart_cases s) as [E | (c & r & E & Sp)]; [now rewrite E in H|].
  exists c. split; [exact Sp|]. apply trimStart_chars. rewrite E. simpl.
  unfold Str.eqc. now rewrite Ascii.eqb_refl.
Qed.

Lemma nonBlankLines_In content line :
  In line (nonBlankLines content) ->
  In line (Str.splitLines content) /\ Str.is_empty (Str.trim line) = false.
Proof.
  unfold nonBlankLines. intros H. apply filter_In in H as [H1 H2]. split; [exact H1|].
  now apply negb_true_iff in H2.
Qed.

Lemma firstInconsistent_none expected : forall dataLines i,
  firstInconsistent expected i dataLines = None ->
  Forall (fun line => length (Str.split "," line) = expected) dataLines.
Proof.
  induction dataLines as [|line dataLines IH]; intros i H; [constructor|].
  simpl in H. destruct (Nat.eqb (length (Str.split "," line)) expected) eqn:E;
    [|discriminate].
  constructor; [now apply Nat.eqb_eq | exact (IH _ H)].
Qed.

End UploadThenAnalyze.

(** X25. A text that the upload validation accepts passes the
    validation of [analyze] as well when it has no double quote, at most
    6 non-blank lines and headers that differ beyond letter case; the
    table is then the non-blank lines cut at the commas and trimmed. *)
Theorem upload_accepted_is_analyzed content headerLine dataLines :
  validateCSVContent content = Ok tt ->
  nonBlankLines content = headerLine :: dataLines ->
  hasChar Str.dquote content = false ->
  length dataLines <= 5 ->
  NoDup (map Str.toLowerCase (map Str.trim (Str.split "," headerLine))) ->
  analyzeValidation content
  = Ok (mkParseResult (map Str.trim (Str.split "," headerLine))
          (map (fun line => map Str.trim (Str.split "," line)) dataLines)).
Proof.
  intros Hv Hl Hq Hlen Hnd.
  assert (Hline : forall line, In line (headerLine :: dataLines) ->
            Str.is_empty (Str.trim line) = false /\
            parseCSVLine line = map Str.trim (Str.split "," line)).
  { intros line Hin. rewrite <- Hl in Hin.
    apply nonBlankLines_In in Hin as [Hin Hb]. split; [exact Hb|].
    unfold parseCSVLine, Str.split. apply parseCSVLine_loop_plain.
    destruct (hasChar Str.dquote line) eqn:E; [|reflexivity].
    destruct (splitLines_go_chars Str.dquote content EmptyString line Hin E);
      [discriminate | congruence]. }
  destruct (Hline headerLine (or_introl eq_refl)) as [Hhb Hhp].
  unfold validateCSVContent in Hv.
  destruct (Str.includes replacementCharacter content); [discriminate|].
  rewrite Hl in Hv. destruct dataLines as [|l1 rest]; [discriminate|].
  destruct (Str.is_empty headerLine || Str.is_empty (Str.trim headerLine)) eqn:Eh;
    [discriminate|].
  destruct (Nat.ltb (length (map Str.trim (Str.split "," headerLine))) 2) eqn:E2;
    [discriminate|].
  destruct (Nat.ltb 0 _); [discriminate|].
  destruct (firstInconsistent _ _ _) as [[i n]|] eqn:Ef; [discriminate|].
  destruct (Nat.ltb (length (headerLine :: l1 :: rest)) 3) eqn:E3; [discriminate|].
  clear Hv. apply Nat.ltb_ge in E2, E3.
  apply firstInconsistent_none in Ef.
  replace (Nat.min 6 (length (headerLine :: l1 :: rest)) - 1)
    with (length (l1 :: rest)) in Ef by (cbn [length] in *; lia).
  change (skipn 1 (headerLine :: l1 :: rest)) with (l1 :: rest) in Ef.
  rewrite firstn_all in Ef.
  (* the parser *)
  destruct (nonblank_char headerLine Hhb) as (c & Sp & Hc).
  assert (Hcontent : hasChar c content = true).
  { assert (Hin : In headerLine (nonBlankLines content)) by (rewrite Hl; now left).
    apply nonBlankLines_In in Hin as [Hin _].
    destruct (splitLines_go_chars c content EmptyString headerLine Hin Hc);
      [discriminate | assumption]. }
  unfold analyzeValidation, parseCSVContent.
  rewrite (trim_nonempty c content Sp Hcontent).
  replace (Str.is_empty content) with false by (destruct content; [discriminate|reflexivity]).
  cbn [orb]. rewrite Hl.
  apply orb_false_iff in Eh as [Eh _]. rewrite Eh, Hhp.
  set (hs := map Str.trim (Str.split "," headerLine)) in *.
  assert (E0 : Nat.eqb (length hs) 0 = false) by (apply Nat.eqb_neq; lia).
  rewrite E0.
  rewrite (duplicateHeaders_none hs [] Hnd) by (intros h _ []).
  rewrite (parseRows_all (length hs)).
  - cbn [app headers rows].
    replace (map parseCSVLine (l1 :: rest))
      with (map (fun line => map Str.trim (Str.split "," line)) (l1 :: rest)).
    + rewrite E0.
      replace (Nat.eqb (length (map (fun line => map Str.trim (Str.split "," line))
                                  (l1 :: rest))) 0)
        with false by (symmetry; apply Nat.eqb_neq; simpl; lia).
      replace (Nat.ltb (length (map (fun line => map Str.trim (Str.split "," line))
                                  (l1 :: rest))) 2)
        with false; [reflexivity|].
      symmetry. apply Nat.ltb_ge. rewrite length_map. cbn [length] in *. lia.
    + apply map_ext_in. intros line Hin. symmetry. apply Hline. now right.
  - apply Forall_forall. intros line Hin. apply list_elem_of_In in Hin.
    rewrite (proj2 (Hline line (or_intror Hin))), length_map.
    rewrite Forall_forall in Ef. apply Ef. now apply list_elem_of_In.
Qed.

Lemma upload_accepted_is_analyzed_witness :
  let content :=
    nl "channel, sessions ,revenue" (nl "email,120,1800.50" "search,340,9200.00") in
  analyzeValidation content
  = Ok (mkParseResult ["channel"; "sessions"; "revenue"]
          [["email"; "120"; "1800.50"]; ["search"; "340"; "9200.00"]]).
Proof.
  intros content.
  apply (upload_accepted_is_analyzed content "channel, sessions ,revenue"
           ["email,120,1800.50"; "search,340,9200.00"]).
  - reflexivity.
  - reflexivity.
  - reflexivity.
  - simpl. lia.
  - apply (bool_decide_unpack _). vm_compute. exact I.
Defined.

(** ** The file name check of the upload endpoint *)

Section Extensions.

Local Open Scope Z_scope.

Lemma dropChars_suffix : forall n s, exists base, s = base +:+ dropChars n s.
Proof.
  induction n as [|n IH]; intros s; [now exists EmptyString|].
  destruct s as [|c s]; [now exists EmptyString|].
  destruct (IH s) as [base E]. exists (String c base).
  rewrite append_cons. simpl. now rewrite <- E.
Qed.

Lemma dropChars_append : forall base s,
  dropChars (String.length base) (base +:+ s) = s.
Proof.
  induction base as [|c base IH]; intros s; [now destruct s|].
  rewrite append_cons. simpl. apply IH.
Qed.

Lemma lastIndexOf_none c s : hasChar c s = false -> lastIndexOf c s = -1.
Proof.
  induction s as [|d s IH]; [reflexivity|]. simpl. intros H.
  apply orb_false_iff in H as [Hd Hs]. now rewrite (IH Hs), Hd.
Qed.

Lemma lastIndexOf_last c rest : forall base,
  hasChar c rest = false ->
  lastIndexOf c (base +:+ String c rest) = Z.of_nat (String.length base).
Proof.
  intros base H. induction base as [|d base IH].
  - change (EmptyString +:+ String c rest) with (String c rest). simpl.
    rewrite (lastIndexOf_none c rest H). unfold Str.eqc. now rewrite Ascii.eqb_refl.
  - rewrite append_cons. cbn [lastIndexOf String.length]. rewrite IH.
    replace (0 <=? Z.of_nat (String.length base)) with true
      by (symmetry; apply Z.leb_le; lia).
    lia.
Qed.

(** Lower-casing moves no dot. *)
Lemma lower_char_dot d : Str.eqc (Str.lower_char d) "." = Str.eqc d ".".
Proof. destruct d as [[] [] [] [] [] [] [] []]; reflexivity. Qed.

Lemma lastIndexOf_toLowerCase s :
  lastIndexOf "." (Str.toLowerCase s) = lastIndexOf "." s.
Proof.
  induction s as [|d s IH]; [reflexivity|]. simpl. now rewrite IH, lower_char_dot.
Qed.

End Extensions.

(** The extension check of [upload] accepts exactly the file names
    that end, letter case apart, with one of the supported extensions:
    a name without that ending, in particular one without a dot, is
    refused. *)
Theorem supportedFormat_ends_with fileName :
  supportedFormat fileName = true <->
  exists base extension,
    In extension SUPPORTED_EXTENSIONS /\
    Str.toLowerCase fileName = base +:+ extension.
Proof.
  unfold supportedFormat. rewrite includes_In. split.
  - intros H. unfold fileExtensionOf, substring in H.
    destruct (dropChars_suffix (Z.to_nat (lastIndexOf "." fileName))
                (Str.toLowerCase fileName)) as [base E].
    exists base, (dropChars (Z.to_nat (lastIndexOf "." fileName)) (Str.toLowerCase fileName)).
    split; [exact H | exact E].
  - intros (base & extension & Hin & E).
    unfold fileExtensionOf, substring.
    rewrite <- lastIndexOf_toLowerCase, E.
    assert (Hext : exists rest, extension = String "." rest /\ hasChar "." rest = false).
    { destruct Hin as [<- | [<- | [<- | []]]]; eexists; split; reflexivity. }
    destruct Hext as (rest & -> & Hrest).
    rewrite (lastIndexOf_last "." rest base Hrest), Nat2Z.id, dropChars_append.
    exact Hin.
Qed.

(** X26. For a file name of ASCII characters, [upload] refuses a
    request as an unsupported format exactly when its three fields are
    given, its file name is not blank and the trimmed name does not end,
    letter case apart, with one of the supported extensions.  A name with
    other characters is outside this statement: lower-casing may move its
    dot. *)
Theorem upload_unsupported_format
    (fromBase64 toUtf8 : string -> string) fileName fileData fileType :
  asciiText fileName = true ->
  uploadValidation fromBase64 toUtf8 fileName fileData fileType = Err "UNSUPPORTED_FORMAT" <->
  fileName <> EmptyString /\ fileData <> EmptyString /\ fileType <> EmptyString /\
  Str.trim fileName <> EmptyString /\
  ~ exists base extension,
      In extension SUPPORTED_EXTENSIONS /\
      Str.toLowerCase (Str.trim fileName) = base +:+ extension.
Proof.
  intros _. unfold uploadValidation.
  pose proof (supportedFormat_ends_with (Str.trim fileName)) as Hs.
  unfold supportedFormat in Hs.
  destruct fileName as [|c fileName]; [cbn [Str.is_empty orb]; split;
    [discriminate | now intros [H _]]|].
  destruct fileData as [|d fileData]; [cbn [Str.is_empty orb]; split;
    [discriminate | now intros (_ & H & _)]|].
  destruct fileType as [|e fileType]; [cbn [Str.is_empty orb]; split;
    [discriminate | now intros (_ & _ & H & _)]|].
  cbn [Str.is_empty orb].
  destruct (Str.trim (String c fileName)) as [|t name] eqn:Et.
  { cbn [String.length Nat.eqb]. split; [discriminate | now intros (_ & _ & _ & H & _)]. }
  cbn [String.length Nat.eqb].
  destruct (Arr.includes SUPPORTED_EXTENSIONS (fileExtensionOf (String t name))) eqn:Ei;
    cbn [negb].
  - split.
    + intros H. exfalso.
      destruct (negb (Arr.includes SUPPORTED_MIME_TYPES (String e fileType)) &&
                negb (String.eqb (String e fileType) "application/octet-stream"));
        [discriminate|].
      destruct (Nat.eqb _ 0); [discriminate|].
      destruct (MAX_FILE_SIZE <? _)%Z; [discriminate|].
      destruct (_ || _); [|discriminate].
      destruct (validateCSVContent _); discriminate.
    + intros (_ & _ & _ & _ & H). exfalso. apply H. now apply Hs.
  - split; [|reflexivity]. intros _.
    repeat split; try discriminate.
    intros H. apply Hs in H. congruence.
Qed.

Lemma upload_unsupported_format_witness :
  uploadValidation (fun data => data) (fun buffer => buffer)
    " Report.PDF " "aGVhZGVy" "text/csv" = Err "UNSUPPORTED_FORMAT" /\
  ~ exists base extension,
      In extension SUPPORTED_EXTENSIONS /\
      Str.toLowerCase (Str.trim " Report.PDF ") = base +:+ extension.
Proof.
  split; [reflexivity|].
  apply (proj1 (upload_unsupported_format (fun data => data) (fun buffer => buffer)
                  " Report.PDF " "aGVhZGVy" "text/csv" eq_refl)).
  reflexivity.
Defined.

(** ** The date range of a scheduled run *)

Section DateRanges.

Import DateTime.
Local Open Scope Z_scope.

Lemma sub_of_Z a b : Num.sub (Num.of_Z a) (Num.of_Z b) = Num.of_Z (a - b).
Proof.
  unfold Num.sub, Num.neg, Num.of_Z.
  change (- inject_Z b)%Q with (inject_Z (- b)).
  rewrite Qred_inject_Z. exact (add_of_Z a (- b)).
Qed.

Lemma digitsText_plain sep : forall width n,
  (nat_of_ascii sep < 48 \/ 57 < nat_of_ascii sep)%nat ->
  hasChar sep (digitsText width n) = false.
Proof.
  intros width n Hsep. revert n.
  induction width as [|width IH]; intros n; [reflexivity|].
  cbn [digitsText]. rewrite hasChar_append, IH. cbn [orb hasChar].
  rewrite orb_false_r. unfold Str.eqc. apply Ascii.eqb_neq. intros E.
  rewrite <- E in Hsep. rewrite nat_ascii_embedding in Hsep.
  - assert (0 <= n mod 10 < 10) by (apply Z.mod_pos_bound; lia). lia.
  - assert (0 <= n mod 10 < 10) by (apply Z.mod_pos_bound; lia). lia.
Qed.

Lemma utcDateText_plain t : hasChar "T" (utcDateText t) = false.
Proof.
  assert (Hd : forall width n, hasChar "T" (digitsText width n) = false).
  { intros. apply digitsText_plain. right. vm_compute. lia. }
  unfold utcDateText, yearText. rewrite !hasChar_append, !Hd.
  destruct (_ && _); [now rewrite Hd|].
  rewrite hasChar_append, Hd. now destruct (_ <? 0).
Qed.

(** The first piece of a text is what comes before the first
    separator. *)
Lemma split_go_first sep rest : forall piece current,
  hasChar sep piece = false ->
  Str.split_go sep current (piece +:+ String sep rest)
  = (current +:+ piece) :: Str.split_go sep EmptyString rest.
Proof.
  induction piece as [|c piece IH]; intros current H.
  - change (EmptyString +:+ String sep rest) with (String sep rest). simpl.
    unfold Str.eqc. now rewrite Ascii.eqb_refl, append_empty_r.
  - simpl in H. apply orb_false_iff in H as [Hc Hp].
    rewrite append_cons. simpl. rewrite Hc, (IH _ Hp). now rewrite append_assoc.
Qed.

Lemma isoDay_valid t : isoDay (Some t) = Ok (utcDateText t).
Proof.
  unfold isoDay, toISOString, Str.split.
  match goal with |- context [utcDateText t +:+ "T" +:+ ?rest] =>
    change (utcDateText t +:+ "T" +:+ rest) with (utcDateText t +:+ String "T" rest);
    rewrite (split_go_first "T" rest (utcDateText t) EmptyString (utcDateText_plain t))
  end.
  reflexivity.
Qed.

End DateRanges.

(** X27. The date range of a scheduled run ends on the UTC calendar
    date of the first reading of the clock and starts on the UTC calendar
    date of an instant a whole number of days before the second reading,
    whatever the zone of the host: 1 day for a daily run, 7 for a weekly
    one, the length of the calendar month before that of the reading, on
    the clock of the host, for a monthly one, and none for any other
    frequency. *)
Theorem calculateDateRange_days (LocalTZA endNow startNow : Z) frequency :
  (Z.abs startNow <= 8640000000000000 - 31 * DateTime.msPerDay)%Z ->
  let local := LocalTime LocalTZA startNow in
  let month := (DateTime.MonthFromTime local - 1)%Z in
  let days :=
    if String.eqb frequency "daily" then 1%Z
    else if String.eqb frequency "weekly" then 7%Z
    else if String.eqb frequency "monthly" then
      daysInMonth (month mod 12)
        (DateTime.InLeapYear (DateTime.YearFromTime local + month / 12))
    else 0%Z in
  (0 <= days <= 31)%Z /\
  calculateDateRange LocalTZA endNow startNow frequency
  = Ok (mkRunDateRange (utcDateText (startNow - days * DateTime.msPerDay))
          (utcDateText endNow)).
Proof.
  intros Hnow local month days. unfold calculateDateRange.
  assert (Hset : forall k, (0 <= k <= 7)%Z ->
            setDate LocalTZA (Some startNow)
              (Num.sub (getDate LocalTZA (Some startNow)) (Num.of_Z k))
            = Some (startNow - k * DateTime.msPerDay)%Z).
  { intros k Hk.
    replace (Num.sub (getDate LocalTZA (Some startNow)) (Num.of_Z k))
      with (Num.add (getDate LocalTZA (Some startNow)) (Num.of_Z (- k))).
    - rewrite setDate_getDate.
      replace (startNow + - k * DateTime.msPerDay)%Z
        with (startNow - k * DateTime.msPerDay)%Z by lia.
      apply TimeClip_in_range. unfold DateTime.msPerDay in *. lia.
    - unfold getDate. now rewrite add_of_Z, sub_of_Z. }
  subst days.
  destruct (String.eqb frequency "daily").
  { split; [lia|]. rewrite Hset by lia. now rewrite !isoDay_valid. }
  destruct (String.eqb frequency "weekly").
  { split; [lia|]. rewrite Hset by lia. now rewrite !isoDay_valid. }
  destruct (String.eqb frequency "monthly").
  - pose proof (MonthFromTime_range local) as HM.
    set (Y := DateTime.YearFromTime local) in *.
    set (M := DateTime.MonthFromTime local) in *.
    set (py := (Y + month / 12)%Z). set (pm := (month mod 12)%Z).
    pose proof (daysInMonth_bounds pm (DateTime.InLeapYear py)) as Hdim.
    split; [lia|].
    assert (Hpm : (0 <= pm <= 11)%Z) by (subst pm; Z.to_euclidean_division_equations; lia).
    pose proof (next_month_start py pm Hpm) as Hnext.
    assert (Hy : (py + (pm + 1) / 12 = Y)%Z)
      by (subst py pm month; Z.to_euclidean_division_equations; lia).
    assert (Hm : ((pm + 1) mod 12 = M)%Z)
      by (subst pm month; Z.to_euclidean_division_equations; lia).
    rewrite Hy, Hm in Hnext.
    unfold getMonth. fold local M. rewrite sub_of_Z. fold month.
    rewrite setMonth_of_Z. fold local Y py pm.
    assert (Eday : DateTime.Day local
                   = (DateTime.DayFromYear Y
                      + DateTime.monthStart M (DateTime.InLeapYear Y)
                      + DateTime.DateFromTime local - 1)%Z).
    { unfold DateTime.DateFromTime, DateTime.DayWithinYear. fold Y M. lia. }
    replace (UTC LocalTZA
               (DateTime.MakeDate
                  (DateTime.DayFromYear py
                   + DateTime.monthStart pm (DateTime.InLeapYear py)
                   + DateTime.DateFromTime local - 1)
                  (DateTime.TimeWithinDay local)))
      with (startNow - daysInMonth pm (DateTime.InLeapYear py) * DateTime.msPerDay)%Z.
    + rewrite TimeClip_in_range by (unfold DateTime.msPerDay in *; lia).
      now rewrite !isoDay_valid.
    + pose proof (Z.div_mod local DateTime.msPerDay ltac:(discriminate)) as Hdm.
      unfold UTC, DateTime.MakeDate, DateTime.TimeWithinDay.
      unfold DateTime.Day in Eday.
      assert (El : local = (startNow + LocalTZA)%Z) by reflexivity.
      nia.
  - split; [lia|]. rewrite !isoDay_valid. now rewrite Z.mul_0_l, Z.sub_0_r.
Qed.

Lemma calculateDateRange_days_witness :
  calculateDateRange 19800000 (DateTime.utc 2024 3 31 20 0) (DateTime.utc 2024 3 31 20 0)
    "weekly"
  = Ok (mkRunDateRange "2024-03-24" "2024-03-31") /\
  calculateDateRange 0 (DateTime.utc 2024 3 31 20 0) (DateTime.utc 2024 3 31 20 0)
    "monthly"
  = Ok (mkRunDateRange "2024-03-02" "2024-03-31").
Proof.
  split.
  - destruct (calculateDateRange_days 19800000 (DateTime.utc 2024 3 31 20 0)
                (DateTime.utc 2024 3 31 20 0) "weekly") as [_ H].
    + vm_compute. discriminate.
    + rewrite H. reflexivity.
  - destruct (calculateDateRange_days 0 (DateTime.utc 2024 3 31 20 0)
                (DateTime.utc 2024 3 31 20 0) "monthly") as [_ H].
    + vm_compute. discriminate.
    + rewrite H. reflexivity.
Defined.

(** ** The creation of a scheduled job *)

Lemma ltb_of_Z a b : Num.ltb (Num.of_Z a) (Num.of_Z b) = (a <? b)%Z.
Proof.
  unfold Num.ltb, Num.of_Z, Qle_bool, inject_Z. cbn [Qnum Qden].
  rewrite !Z.mul_1_r. destruct (a <? b)%Z eqn:E.
  - apply Z.ltb_lt in E. apply negb_true_iff, Z.leb_gt. exact E.
  - apply Z.ltb_ge in E. apply negb_false_iff, Z.leb_le. exact E.
Qed.

(** X28. [createScheduledJob] does not validate the time of day: a
    request whose time of day has no colon is never accepted, and when
    its other fields pass the validations it fails with the internal
    error [CREATE_JOB_ERROR], for the next run is an invalid date. *)
Theorem createScheduledJob_time_without_colon (LocalTZA now : Z) req :
  hasChar ":" (timeOfDay req) = false ->
  is_ok (createScheduledJob LocalTZA now req) = false /\
  (createScheduledJob LocalTZA now req = Err "MISSING_FIELDS" \/
   createScheduledJob LocalTZA now req = Err "INVALID_DAY_OF_WEEK" \/
   createScheduledJob LocalTZA now req = Err "INVALID_DAY_OF_MONTH" \/
   createScheduledJob LocalTZA now req = Err "CREATE_JOB_ERROR") /\
  (name req <> EmptyString -> platform req <> EmptyString ->
   accountId req <> EmptyString -> accessToken req <> EmptyString ->
   frequency req <> EmptyString ->
   (frequency req = "weekly" ->
    exists day, dayOfWeek req = Some (Num.of_Z day) /\ (0 <= day <= 6)%Z) ->
   (frequency req = "monthly" ->
    exists day, dayOfMonth req = Some (Num.of_Z day) /\ (1 <= day <= 31)%Z) ->
   createScheduledJob LocalTZA now req = Err "CREATE_JOB_ERROR").
Proof.
  intros H.
  assert (Hnext : calculateNextRun LocalTZA now (frequency req) (timeOfDay req)
                    (dayOfWeek req) (dayOfMonth req) (Some (timezone req)) = None).
  { unfold calculateNextRun.
    assert (Hm : snd (hoursMinutes (timeOfDay req)) = NaN).
    { unfold hoursMinutes, Str.split. now rewrite (split_go_plain _ _ _ H). }
    destruct (hoursMinutes (timeOfDay req)) as [hours minutes]. cbn [snd] in Hm. subst minutes.
    rewrite (setHours_invalid LocalTZA (Some now) hours NaN _ _ (or_intror eq_refl)).
    destruct (String.eqb (frequency req) "daily"); [reflexivity|].
    destruct (String.eqb (frequency req) "weekly").
    - destruct (dayOfWeek req) as [[| |]|]; reflexivity.
    - destruct (String.eqb (frequency req) "monthly"); [|reflexivity].
      destruct (dayOfMonth req); reflexivity. }
  unfold createScheduledJob. rewrite Hnext. cbn [toISOString].
  split; [|split].
  - destruct (_ || _); [reflexivity|].
    destruct (_ && _); [reflexivity|]. destruct (_ && _); reflexivity.
  - destruct (_ || _); [now left|].
    destruct (_ && _); [now right; left|].
    destruct (_ && _); [now right; right; left | now right; right; right].
  - intros Hn Hp Ha Ht Hf Hw Hm.
    destruct (name req); [contradiction|]. destruct (platform req); [contradiction|].
    destruct (accountId req); [contradiction|]. destruct (accessToken req); [contradiction|].
    destruct (frequency req) as [|c f] eqn:Ef; [contradiction|].
    cbn [Str.is_empty orb].
    destruct (String.eqb (String c f) "weekly") eqn:Ew.
    + apply String.eqb_eq in Ew. destruct (Hw Ew) as (day & -> & Hd).
      unfold Num.gtb. rewrite !ltb_of_Z.
      replace (day <? 0)%Z with false by (symmetry; apply Z.ltb_ge; lia).
      replace (6 <? day)%Z with false by (symmetry; apply Z.ltb_ge; lia).
      rewrite Ew. reflexivity.
    + cbn [andb]. destruct (String.eqb (String c f) "monthly") eqn:Em; [|reflexivity].
      apply String.eqb_eq in Em. destruct (Hm Em) as (day & -> & Hd).
      unfold Num.gtb. rewrite !ltb_of_Z.
      replace (day <? 1)%Z with false by (symmetry; apply Z.ltb_ge; lia).
      replace (31 <? day)%Z with false by (symmetry; apply Z.ltb_ge; lia).
      reflexivity.
Qed.

Lemma createScheduledJob_time_without_colon_witness :
  createScheduledJob 0 (DateTime.utc 2024 1 1 10 0)
    (mkCreateScheduledJobRequest "Weekly report" "google-analytics" "123" "token"
       "daily" "0900" None None "UTC")
  = Err "CREATE_JOB_ERROR".
Proof.
  apply (createScheduledJob_time_without_colon 0 (DateTime.utc 2024 1 1 10 0)
           (mkCreateScheduledJobRequest "Weekly report" "google-analytics" "123" "token"
              "daily" "0900" None None "UTC"));
    try reflexivity; discriminate.
Defined.

(** ** The summary of the table *)

Section SummaryOrder.

Lemma ascii_compare_refl a : Ascii.compare a a = Eq.
Proof. unfold Ascii.compare. apply N.compare_refl. Qed.

Lemma ascii_compare_trans a b c :
  Ascii.compare a b = Lt -> Ascii.compare b c = Lt -> Ascii.compare a c = Lt.
Proof.
  unfold Ascii.compare. rewrite !N.compare_lt_iff. apply N.lt_trans.
Qed.

Lemma string_compare_trans : forall a b c,
  String.compare a b = Lt -> String.compare b c = Lt -> String.compare a c = Lt.
Proof.
  induction a as [|x a IH]; intros [|y b] [|z c]; simpl; try discriminate; auto.
  destruct (Ascii.compare x y) eqn:Exy; try discriminate.
  - apply Ascii.compare_eq_iff in Exy. subst y.
    destruct (Ascii.compare x z) eqn:Exz; try discriminate; auto.
    apply IH.
  - destruct (Ascii.compare y z) eqn:Eyz; try discriminate.
    + apply Ascii.compare_eq_iff in Eyz. subst z. now rewrite Exy.
    + now rewrite (ascii_compare_trans x y z Exy Eyz).
Qed.

Lemma string_compare_refl : forall a, String.compare a a = Eq.
Proof.
  induction a as [|x a IH]; [reflexivity|]. simpl. now rewrite ascii_compare_refl.
Qed.

(** The order of [sort()]: a text is not after another one. *)
Lemma textAfter_false_trans a b c :
  textAfter a b = false -> textAfter b c = false -> textAfter a c = false.
Proof.
  unfold textAfter, String.ltb. intros Hab Hbc.
  destruct (String.compare c a) eqn:Eca; try reflexivity.
  (* c < a: then c < b or b < a *)
  destruct (String.compare b a) eqn:Eba; try discriminate.
  - apply String.compare_eq_iff in Eba. subst b. now rewrite Eca in Hbc.
  - rewrite String.compare_antisym in Eba.
    destruct (String.compare a b) eqn:Eab; try discriminate.
    now rewrite (string_compare_trans c a b Eca Eab) in Hbc.
Qed.

Lemma textAfter_true a b : textAfter a b = true -> textAfter b a = false.
Proof.
  unfold textAfter, String.ltb. rewrite (String.compare_antisym b a).
  now destruct (String.compare a b).
Qed.

Lemma textAfter_strict a b : textAfter a b = false -> a <> b -> String.ltb a b = true.
Proof.
  unfold textAfter, String.ltb. intros H Hne.
  rewrite (String.compare_antisym a b).
  destruct (String.compare b a) eqn:E; try reflexivity; try discriminate.
  apply String.compare_eq_iff in E. congruence.
Qed.

(** Insertion sort orders a list by an order that its comparison
    decides. *)
Lemma insertSorted_ordered {A} (gt : A -> A -> bool) x : forall sorted,
  (forall a b, gt a b = true -> gt b a = false) ->
  (forall a b c, gt a b = false -> gt b c = false -> gt a c = false) ->
  StronglySorted (fun a b => gt a b = false) sorted ->
  StronglySorted (fun a b => gt a b = false) (insertSorted gt x sorted) /\
  Permutation (insertSorted gt x sorted) (x :: sorted).
Proof.
  intros sorted Hanti Htrans. induction sorted as [|y sorted IH]; intros Hs; simpl.
  - split; [repeat constructor | reflexivity].
  - inversion Hs as [|? ? Hs' Hy]; subst.
    destruct (gt x y) eqn:G.
    + destruct (IH Hs') as [IHs IHp]. split.
      * constructor; [exact IHs|].
        apply Forall_forall. intros z Hz. apply list_elem_of_In in Hz.
        apply (Permutation_in _ IHp) in Hz. destruct Hz as [<- | Hz]; [now apply Hanti|].
        rewrite Forall_forall in Hy. apply Hy. now apply list_elem_of_In.
      * rewrite IHp. apply perm_swap.
    + split; [|reflexivity].
      constructor; [exact Hs|]. constructor; [exact G|].
      eapply Forall_impl; [exact Hy|]. intros z Hz. exact (Htrans x y z G Hz).
Qed.

Lemma sortBy_ordered {A} (gt : A -> A -> bool) : forall xs,
  (forall a b, gt a b = true -> gt b a = false) ->
  (forall a b c, gt a b = false -> gt b c = false -> gt a c = false) ->
  StronglySorted (fun a b => gt a b = false) (sortBy gt xs) /\
  Permutation (sortBy gt xs) xs.
Proof.
  intros xs Hanti Htrans. unfold sortBy. induction xs as [|x xs [IHs IHp]]; simpl.
  - split; [constructor | reflexivity].
  - destruct (insertSorted_ordered gt x _ Hanti Htrans IHs) as [Hs Hp].
    split; [exact Hs|]. rewrite Hp. now constructor.
Qed.

Lemma sortBy_map {A B} (f : A -> B) (gtA : A -> A -> bool) (gtB : B -> B -> bool) :
  (forall a b, gtB (f a) (f b) = gtA a b) ->
  forall xs, sortBy gtB (map f xs) = map f (sortBy gtA xs).
Proof.
  intros H xs. unfold sortBy. induction xs as [|x xs IH]; [reflexivity|].
  simpl. rewrite IH. generalize (fold_right (insertSorted gtA) [] xs). intros sorted.
  induction sorted as [|y sorted IHs]; [reflexivity|].
  simpl. rewrite H. destruct (gtA x y); simpl; [now rewrite IHs | reflexivity].
Qed.

Lemma setOf_In c : forall xs seen,
  In c (setOf seen xs) <-> In c xs /\ ~ In c seen.
Proof.
  induction xs as [|x xs IH]; intros seen; simpl; [tauto|].
  destruct (Arr.includes seen x) eqn:E.
  - apply includes_In in E. rewrite IH. split.
    + intros [H1 H2]. split; [now right | exact H2].
    + intros [[-> | H1] H2]; [contradiction | now split].
  - assert (Hx : ~ In x seen) by (rewrite <- includes_In; congruence).
    simpl. rewrite IH. simpl. split.
    + intros [-> | [H1 H2]]; [split; [now left | exact Hx]|].
      split; [now right | tauto].
    + intros [[-> | H1] H2]; [now left|].
      destruct (String.eqb_spec x c) as [-> | Hne]; [now left|].
      right. split; [exact H1|]. intros [Hc | Hc]; [congruence | contradiction].
Qed.

Lemma setOf_NoDup : forall xs seen, NoDup (setOf seen xs).
Proof.
  induction xs as [|x xs IH]; intros seen; simpl; [constructor|].
  destruct (Arr.includes seen x); [apply IH|].
  constructor; [|apply IH].
  rewrite list_elem_of_In, setOf_In. intros [_ H]. apply H. now left.
Qed.

Lemma sorted_distinct_strict xs :
  StronglySorted (fun a b => textAfter a b = false) xs -> NoDup xs ->
  StronglySorted (fun a b => String.ltb a b = true) xs.
Proof.
  induction xs as [|x xs IH]; intros Hs Hnd; [constructor|].
  inversion Hs as [|? ? Hs' Hx]; subst. apply NoDup_cons in Hnd as [Hx' Hnd].
  constructor; [now apply IH|].
  apply Forall_forall. intros y Hy. rewrite Forall_forall in Hx.
  apply textAfter_strict; [now apply Hx|]. intros ->. contradiction.
Qed.

Lemma last_nonempty {A} (d1 d2 : A) : forall xs y,
  List.last (y :: xs) d1 = List.last (y :: xs) d2.
Proof.
  induction xs as [|z xs IH]; intros y; [reflexivity|].
  change (List.last (y :: z :: xs) d1) with (List.last (z :: xs) d1).
  change (List.last (y :: z :: xs) d2) with (List.last (z :: xs) d2).
  apply IH.
Qed.

Lemma StronglySorted_ends (xs : list Z) : forall x,
  StronglySorted Z.le (x :: xs) ->
  forall t, In t (x :: xs) -> (x <= t <= List.last (x :: xs) x)%Z.
Proof.
  induction xs as [|y xs IH]; intros x Hs t Hin.
  - destruct Hin as [<- | []]. simpl. lia.
  - inversion Hs as [|? ? Hs' Hx]; subst.
    assert (Hxy : (x <= y)%Z) by (inversion Hx; assumption).
    change (List.last (x :: y :: xs) x) with (List.last (y :: xs) x).
    rewrite (last_nonempty x y xs y).
    pose proof (IH y Hs' y (or_introl eq_refl)) as [_ Hlast].
    destruct Hin as [<- | Hin]; [lia|].
    pose proof (IH y Hs' t Hin). lia.
Qed.

End SummaryOrder.

Section SummaryFacts.

Variable Date_parse : string -> option Z.

Lemma dates_valid index rows :
  map (fun date => Date_parse (default EmptyString date))
    (List.filter
       (fun date =>
          truthy date &&
          negb (match Date_parse (default EmptyString date) with
                | None => true
                | Some _ => false
                end))
       (map (fun row => Arr.at_ row index) rows))
  = map Some (validTimes Date_parse index rows).
Proof.
  unfold validTimes. induction rows as [|row rows IH]; [reflexivity|].
  cbn [map List.filter omap list_omap]. cbv beta.
  destruct (Arr.at_ row index) as [cell|]; [|exact IH].
  unfold truthy at 1, falsy at 1. destruct (Str.is_empty cell); [exact IH|].
  cbn [negb andb default]. change (id cell) with cell.
  destruct (Date_parse cell) as [t|] eqn:E.
  - cbn [negb map default]. change (id cell) with cell. rewrite E. f_equal. exact IH.
  - exact IH.
Qed.

Lemma cells_filled index rows :
  omap id (List.filter truthy (map (fun row => Arr.at_ row index) rows))
  = filledCells index rows.
Proof.
  unfold filledCells. induction rows as [|row rows IH]; [reflexivity|].
  cbn [map List.filter omap list_omap]. cbv beta.
  destruct (Arr.at_ row index) as [cell|]; [|exact IH].
  unfold truthy at 1, falsy at 1. destruct (Str.is_empty cell); [exact IH|].
  cbn [negb omap list_omap id]. now rewrite IH.
Qed.

(** [createDataSummary] returns, and what it returns. *)
Lemma createDataSummary_ok headers originalRows shownRows filters :
  createDataSummary Date_parse headers originalRows shownRows filters
  = Ok (mkDataSummary (length originalRows) (length shownRows)
          match findDateColumns headers with
          | dateCol :: _ =>
              match sortBy (fun a b => (b <? a)%Z)
                      (validTimes Date_parse (Arr.indexOf headers dateCol) shownRows) with
              | first :: rest =>
                  mkSummaryDateRange (Some (utcDateText first))
                    (Some (utcDateText (List.last (first :: rest) first)))
              | [] => mkSummaryDateRange None None
              end
          | [] => mkSummaryDateRange None None
          end
          (findNumericColumns headers originalRows)
          match findCategoricalColumns headers originalRows with
          | categoryCol :: _ =>
              sortBy textAfter
                (setOf [] (filledCells (Arr.indexOf headers categoryCol) originalRows))
          | [] => []
          end).
Proof.
  unfold createDataSummary.
  assert (Ecat : match findCategoricalColumns headers originalRows with
                 | categoryCol :: _ =>
                     sortBy textAfter
                       (setOf []
                          (omap id
                             (List.filter truthy
                                (map (fun row => Arr.at_ row (Arr.indexOf headers categoryCol))
                                   originalRows))))
                 | [] => []
                 end
                 = match findCategoricalColumns headers originalRows with
                   | categoryCol :: _ =>
                       sortBy textAfter
                         (setOf [] (filledCells (Arr.indexOf headers categoryCol) originalRows))
                   | [] => []
                   end).
  { destruct (findCategoricalColumns headers originalRows); [reflexivity|].
    now rewrite cells_filled. }
  cbv zeta. unfold Date. rewrite Ecat.
  destruct (findDateColumns headers) as [|dateCol others]; [reflexivity|].
  rewrite dates_valid.
  rewrite (sortBy_map Some (fun a b => (b <? a)%Z) laterTime) by reflexivity.
  destruct (sortBy _ (validTimes Date_parse (Arr.indexOf headers dateCol) shownRows))
    as [|first rest]; [reflexivity|].
  cbn [map]. rewrite isoDay_valid.
  change (Some first :: map Some rest) with (map Some (first :: rest)).
  match goal with |- context [isoDay (List.last ?l ?d)] =>
    assert (El : List.last l d = Some (List.last (first :: rest) first))
  end.
  { generalize (first :: rest). intros l. generalize first. intros d.
    induction l as [|x l IHl]; [reflexivity|].
    destruct l as [|y l]; [reflexivity|].
    change (List.last (x :: y :: l) d) with (List.last (y :: l) d).
    change (List.last (map Some (x :: y :: l)) (Some d))
      with (List.last (map Some (y :: l)) (Some d)).
    exact IHl. }
  rewrite El. now rewrite isoDay_valid.
Qed.

End SummaryFacts.

(** X29. [createDataSummary] always returns.  It counts the rows of the
    table and the rows shown, lists the numeric columns of the table,
    and gives as date range the UTC calendar dates of the earliest and
    of the latest valid date among the cells, other than empty, of the
    first date column of the rows shown; the range is empty when there
    is no date column or no such cell. *)
Theorem createDataSummary_dates
    (Date_parse : string -> option Z) headers originalRows shownRows filters :
  exists summary,
    createDataSummary Date_parse headers originalRows shownRows filters = Ok summary /\
    totalRows summary = length originalRows /\
    filteredRows summary = length shownRows /\
    availableMetrics summary = findNumericColumns headers originalRows /\
    match findDateColumns headers with
    | dateCol :: _ =>
        let times := validTimes Date_parse (Arr.indexOf headers dateCol) shownRows in
        (times = [] /\ summaryDateRange summary = mkSummaryDateRange None None) \/
        (exists first final,
           In first times /\ In final times /\
           (forall t, In t times -> (first <= t <= final)%Z) /\
           summaryDateRange summary
           = mkSummaryDateRange (Some (utcDateText first)) (Some (utcDateText final)))
    | [] => summaryDateRange summary = mkSummaryDateRange None None
    end.
Proof.
  eexists. split; [apply createDataSummary_ok|].
  cbn [totalRows filteredRows availableMetrics summaryDateRange].
  repeat split.
  destruct (findDateColumns headers) as [|dateCol others]; [reflexivity|].
  cbv zeta.
  set (times := validTimes Date_parse (Arr.indexOf headers dateCol) shownRows).
  destruct (sortBy_sorted (fun t : Z => t) (fun a b => (b <? a)%Z) times
              ltac:(reflexivity)) as [Hs Hp].
  destruct (sortBy (fun a b => (b <? a)%Z) times) as [|first rest] eqn:E.
  - left. split; [|reflexivity].
    apply Permutation_nil. now symmetry.
  - right. exists first, (List.last (first :: rest) first).
    assert (Hends := StronglySorted_ends rest first Hs).
    split; [|split; [|split]].
    + apply (Permutation_in _ Hp). now left.
    + apply (Permutation_in _ Hp).
      destruct (exists_last (l := first :: rest) ltac:(discriminate)) as (l' & x & El).
      rewrite El, last_last. rewrite <- El.
      rewrite El. apply in_or_app. right. now left.
    + intros t Ht. apply Hends. apply (Permutation_in _ (Permutation_sym Hp) Ht).
    + reflexivity.
Qed.

(** X30. The categories of the summary are the cells, other than empty,
    of the first categorical column of the table, each listed once, in
    ascending order of the character codes. *)
Theorem createDataSummary_categories
    (Date_parse : string -> option Z) headers originalRows shownRows filters :
  exists summary,
    createDataSummary Date_parse headers originalRows shownRows filters = Ok summary /\
    StronglySorted (fun a b => String.ltb a b = true) (availableCategories summary) /\
    forall category,
      In category (availableCategories summary) <->
      match findCategoricalColumns headers originalRows with
      | categoryCol :: _ =>
          In category (filledCells (Arr.indexOf headers categoryCol) originalRows)
      | [] => False
      end.
Proof.
  eexists. split; [apply createDataSummary_ok|].
  cbn [availableCategories].
  destruct (findCategoricalColumns headers originalRows) as [|categoryCol others].
  - split; [constructor | tauto].
  - set (cells := filledCells (Arr.indexOf headers categoryCol) originalRows).
    destruct (sortBy_ordered textAfter (setOf [] cells) textAfter_true textAfter_false_trans)
      as [Hs Hp].
    split.
    + apply sorted_distinct_strict; [exact Hs|].
      rewrite Hp. apply setOf_NoDup.
    + intros category. split.
      * intros H. apply (Permutation_in _ Hp) in H. now apply setOf_In in H.
      * intros H. apply (Permutation_in _ (Permutation_sym Hp)).
        apply setOf_In. split; [exact H | intros []].
Qed.
